(** * Student performance dashboard: preprocessing, inference and insights

    A shallow embedding of the prediction pipeline of the dashboard
    ([web_app.py], [check_models.py], [gui/prediction_window.py],
    [gui/analytics_window.py]) and the properties of its specification.

    Conventions of the embedding:
    - Python exceptions are values of [exn]; code that may raise returns
      [result A], and sequencing is the bind of that monad.
    - DataFrame cells are [value]s: 64-bit integers as [Z], floats as
      IEEE binary64 ([PrimFloat.float]), strings as [string].
    - A DataFrame is a column store: a row count and a finite map from
      column name to the cells of that column.
    - Dictionaries ([label_encoders], a student record) are [gmap]s. *)

From Stdlib Require Import ZArith Floats Lia Bool.
From Stdlib Require Import DecimalString.
From stdpp Require Import gmap strings list pretty.

Set Warnings "-inexact-float".

(** ** Exceptions and the result monad *)

Inductive exn : Type :=
| AttributeError (msg : string)
| TypeError (msg : string)
| IndexError (msg : string)
| KeyError (msg : string)
| ValueError (msg : string)
| ZeroDivisionError (msg : string).

Definition result : Type → Type := sum exn.

Definition raise {A : Type} (e : exn) : result A := inl e.

#[global] Instance result_ret : MRet result := λ A a, inr a.
#[global] Instance result_bind : MBind result :=
  λ A B k m, match m with inl e => inl e | inr a => k a end.

Definition is_ok {A : Type} (r : result A) : Prop := ∃ a, r = inr a.

(** ** Cell values *)

Inductive value : Type :=
| VInt (z : Z)
| VFloat (f : float)
| VStr (s : string).

#[global] Instance value_inhabited : Inhabited value := populate (VInt 0).

(** ** Numbers

    [Z2F] is the conversion of a Python or NumPy integer to binary64
    (round to nearest even), as done by true division [/] and by the
    comparison of a float with an [int] literal. *)

Definition Z2F (z : Z) : float := SF2Prim (binary_normalize prec emax z 0 false).

(** [is_nan f] is [negb (f =? f)]: a NaN is the only float that differs
    from itself. *)
Definition not_nan (f : float) : Prop := is_nan f = false.

(** A probability: a float between 0 and 1 (so not a NaN). *)
Definition in_unit (p : float) : Prop :=
  (0 <=? p)%float = true ∧ (p <=? 1)%float = true.

(** [c] is the maximum of the vector [ps]: one of its entries, at least
    every entry when none is a NaN, and a probability when all are. *)
Definition max_probability (c : float) (ps : list float) : Prop :=
  c ∈ ps ∧
  (Forall not_nan ps → ∀ q, q ∈ ps → (q <=? c)%float = true) ∧
  (Forall in_unit ps → in_unit c).

(** ** Builtins of Python and NumPy used by the pipeline *)

(** [xs[0]] *)
Definition getitem0 {A : Type} (xs : list A) : result A :=
  match xs with
  | x :: _ => mret x
  | [] => raise (IndexError "index 0 is out of bounds for axis 0 with size 0")
  end.

(** The builtin [max(iterable)]: the running maximum is replaced when
    [item > maxitem]. *)
Definition py_step (maxitem item : float) : float :=
  if (maxitem <? item)%float then item else maxitem.

Definition py_max (xs : list float) : result float :=
  match xs with
  | [] => raise (ValueError "max() arg is an empty sequence")
  | x :: rest => mret (foldl py_step x rest)
  end.

(** [np.maximum(a, b)] is [a] when [a >= b] or [a] is a NaN, else [b];
    [np.max(probas, axis=1)] reduces each row with it. *)
Definition np_maximum (a b : float) : float :=
  if (b <=? a)%float || is_nan a then a else b.

Definition np_max (row : list float) : result float :=
  match row with
  | [] => raise (ValueError "zero-size array to reduction operation maximum which has no identity")
  | x :: rest => mret (foldl np_maximum x rest)
  end.

(** The builtin [sum] over integer predictions. *)
Definition py_sum (xs : list Z) : Z := foldl Z.add 0%Z xs.

(** [a / b] on integers: true division, [ZeroDivisionError] when [b] is 0. *)
Definition true_div (a b : Z) : result float :=
  if (b =? 0)%Z then raise (ZeroDivisionError "division by zero")
  else mret (Z2F a / Z2F b)%float.

(** A loop [for x in items: s = body(s, x)] whose body may raise. *)
Fixpoint for_each {S A : Type} (body : S → A → result S) (s : S) (items : list A)
  : result S :=
  match items with
  | [] => mret s
  | x :: rest => s' ← body s x; for_each body s' rest
  end.

(** ** Label encoders (scikit-learn's [LabelEncoder])

    [classes_] is the stored vocabulary, in the encoder's own order; the
    code of a category is its position in [classes_]. *)

Record LabelEncoder : Type := { classes_ : list string }.

Fixpoint index_of (y : string) (classes : list string) : option nat :=
  match classes with
  | [] => None
  | c :: rest => if bool_decide (y = c) then Some 0 else S <$> index_of y rest
  end.

(** [encoder.transform] on one label: [ValueError] on an unseen label. *)
Definition transform1 (encoder : LabelEncoder) (y : string) : result value :=
  match index_of y (classes_ encoder) with
  | Some i => mret (VInt (Z.of_nat i))
  | None => raise (ValueError "y contains previously unseen labels")
  end.

Definition transform (encoder : LabelEncoder) (ys : list string) : result (list value) :=
  mapM (transform1 encoder) ys.

(** The integer code of a category, when the encoder knows it. *)
Definition code_of (encoder : LabelEncoder) (category : string) : option Z :=
  Z.of_nat <$> index_of category (classes_ encoder).

(** [lambda x: x if x in known_categories else encoder.classes_[0]] *)
Definition known_or_first (encoder : LabelEncoder) (x : string) : result string :=
  if bool_decide (x ∈ classes_ encoder) then mret x
  else getitem0 (classes_ encoder).

(** ** DataFrames *)

(** A frame as read from a form or a CSV file: [nrows] rows, and the cells
    of each named column. *)
Record DataFrame : Type := {
  nrows : nat;
  columns : gmap string (list value)
}.

(** Every column holds one cell per row. *)
Definition well_formed (df : DataFrame) : Prop :=
  map_Forall (λ _ cells, length cells = nrows df) (columns df).

(** [df[column] = cells] *)
Definition setitem (column : string) (cells : list value) (df : DataFrame) : DataFrame :=
  {| nrows := nrows df; columns := <[column := cells]> (columns df) |}.

(** [df.iloc[[i]]]: the one-row frame holding row [i] of [df]. *)
Definition iloc (i : nat) (df : DataFrame) : DataFrame :=
  {| nrows := 1; columns := (λ cells, take 1 (drop i cells)) <$> columns df |}.

(** The result of [df[names]]: the selected columns, in the order asked. *)
Record FeatureFrame : Type := {
  ff_nrows : nat;
  ff_columns : list (string * list value)
}.

(** The selection of row [i] of a frame. *)
Definition ff_iloc (i : nat) (X : FeatureFrame) : FeatureFrame :=
  {| ff_nrows := 1;
     ff_columns := prod_map id (λ cells, take 1 (drop i cells)) <$> ff_columns X |}.

(** The rows of a selection, as the classifier receives them. *)
Definition to_rows (X : FeatureFrame) : list (list value) :=
  foldr (λ col rows, zip_with cons col.2 rows) (replicate (ff_nrows X) []) (ff_columns X).

(** [df[names]]: [KeyError] on a name that is not a column. *)
Definition getitem_list (df : DataFrame) (names : list string) : result FeatureFrame :=
  cols ← mapM (λ name,
                 match columns df !! name with
                 | Some cells => mret (name, cells)
                 | None => raise (KeyError name)
                 end) names;
  mret {| ff_nrows := nrows df; ff_columns := cols |}.

(** ** The classifier

    The loaded scikit-learn model (a random forest). Its [predict] and
    [predict_proba] first validate the frame, which must have a row, and
    are then row-aligned: each output row is computed from the matching
    input row alone, and a rejected row makes the whole call raise. *)

Record Classifier : Type := {
  predict1 : list value → result Z;
  predict_proba1 : list value → result (list float)
}.

(** The exception of scikit-learn's input validation on a frame without
    rows. *)
Definition no_samples (X : FeatureFrame) : exn :=
  ValueError ("Found array with 0 sample(s) (shape=(0, "
              +:+ pretty (length (ff_columns X))
              +:+ ")) while a minimum of 1 is required by RandomForestClassifier.").

(** [check_array] with [ensure_min_samples=1]: the rows of the frame, if
    there is one. *)
Definition check_array (X : FeatureFrame) : result (list (list value)) :=
  match to_rows X with
  | [] => raise (no_samples X)
  | rows => mret rows
  end.

Definition predict (clf : Classifier) (X : FeatureFrame) : result (list Z) :=
  rows ← check_array X;
  mapM (predict1 clf) rows.

Definition predict_proba (clf : Classifier) (X : FeatureFrame) : result (list (list float)) :=
  rows ← check_array X;
  mapM (predict_proba1 clf) rows.

(** ** [WebModelHandler] ([web_app.py]) *)

(** The three artifacts; [None] until [load_models] has read them. *)
Record WebModelHandler : Type := {
  model : option Classifier;
  label_encoders : option (gmap string LabelEncoder);
  feature_names : option (list string)
}.

Section Pipeline.

(** Python's [str] of a float ([Series.astype(str)] on a float column). *)
Variable float_repr : float → string.

Definition astype_str (v : value) : string :=
  match v with
  | VInt z => pretty z
  | VFloat f => float_repr f
  | VStr s => s
  end.

(** The body of the encoder loop on one column: coerce to strings, replace
    unknown categories by the first class, transform to codes. *)
Definition encode_column (encoder : LabelEncoder) (cells : list value)
  : result (list value) :=
  let strs := astype_str <$> cells in
  replaced ← mapM (known_or_first encoder) strs;
  transform encoder replaced.

(** The content of every selected column, in terms of the input frame. *)
Definition column_of (df : DataFrame) (encoders : gmap string LabelEncoder)
    (feature : string) (out : list value) : Prop :=
  match columns df !! feature with
  | None => out = replicate (nrows df) (VInt 0)
  | Some cells =>
      match encoders !! feature with
      | Some encoder => encode_column encoder cells = inr out
      | None => out = cells
      end
  end.

(** What the three column operations do to one cell. *)
Definition encode_cell (encoder : LabelEncoder) (v : value) : result value :=
  known_or_first encoder (astype_str v) ≫= transform1 encoder.

Definition encode_step (processed_df : DataFrame) (item : string * LabelEncoder)
  : result DataFrame :=
  let '(column, encoder) := item in
  match columns processed_df !! column with
  | Some cells =>
      codes ← encode_column encoder cells;
      mret (setitem column codes processed_df)
  | None => mret processed_df
  end.

(** [if feature not in processed_df.columns: processed_df[feature] = 0] *)
Definition fill_missing (processed_df : DataFrame) (feature : string) : DataFrame :=
  match columns processed_df !! feature with
  | Some _ => processed_df
  | None => setitem feature (replicate (nrows processed_df) (VInt 0)) processed_df
  end.

(** [preprocess_data]. The items of [label_encoders] are visited in the
    order [map_to_list] lists them; the result is the same in any other
    order (lemma [encoder_loop_any_order]). *)
Definition preprocess_data (self : WebModelHandler) (df : DataFrame)
  : result FeatureFrame :=
  let processed_df := df in
  encoders ← match label_encoders self with
             | Some encoders => mret encoders
             | None => raise (AttributeError "'NoneType' object has no attribute 'items'")
             end;
  processed_df ← for_each encode_step processed_df (map_to_list encoders);
  features ← match feature_names self with
             | Some features => mret features
             | None => raise (TypeError "'NoneType' object is not iterable")
             end;
  let processed_df := foldl fill_missing processed_df features in
  getitem_list processed_df features.

(** [self.model.predict]: attribute access on the loaded model. *)
Definition get_model (self : WebModelHandler) : result Classifier :=
  match model self with
  | Some clf => mret clf
  | None => raise (AttributeError "'NoneType' object has no attribute 'predict'")
  end.

Definition predict_single (self : WebModelHandler) (df : DataFrame)
  : result (Z * float) :=
  processed_data ← preprocess_data self df;
  clf ← get_model self;
  predictions ← predict clf processed_data;
  prediction ← getitem0 predictions;
  probas ← predict_proba clf processed_data;
  prediction_proba ← getitem0 probas;
  confidence ← py_max prediction_proba;
  mret (prediction, confidence).

Definition predict_batch (self : WebModelHandler) (df : DataFrame)
  : result (list Z * list float) :=
  processed_data ← preprocess_data self df;
  clf ← get_model self;
  predictions ← predict clf processed_data;
  prediction_probas ← predict_proba clf processed_data;
  confidences ← mapM np_max prediction_probas;
  mret (predictions, confidences).

End Pipeline.

(** ** Summary statistics of a batch

    [show_batch_analysis] ([web_app.py]) and [generate_insights]
    ([gui/analytics_window.py]) compute the rates from the predictions
    with Python's true division. *)

Record SummaryMetrics : Type := {
  total_students : nat;
  good_performance : Z;
  needs_support : Z;
  avg_confidence : float;
  good_percent : float;
  needs_percent : float
}.

Inductive performance_insight : Type :=
| Excellent (rate : float)
| Moderate (rate : float)
| Concerning (rate : float).

Section Summary.

(** NumPy's [np.mean]. *)
Variable np_mean : list float → float.

Definition summary_statistics (predictions : list Z) (confidences : list float)
  : result SummaryMetrics :=
  let good_performance := py_sum predictions in
  let needs_support := (Z.of_nat (length predictions) - good_performance)%Z in
  let avg_confidence := np_mean confidences in
  good_ratio ← true_div good_performance (Z.of_nat (length predictions));
  needs_ratio ← true_div needs_support (Z.of_nat (length predictions));
  mret {| total_students := length predictions;
          good_performance := good_performance;
          needs_support := needs_support;
          avg_confidence := avg_confidence;
          good_percent := (good_ratio * 100)%float;
          needs_percent := (needs_ratio * 100)%float |}.

End Summary.

(** The first insight of [AnalyticsWindow.generate_insights]. *)
Definition generate_insights_performance (predictions : list Z)
  : result performance_insight :=
  ratio ← true_div (py_sum predictions) (Z.of_nat (length predictions));
  let good_performance_rate := (ratio * 100)%float in
  mret (if (70 <? good_performance_rate)%float then Excellent good_performance_rate
        else if (50 <? good_performance_rate)%float then Moderate good_performance_rate
        else Concerning good_performance_rate).

(** The guard of the sibling [AnalyticsWindow.analyze_risk_factors]:
    an empty high-risk set is reported, not divided by. *)
Definition analyze_risk_factors_guard (total_high_risk : nat) : option string :=
  if (total_high_risk =? 0)%nat then Some "No high-risk students identified" else None.

(** ** Risk tiers

    A row of the analysed frame: the student's attributes joined with the
    prediction columns. The tiers are the boolean-mask selections of
    [show_batch_analysis] and [AnalyticsWindow.create_risk_analysis]. *)

Record AnalyzedRow : Type := {
  student : gmap string value;
  Predicted_Performance : Z;
  Confidence : float
}.

Definition is_high_risk (r : AnalyzedRow) : bool :=
  (Predicted_Performance r =? 0)%Z && (0.7 <? Confidence r)%float.

Definition is_medium_risk (r : AnalyzedRow) : bool :=
  (Predicted_Performance r =? 0)%Z && (Confidence r <=? 0.7)%float.

Definition is_low_confidence (r : AnalyzedRow) : bool :=
  (Confidence r <? 0.6)%float.

Definition high_risk (df : list AnalyzedRow) : list AnalyzedRow :=
  List.filter is_high_risk df.

Definition medium_risk (df : list AnalyzedRow) : list AnalyzedRow :=
  List.filter is_medium_risk df.

Definition low_confidence (df : list AnalyzedRow) : list AnalyzedRow :=
  List.filter is_low_confidence df.

(** The reading of the specification in which a low-confidence row can
    also be a high-risk row. *)
Definition low_confidence_may_overlap_high : Prop :=
  ∃ (df : list AnalyzedRow) (r : AnalyzedRow), r ∈ high_risk df ∧ r ∈ low_confidence df.

(** ** Recommendations *)

(** [student_data.get(key, default)] *)
Definition dict_get (student_data : gmap string value) (key : string) (dflt : value)
  : value :=
  default dflt (student_data !! key).

(** [v < n] and [v > n] against an integer literal: a string operand
    raises [TypeError]. *)
Definition lt_int (v : value) (n : Z) : result bool :=
  match v with
  | VInt z => mret (z <? n)%Z
  | VFloat f => mret (f <? Z2F n)%float
  | VStr _ => raise (TypeError "'<' not supported between instances of 'str' and 'int'")
  end.

Definition gt_int (v : value) (n : Z) : result bool :=
  match v with
  | VInt z => mret (n <? z)%Z
  | VFloat f => mret (Z2F n <? f)%float
  | VStr _ => raise (TypeError "'>' not supported between instances of 'str' and 'int'")
  end.

(** [v == 'text'] *)
Definition eq_str (v : value) (text : string) : bool :=
  match v with
  | VStr s => bool_decide (s = text)
  | _ => false
  end.

(** [list.append] under a condition. *)
Definition append_if (c : bool) (recommendations : list string) (text : string)
  : list string :=
  if c then recommendations ++ [text] else recommendations.

Module Web.

(** [get_recommendations] of [web_app.py]. *)
Definition get_recommendations (prediction : Z) (student_data : gmap string value)
  : result (list string) :=
  let recommendations := [] in
  recommendations ←
    (if (prediction =? 0)%Z then
       c ← lt_int (dict_get student_data "studytime" (VInt 0)) 3;
       let recommendations :=
         append_if c recommendations
           "Increase weekly study time to improve academic performance" in
       c ← gt_int (dict_get student_data "failures" (VInt 0)) 0;
       let recommendations :=
         append_if c recommendations
           "Consider additional tutoring to address past academic challenges" in
       c ← gt_int (dict_get student_data "absences" (VInt 0)) 10;
       let recommendations :=
         append_if c recommendations
           "Improve attendance to better engage with course material" in
       let recommendations :=
         append_if (eq_str (dict_get student_data "schoolsup" (VStr "")) "no")
           recommendations "Consider enrolling in school support programs" in
       let recommendations :=
         append_if (eq_str (dict_get student_data "famsup" (VStr "")) "no")
           recommendations "Encourage family involvement in academic activities" in
       mret recommendations
     else
       let recommendations :=
         recommendations ++ ["Continue current study habits and maintain good attendance"] in
       let recommendations :=
         recommendations ++ ["Consider taking on leadership roles or advanced courses"] in
       let recommendations :=
         append_if (eq_str (dict_get student_data "higher" (VStr "")) "yes")
           recommendations "Start preparing for higher education applications" in
       let recommendations :=
         recommendations ++ ["Maintain a healthy balance between academics and social activities"] in
       mret recommendations);
  let recommendations :=
    match recommendations with
    | [] => recommendations ++ ["Continue monitoring academic progress regularly"]
    | _ => recommendations
    end in
  mret recommendations.

End Web.

Module Desktop.

(** [PredictionWindow.get_recommendations] of [gui/prediction_window.py]. *)
Definition get_recommendations (prediction : Z) (student_data : gmap string value)
  : result (list string) :=
  let recommendations := [] in
  recommendations ←
    (if (prediction =? 0)%Z then
       c ← lt_int (dict_get student_data "studytime" (VInt 0)) 3;
       let recommendations :=
         append_if c recommendations
           "Increase weekly study time to improve academic performance" in
       c ← gt_int (dict_get student_data "failures" (VInt 0)) 0;
       let recommendations :=
         append_if c recommendations
           "Consider additional tutoring to address past academic challenges" in
       c ← gt_int (dict_get student_data "absences" (VInt 0)) 10;
       let recommendations :=
         append_if c recommendations
           "Improve attendance to better engage with course material" in
       let recommendations :=
         append_if (eq_str (dict_get student_data "schoolsup" (VStr "")) "no")
           recommendations "Consider enrolling in school support programs" in
       let recommendations :=
         append_if (eq_str (dict_get student_data "famsup" (VStr "")) "no")
           recommendations "Encourage family involvement in academic activities" in
       mret recommendations
     else
       let recommendations :=
         recommendations ++ ["Continue current study habits and maintain good attendance"] in
       let recommendations :=
         recommendations ++ ["Consider taking on leadership roles or advanced courses"] in
       let recommendations :=
         append_if (eq_str (dict_get student_data "higher" (VStr "")) "yes")
           recommendations "Start preparing for higher education applications" in
       let recommendations :=
         recommendations ++ ["Maintain a healthy balance between academics and social activities"] in
       mret recommendations);
  let recommendations :=
    match recommendations with
    | [] => recommendations ++ ["Continue monitoring academic progress regularly"]
    | _ => recommendations
    end in
  mret recommendations.

End Desktop.

(** The rule table as the specification words it (section 4.3): a list of
    independent rules keyed off the predicted class; every rule whose
    condition holds contributes its text, in table order; when none
    does, one generic recommendation is given. *)
Module RuleTable.

Record rule : Type := {
  applies : gmap string value → bool;
  advice : string
}.

Definition number_below (field : string) (n : Z) (d : gmap string value) : bool :=
  match dict_get d field (VInt 0) with
  | VInt z => (z <? n)%Z
  | VFloat f => (f <? Z2F n)%float
  | VStr _ => false
  end.

Definition number_above (field : string) (n : Z) (d : gmap string value) : bool :=
  match dict_get d field (VInt 0) with
  | VInt z => (n <? z)%Z
  | VFloat f => (Z2F n <? f)%float
  | VStr _ => false
  end.

Definition answer_is (field text : string) (d : gmap string value) : bool :=
  eq_str (dict_get d field (VStr "")) text.

Definition study_time_advice : string :=
  "Increase weekly study time to improve academic performance".
Definition tutoring_advice : string :=
  "Consider additional tutoring to address past academic challenges".
Definition attendance_advice : string :=
  "Improve attendance to better engage with course material".
Definition school_support_advice : string :=
  "Consider enrolling in school support programs".
Definition family_advice : string :=
  "Encourage family involvement in academic activities".
Definition generic_advice : string :=
  "Continue monitoring academic progress regularly".

Definition needs_support_rules : list rule :=
  [ {| applies := number_below "studytime" 3; advice := study_time_advice |};
    {| applies := number_above "failures" 0; advice := tutoring_advice |};
    {| applies := number_above "absences" 10; advice := attendance_advice |};
    {| applies := answer_is "schoolsup" "no"; advice := school_support_advice |};
    {| applies := answer_is "famsup" "no"; advice := family_advice |} ].

Definition good_performance_rules : list rule :=
  [ {| applies := λ _, true;
       advice := "Continue current study habits and maintain good attendance" |};
    {| applies := λ _, true;
       advice := "Consider taking on leadership roles or advanced courses" |};
    {| applies := answer_is "higher" "yes";
       advice := "Start preparing for higher education applications" |};
    {| applies := λ _, true;
       advice := "Maintain a healthy balance between academics and social activities" |} ].

Definition rules_for (prediction : Z) : list rule :=
  if (prediction =? 0)%Z then needs_support_rules else good_performance_rules.

Definition fired (rules : list rule) (d : gmap string value) : list string :=
  advice <$> List.filter (λ r, applies r d) rules.

Definition recommend (prediction : Z) (d : gmap string value) : list string :=
  match fired (rules_for prediction) d with
  | [] => [generic_advice]
  | texts => texts
  end.

(** The attributes compared with numbers hold numbers. *)
Definition numeric_fields (d : gmap string value) : bool :=
  forallb (λ field, match d !! field with Some (VStr _) => false | _ => true end)
          ["studytime"; "failures"; "absences"].

End RuleTable.

(** ** The model check of [check_models.py]

    [check_models] repeats the preprocessing steps inline (lines 60 to 74)
    on the artifacts it has just loaded. *)

Module CheckModels.

Definition preprocess (float_repr : float → string)
    (label_encoders : gmap string LabelEncoder) (feature_names : list string)
    (df : DataFrame) : result FeatureFrame :=
  let processed_df := df in
  processed_df ←
    for_each (encode_step float_repr) processed_df (map_to_list label_encoders);
  let processed_df := foldl fill_missing processed_df feature_names in
  getitem_list processed_df feature_names.

End CheckModels.

(** ** Readings of the specification that the code does not follow *)

(** Preprocessing fails whenever the encoders mapping or the feature list
    is unavailable or empty. *)
Definition fails_without_schema : Prop :=
  ∀ (float_repr : float → string) (self : WebModelHandler) (df : DataFrame),
    label_encoders self = None ∨ label_encoders self = Some ∅ ∨
    feature_names self = None ∨ feature_names self = Some [] →
    ∃ e, preprocess_data float_repr self df = inl e.

(** The index of the first row the classifier rejects. *)
Fixpoint first_rejected (clf : Classifier) (rows : list (list value)) : option nat :=
  match rows with
  | [] => None
  | row :: rest =>
      match predict1 clf row with
      | inl _ => Some 0
      | inr _ => S <$> first_rejected clf rest
      end
  end.

(** The exception surfaced by batch prediction tells which row the
    classifier rejected. *)
Definition error_identifies_row : Prop :=
  ∃ row_index : exn → nat,
    ∀ (float_repr : float → string) (self : WebModelHandler) (clf : Classifier)
      (df : DataFrame) (X : FeatureFrame) (e : exn) (i : nat),
      model self = Some clf →
      preprocess_data float_repr self df = inr X →
      predict_batch float_repr self df = inl e →
      first_rejected clf (to_rows X) = Some i →
      row_index e = i.

(** Batch prediction on a batch of any size, the empty one included,
    returns what the single-row predictions on its rows return. *)
Definition batch_is_sequential_singles : Prop :=
  ∀ (float_repr : float → string) (self : WebModelHandler) (clf : Classifier)
    (encoders : gmap string LabelEncoder) (features : list string)
    (df : DataFrame) (preds : list Z) (confs : list float),
    model self = Some clf →
    label_encoders self = Some encoders → feature_names self = Some features →
    well_formed df →
    (∀ row ps, predict_proba1 clf row = inr ps → Forall not_nan ps) →
    predict_batch float_repr self df = inr (preds, confs) ↔
    length preds = nrows df ∧ length confs = nrows df ∧
    ∀ i, i < nrows df →
      ∃ p c, preds !! i = Some p ∧ confs !! i = Some c ∧
             predict_single float_repr self (iloc i df) = inr (p, c).

(** The cells of a column encoded with [encoder]: one code per cell; the
    code of the cell's own category when the encoder knows its string
    form, the code of the first category of the vocabulary otherwise. *)
Definition encoded_with (float_repr : float → string) (encoder : LabelEncoder)
    (cells codes : list value) : Prop :=
  length codes = length cells ∧
  ∀ i v, cells !! i = Some v →
    (astype_str float_repr v ∈ classes_ encoder →
       ∃ k, code_of encoder (astype_str float_repr v) = Some k ∧
            codes !! i = Some (VInt k)) ∧
    (astype_str float_repr v ∉ classes_ encoder →
       ∃ c0 k0, classes_ encoder !! 0 = Some c0 ∧ code_of encoder c0 = Some k0 ∧
                codes !! i = Some (VInt k0)).

(** ** Example inputs *)

(** The end-to-end example of the specification: class 0, study time 2,
    no failures, 6 absences, school support, no family support. *)
Definition example_student : gmap string value :=
  <["studytime" := VInt 2]> (<["failures" := VInt 0]> (<["absences" := VInt 6]>
  (<["schoolsup" := VStr "yes"]> (<["famsup" := VStr "no"]>
  (<["G1" := VInt 5]> (<["G2" := VInt 6]> ∅)))))).

Module Sample.

(** The only float cells of the examples are missing values, printed
    ["nan"]. *)
Definition nan_repr (f : float) : string := "nan".

Definition sex_encoder : LabelEncoder := {| classes_ := ["F"; "M"] |}.
Definition famsup_encoder : LabelEncoder := {| classes_ := ["no"; "yes"] |}.

Definition encoders : gmap string LabelEncoder :=
  <["sex" := sex_encoder]> (<["famsup" := famsup_encoder]> ∅).

Definition features : list string := ["sex"; "age"; "famsup"; "G1"].

(** A classifier on the vectors [sex; age; famsup; G1] that predicts
    from the first-period grade and rejects a vector whose grade is not an
    integer. *)
Definition clf : Classifier := {|
  predict1 row :=
    match row !! 3 with
    | Some (VInt g) => mret (if (10 <=? g)%Z then 1%Z else 0%Z)
    | _ => raise (ValueError "Input X contains NaN.")
    end;
  predict_proba1 row :=
    match row !! 3 with
    | Some (VInt g) =>
        mret (if (10 <=? g)%Z then [0.28; 0.72]%float else [0.72; 0.28]%float)
    | _ => raise (ValueError "Input X contains NaN.")
    end
|}.

Definition handler : WebModelHandler :=
  {| model := Some clf; label_encoders := Some encoders; feature_names := Some features |}.

(** Two students: the second has an unknown category in [sex]; the
    column [famsup] is absent and the column [note] is no feature. *)
Definition students : DataFrame :=
  {| nrows := 2;
     columns := <["sex" := [VStr "F"; VStr "X"]]> (<["age" := [VInt 17; VInt 18]]>
                (<["G1" := [VInt 5; VInt 12]]> (<["note" := [VStr "a"; VStr "b"]]> ∅))) |}.

Definition students_X : FeatureFrame :=
  {| ff_nrows := 2;
     ff_columns := [("sex", [VInt 0; VInt 0]); ("age", [VInt 17; VInt 18]);
                    ("famsup", [VInt 0; VInt 0]); ("G1", [VInt 5; VInt 12])] |}.

(** Two batches with one missing grade, in the first and in the second
    row. *)
Definition missing_first : DataFrame :=
  {| nrows := 2; columns := <["G1" := [VFloat nan; VInt 12]]> ∅ |}.

Definition missing_second : DataFrame :=
  {| nrows := 2; columns := <["G1" := [VInt 12; VFloat nan]]> ∅ |}.

Definition missing_second_X : FeatureFrame :=
  {| ff_nrows := 2;
     ff_columns := [("sex", [VInt 0; VInt 0]); ("age", [VInt 0; VInt 0]);
                    ("famsup", [VInt 0; VInt 0]); ("G1", [VInt 12; VFloat nan])] |}.

(** A handler with an empty encoders mapping. *)
Definition no_encoders : WebModelHandler :=
  {| model := Some clf; label_encoders := Some ∅; feature_names := Some features |}.

End Sample.

(** ** One student as a frame

    Both front-ends predict a single student from [pd.DataFrame([student_data])]:
    the frame with one row and one column per key of the record. *)

Definition frame_of_record (student_data : gmap string value) : DataFrame :=
  {| nrows := 1; columns := (λ v, [v]) <$> student_data |}.

(** The slot of one expected feature in the vector of a record: zero when
    the record lacks the feature, its code when the feature has an encoder,
    the value itself otherwise. *)
Definition feature_slot (float_repr : float → string)
    (student_data : gmap string value) (encoders : gmap string LabelEncoder)
    (feature : string) (slot : value) : Prop :=
  match student_data !! feature with
  | None => slot = VInt 0
  | Some v =>
      match encoders !! feature with
      | Some encoder => encode_cell float_repr encoder v = inr slot
      | None => slot = v
      end
  end.

(** ** Loading the artifacts

    The three artifact files of the [models] directory: a file may be
    missing, present but unreadable by [joblib.load], or hold an artifact. *)

Inductive file (A : Type) : Type :=
| Missing
| Unreadable
| Stored (content : A).

Arguments Missing {A}.
Arguments Unreadable {A}.
Arguments Stored {A} content.

Record ModelsDirectory : Type := {
  model_file : file Classifier;
  encoders_file : file (gmap string LabelEncoder);
  features_file : file (list string)
}.

(** [os.path.exists] *)
Definition path_exists {A : Type} (f : file A) : bool :=
  match f with
  | Missing => false
  | _ => true
  end.

(** [joblib.load]: [None] when it raises. *)
Definition joblib_load {A : Type} (f : file A) : option A :=
  match f with
  | Stored content => Some content
  | _ => None
  end.

(** [WebModelHandler.load_models]: the existence of the model file alone
    is tested; an exception of a later load is caught, leaving the
    attributes assigned so far. The result is the handler and the
    returned flag. *)
Definition load_models (models : ModelsDirectory) (self : WebModelHandler)
  : WebModelHandler * bool :=
  if path_exists (model_file models) then
    match joblib_load (model_file models) with
    | None => (self, false)
    | Some m =>
        let self := {| model := Some m;
                       label_encoders := label_encoders self;
                       feature_names := feature_names self |} in
        match joblib_load (encoders_file models) with
        | None => (self, false)
        | Some encoders =>
            let self := {| model := model self;
                           label_encoders := Some encoders;
                           feature_names := feature_names self |} in
            match joblib_load (features_file models) with
            | None => (self, false)
            | Some features =>
                ({| model := model self;
                    label_encoders := label_encoders self;
                    feature_names := Some features |}, true)
            end
        end
    end
  else (self, false).

(** [WebModelHandler.__init__]: the three attributes start as [None]. *)
Definition blank_handler : WebModelHandler :=
  {| model := None; label_encoders := None; feature_names := None |}.

Definition new_handler (models : ModelsDirectory) : WebModelHandler :=
  (load_models models blank_handler).1.

(** The guard of [main]: the pages are shown unless [not model_handler.model];
    a loaded classifier object is taken to be truthy. *)
Definition models_found (model_handler : WebModelHandler) : bool :=
  bool_decide (is_Some (model model_handler)).

(** ** The model check script ([check_models.py]) *)

Module CheckScript.

(** The sample student of [check_models], one cell per column. *)
Definition sample_data : gmap string (list value) :=
  list_to_map
    [ ("school", [VStr "GP"]); ("sex", [VStr "F"]); ("age", [VInt 18]);
      ("address", [VStr "U"]); ("famsize", [VStr "GT3"]); ("Pstatus", [VStr "A"]);
      ("Medu", [VInt 4]); ("Fedu", [VInt 4]); ("Mjob", [VStr "at_home"]);
      ("Fjob", [VStr "teacher"]); ("reason", [VStr "course"]);
      ("guardian", [VStr "mother"]); ("traveltime", [VInt 2]); ("studytime", [VInt 2]);
      ("failures", [VInt 0]); ("schoolsup", [VStr "yes"]); ("famsup", [VStr "no"]);
      ("paid", [VStr "no"]); ("activities", [VStr "no"]); ("nursery", [VStr "yes"]);
      ("higher", [VStr "yes"]); ("internet", [VStr "no"]); ("romantic", [VStr "no"]);
      ("famrel", [VInt 4]); ("freetime", [VInt 3]); ("goout", [VInt 4]);
      ("Dalc", [VInt 1]); ("Walc", [VInt 1]); ("health", [VInt 3]);
      ("absences", [VInt 6]); ("G1", [VInt 5]); ("G2", [VInt 6]) ].

(** [pd.DataFrame(sample_data)] *)
Definition df : DataFrame := {| nrows := 1; columns := sample_data |}.

(** The test prediction of [check_models] on the loaded artifacts. *)
Definition test_prediction (float_repr : float → string) (model : Classifier)
    (label_encoders : gmap string LabelEncoder) (feature_names : list string)
  : result (Z * float) :=
  processed_df ← CheckModels.preprocess float_repr label_encoders feature_names df;
  predictions ← predict model processed_df;
  prediction ← getitem0 predictions;
  probas ← predict_proba model processed_df;
  prediction_proba ← getitem0 probas;
  confidence ← py_max prediction_proba;
  mret (prediction, confidence).

(** [check_models]: [False] as soon as a file is missing; otherwise the
    three loads and the test prediction, any exception giving [False]. *)
Definition check_models (float_repr : float → string) (models : ModelsDirectory) : bool :=
  let missing_files :=
    (if path_exists (model_file models) then [] else ["models/student_performance_model.joblib"])
    ++ (if path_exists (encoders_file models) then [] else ["models/label_encoders.joblib"])
    ++ (if path_exists (features_file models) then [] else ["models/feature_names.joblib"]) in
  match missing_files with
  | _ :: _ => false
  | [] =>
      match joblib_load (model_file models) with
      | None => false
      | Some model =>
          match joblib_load (encoders_file models) with
          | None => false
          | Some label_encoders =>
              match joblib_load (features_file models) with
              | None => false
              | Some feature_names =>
                  match test_prediction float_repr model label_encoders feature_names with
                  | inr _ => true
                  | inl _ => false
                  end
              end
          end
      end
  end.

End CheckScript.

(** ** The prediction form ([gui/prediction_window.py])

    [self.form_data] maps each field name to its widget, in the order the
    fields were created; a widget is known by the text it holds. *)

Module PredictionWindow.

Definition numeric_fields : list string :=
  ["age"; "Medu"; "Fedu"; "traveltime"; "studytime"; "failures";
   "famrel"; "freetime"; "goout"; "Dalc"; "Walc"; "health"; "absences"; "G1"; "G2"].

(** Python's truth value of a cell: zero and the empty string are false. *)
Definition truthy (v : value) : bool :=
  match v with
  | VInt z => negb (z =? 0)%Z
  | VFloat f => negb (f =? 0)%float
  | VStr s => negb (bool_decide (s = ""))
  end.

(** The outcome of the button [Predict Performance]: a validation error
    naming the missing fields, the results window, or the error box of a
    failed prediction. *)
Inductive outcome : Type :=
| ValidationError (missing_fields : list string)
| PredictionResults (prediction : Z) (confidence : float) (student_data : gmap string value)
| PredictionError (e : exn).

(** [clear_form]: every widget is emptied. *)
Definition clear_form (form_data : list (string * string)) : list (string * string) :=
  (λ widget, (widget.1, "")) <$> form_data.

(** The text shown and saved for a predicted class
    (["Good Performance" if prediction == 1 else "Needs Support"]). *)
Definition prediction_text (prediction : Z) : string :=
  if (prediction =? 1)%Z then "Good Performance" else "Needs Support".

Section Form.

(** [int(text)]: [None] when it raises [ValueError]. *)
Variable py_int : string → option Z.

(** The conversion of one widget's text in [get_form_data]. *)
Definition form_value (field_name text : string) : value :=
  if bool_decide (field_name ∈ numeric_fields) then
    if bool_decide (text = "") then VInt 0
    else match py_int text with
         | Some n => VInt n
         | None => VInt 0
         end
  else VStr text.

Definition get_form_data (form_data : list (string * string)) : gmap string value :=
  foldl (λ data widget, <[widget.1 := form_value widget.1 widget.2]> data) ∅ form_data.

(** The loop of [validate_form]: a field is missing when
    [not data.get(field, '')]. *)
Definition missing_fields (form_data : list (string * string))
    (data : gmap string value) : list string :=
  let required_fields := form_data.*1 in
  foldl (λ missing field,
           append_if (negb (truthy (dict_get data field (VStr "")))) missing field)
        [] required_fields.

Definition validate_form (form_data : list (string * string))
    (data : gmap string value) : bool :=
  match missing_fields form_data data with
  | [] => true
  | _ :: _ => false
  end.

(** [predict_performance]; [predict_single] is the method of the desktop
    model handler. *)
Definition predict_performance (predict_single : DataFrame → result (Z * float))
    (form_data : list (string * string)) : outcome :=
  let data := get_form_data form_data in
  if negb (validate_form form_data data) then
    ValidationError (missing_fields form_data data)
  else
    let df := frame_of_record data in
    match predict_single df with
    | inr (prediction, confidence) => PredictionResults prediction confidence data
    | inl e => PredictionError e
    end.

End Form.

End PredictionWindow.

(** ** Batch analysis ([show_batch_analysis], [gui/analytics_window.py])

    Both front-ends add the predictions to the uploaded frame and then
    select, count and display rows of it. *)

Module BatchAnalysis.

(** [df[name]]: [KeyError] when there is no such column. *)
Definition column (df : DataFrame) (name : string) : result (list value) :=
  match columns df !! name with
  | Some cells => mret cells
  | None => raise (KeyError name)
  end.

(** [name in df.columns] *)
Definition has_column (df : DataFrame) (name : string) : bool :=
  bool_decide (is_Some (columns df !! name)).

(** [df[name] = values] for an array: pandas refuses an array whose
    length is not the number of rows. *)
Definition assign (name : string) (values : list value) (df : DataFrame)
  : result DataFrame :=
  if bool_decide (length values = nrows df) then mret (setitem name values df)
  else raise (ValueError ("Length of values (" +:+ pretty (length values)
                          +:+ ") does not match length of index ("
                          +:+ pretty (nrows df) +:+ ")")).

(** [Series.map({1: 'Good Performance', 0: 'Needs Support'})] on one
    cell: a value that is no key becomes NaN. *)
Definition performance_label (v : value) : value :=
  match v with
  | VInt z =>
      if (z =? 1)%Z then VStr "Good Performance"
      else if (z =? 0)%Z then VStr "Needs Support"
      else VFloat nan
  | VFloat f =>
      if (f =? 1)%float then VStr "Good Performance"
      else if (f =? 0)%float then VStr "Needs Support"
      else VFloat nan
  | VStr _ => VFloat nan
  end.

(** The three assignments after [predict_batch]. *)
Definition add_predictions (df : DataFrame) (predictions : list Z)
    (confidences : list float) : result DataFrame :=
  df ← assign "Predicted_Performance" (VInt <$> predictions) df;
  df ← assign "Confidence" (VFloat <$> confidences) df;
  predicted ← column df "Predicted_Performance";
  mret (setitem "Performance_Label" (performance_label <$> predicted) df).

(** The cells kept by a boolean mask. *)
Fixpoint compress {A : Type} (mask : list bool) (cells : list A) : list A :=
  match mask, cells with
  | b :: mask, x :: cells => if b then x :: compress mask cells else compress mask cells
  | _, _ => []
  end.

Definition count_true (mask : list bool) : nat := length (List.filter id mask).

(** [df[mask]] *)
Definition select (mask : list bool) (df : DataFrame) : DataFrame :=
  {| nrows := count_true mask; columns := compress mask <$> columns df |}.

(** [df['Performance_Label'] == label] *)
Definition label_mask (label : string) (df : DataFrame) : result (list bool) :=
  cells ← column df "Performance_Label";
  mret ((λ v, eq_str v label) <$> cells).

(** The filter of the web page: any other option shows every row. *)
Definition show_batch_analysis_filter (filter_option : string) (df : DataFrame)
  : result DataFrame :=
  if bool_decide (filter_option = "Good Performance") then
    mask ← label_mask "Good Performance" df; mret (select mask df)
  else if bool_decide (filter_option = "Needs Support") then
    mask ← label_mask "Needs Support" df; mret (select mask df)
  else mret df.

(** [AnalyticsWindow.filter_data]: any option but the first two selects
    the rows that need support. *)
Definition filter_data (filter_value : string) (df : DataFrame) : result DataFrame :=
  if bool_decide (filter_value = "All") then mret df
  else if bool_decide (filter_value = "Good Performance") then
    mask ← label_mask "Good Performance" df; mret (select mask df)
  else
    mask ← label_mask "Needs Support" df; mret (select mask df).

(** [list.insert(i, x)]: a negative index counts from the end, and an
    index beyond either end is clamped. *)
Definition py_insert {A : Type} (l : list A) (i : Z) (x : A) : list A :=
  let n := Z.of_nat (length l) in
  let i := if (i <? 0)%Z then Z.max 0 (n + i) else Z.min i n in
  take (Z.to_nat i) l ++ x :: drop (Z.to_nat i) l.

(** The columns of the detailed table. *)
Definition display_cols (df : DataFrame) : list string :=
  let display_cols :=
    ["age"; "sex"; "studytime"; "failures"; "absences"; "Performance_Label"; "Confidence"] in
  let display_cols :=
    if has_column df "G1" then py_insert display_cols (-2) "G1" else display_cols in
  let display_cols :=
    if has_column df "G2" then py_insert display_cols (-2) "G2" else display_cols in
  display_cols.

(** [X.head(n)] *)
Definition head (n : nat) (X : FeatureFrame) : FeatureFrame :=
  {| ff_nrows := n `min` ff_nrows X;
     ff_columns := prod_map id (take n) <$> ff_columns X |}.

(** The detailed table of [show_batch_analysis]:
    [filtered_df[display_cols].head(100)]. *)
Definition detailed_results (filter_option : string) (df : DataFrame)
  : result FeatureFrame :=
  filtered_df ← show_batch_analysis_filter filter_option df;
  let display_cols := display_cols df in
  table ← getitem_list filtered_df display_cols;
  mret (head 100 table).

(** *** Comparisons of a column with a literal *)

(** [v <= n]: a string operand raises [TypeError]. *)
Definition le_int (v : value) (n : Z) : result bool :=
  match v with
  | VInt z => mret (z <=? n)%Z
  | VFloat f => mret (f <=? Z2F n)%float
  | VStr _ => raise (TypeError "'<=' not supported between instances of 'str' and 'int'")
  end.

(** [v > x] for a float literal. *)
Definition gt_float (v : value) (x : float) : result bool :=
  match v with
  | VInt z => mret (x <? Z2F z)%float
  | VFloat f => mret (x <? f)%float
  | VStr _ => raise (TypeError "'>' not supported between instances of 'str' and 'float'")
  end.

(** [v == n] *)
Definition eq_int (v : value) (n : Z) : bool :=
  match v with
  | VInt z => (z =? n)%Z
  | VFloat f => (f =? Z2F n)%float
  | VStr _ => false
  end.

(** A column of numbers, if it is there at all. *)
Definition numeric_column (df : DataFrame) (name : string) : Prop :=
  ∀ cells, columns df !! name = Some cells → Forall (λ v, ∀ s, v ≠ VStr s) cells.

(** [len(df[test(df[name])])]: the number of rows whose cell passes. *)
Definition count_where (test : value → result bool) (df : DataFrame) (name : string)
  : result nat :=
  cells ← column df name;
  mask ← mapM test cells;
  mret (count_true mask).

(** [count > total * share]: the product is a float; the counts are far
    below 2^53, where the conversion of an integer is exact. *)
Definition more_than (count total : nat) (share : float) : bool :=
  (Z2F (Z.of_nat total) * share <? Z2F (Z.of_nat count))%float.

(** [if not factors: factors.append(text)] *)
Definition append_if_empty (texts : list string) (text : string) : list string :=
  match texts with
  | [] => texts ++ [text]
  | _ :: _ => texts
  end.

(** [AnalyticsWindow.analyze_risk_factors] *)
Definition analyze_risk_factors (high_risk_df : DataFrame) : result (list string) :=
  let factors := [] in
  let total_high_risk := nrows high_risk_df in
  match analyze_risk_factors_guard total_high_risk with
  | Some message => mret [message]
  | None =>
      low_study_time ← count_where (λ v, le_int v 2) high_risk_df "studytime";
      let factors :=
        append_if (more_than low_study_time total_high_risk 0.6) factors
          (pretty low_study_time +:+ "/" +:+ pretty total_high_risk
           +:+ " high-risk students have low study time (≤2 hours/week)") in
      factors ←
        (if has_column high_risk_df "absences" then
           high_absences ← count_where (λ v, gt_int v 10) high_risk_df "absences";
           mret (append_if (more_than high_absences total_high_risk 0.4) factors
                   (pretty high_absences +:+ "/" +:+ pretty total_high_risk
                    +:+ " high-risk students have high absence rates (>10)"))
         else mret factors);
      factors ←
        (if has_column high_risk_df "failures" then
           past_failures ← count_where (λ v, gt_int v 0) high_risk_df "failures";
           mret (append_if (more_than past_failures total_high_risk 0.5) factors
                   (pretty past_failures +:+ "/" +:+ pretty total_high_risk
                    +:+ " high-risk students have previous academic failures"))
         else mret factors);
      factors ←
        (if has_column high_risk_df "famsup" then
           no_family_support ←
             count_where (λ v, mret (eq_str v "no")) high_risk_df "famsup";
           mret (append_if (more_than no_family_support total_high_risk 0.4) factors
                   (pretty no_family_support +:+ "/" +:+ pretty total_high_risk
                    +:+ " high-risk students lack family educational support"))
         else mret factors);
      factors ←
        (if has_column high_risk_df "schoolsup" then
           no_school_support ←
             count_where (λ v, mret (eq_str v "no")) high_risk_df "schoolsup";
           mret (append_if (more_than no_school_support total_high_risk 0.6) factors
                   (pretty no_school_support +:+ "/" +:+ pretty total_high_risk
                    +:+ " high-risk students don't receive extra school support"))
         else mret factors);
      mret (append_if_empty factors
              "No clear common risk factors identified among high-risk students")
  end.

(** *** Batch recommendations *)

(** The recommendations by category, in the order of the dictionary. *)
Definition categories : list (string * list string) :=
  [ ("🎯 Immediate Actions", []);
    ("📚 Academic Interventions", []);
    ("👨‍👩‍👧‍👦 Family Engagement", []);
    ("🏫 School Programs", []) ].

(** [recommendations[category].append(text)] under a condition. *)
Definition append_to (c : bool) (category text : string)
    (recommendations : list (string * list string)) : list (string * list string) :=
  if c then
    (λ item, if bool_decide (item.1 = category) then (item.1, item.2 ++ [text]) else item)
      <$> recommendations
  else recommendations.

(** [needle in haystack] on strings. *)
Definition contains (needle haystack : string) : bool :=
  bool_decide (is_Some (String.index 0 needle haystack)).

(** The general recommendation of a category left empty. *)
Definition general_recommendation (category : string) : string :=
  if contains "Immediate" category then "Continue monitoring student progress regularly"
  else if contains "Academic" category then "Maintain current academic support programs"
  else if contains "Family" category then "Strengthen family-school communication"
  else "Evaluate and enhance existing programs".

Definition add_general (recommendations : list (string * list string))
  : list (string * list string) :=
  (λ item, (item.1, append_if_empty item.2 (general_recommendation item.1)))
    <$> recommendations.

(** The mask of the high-risk rows:
    [(df['Predicted_Performance'] == 0) & (df['Confidence'] > 0.7)]. *)
Definition high_risk_mask (df : DataFrame) : result (list bool) :=
  predicted ← column df "Predicted_Performance";
  confidence ← column df "Confidence";
  above ← mapM (λ v, gt_float v 0.7) confidence;
  mret (zip_with andb ((λ v, eq_int v 0) <$> predicted) above).

(** [AnalyticsWindow.generate_batch_recommendations] on [self.df]. *)
Definition generate_batch_recommendations (df : DataFrame)
  : result (list (string * list string)) :=
  let recommendations := categories in
  mask ← high_risk_mask df;
  let high_risk_count := nrows (select mask df) in
  let recommendations :=
    append_to (0 <? high_risk_count)%nat "🎯 Immediate Actions"
      ("Prioritize " +:+ pretty high_risk_count
       +:+ " high-risk students for immediate intervention") recommendations in
  low_study_time ← count_where (λ v, le_int v 2) df "studytime";
  let recommendations :=
    append_to (more_than low_study_time (nrows df) 0.4) "🎯 Immediate Actions"
      ("Address low study time issue affecting " +:+ pretty low_study_time
       +:+ " students") recommendations in
  recommendations ←
    (if has_column df "failures" then
       students_with_failures ← count_where (λ v, gt_int v 0) df "failures";
       mret (append_to (0 <? students_with_failures)%nat "📚 Academic Interventions"
               ("Provide remedial support for " +:+ pretty students_with_failures
                +:+ " students with past failures") recommendations)
     else mret recommendations);
  high_absences ← count_where (λ v, gt_int v 10) df "absences";
  let recommendations :=
    append_to (0 <? high_absences)%nat "📚 Academic Interventions"
      ("Implement attendance improvement programs for " +:+ pretty high_absences
       +:+ " students") recommendations in
  recommendations ←
    (if has_column df "famsup" then
       no_family_support ← count_where (λ v, mret (eq_str v "no")) df "famsup";
       mret (append_to (more_than no_family_support (nrows df) 0.3)
               "👨‍👩‍👧‍👦 Family Engagement"
               ("Increase family engagement for " +:+ pretty no_family_support
                +:+ " students lacking support") recommendations)
     else mret recommendations);
  recommendations ←
    (if has_column df "schoolsup" then
       no_school_support ← count_where (λ v, mret (eq_str v "no")) df "schoolsup";
       mret (append_to (more_than no_school_support (nrows df) 0.5)
               "🏫 School Programs"
               ("Expand school support programs to cover " +:+ pretty no_school_support
                +:+ " additional students") recommendations)
     else mret recommendations);
  mret (add_general recommendations).

End BatchAnalysis.

(** ** From the upload to the rates

    [show_batch_analysis] (lines 339 to 367): predict the batch, add the
    prediction columns, compute the summary metrics. *)

Definition show_batch_analysis_summary (np_mean : list float → float)
    (float_repr : float → string) (model_handler : WebModelHandler) (df : DataFrame)
  : result SummaryMetrics :=
  batch ← predict_batch float_repr model_handler df;
  let '(predictions, confidences) := batch in
  _ ← BatchAnalysis.add_predictions df predictions confidences;
  summary_statistics np_mean predictions confidences.

(** ** Further example inputs *)

Module Demo.

(** The students of [Sample.students] without the column [note]. *)
Definition students_no_note : DataFrame :=
  {| nrows := 2;
     columns := <["sex" := [VStr "F"; VStr "X"]]> (<["age" := [VInt 17; VInt 18]]>
                (<["G1" := [VInt 5; VInt 12]]> ∅)) |}.

(** A handler whose encoder of [sex] was fitted on no label. *)
Definition unfitted_encoders : gmap string LabelEncoder :=
  <["sex" := {| classes_ := [] |}]> ∅.

Definition unfitted : WebModelHandler :=
  {| model := Some Sample.clf; label_encoders := Some unfitted_encoders;
     feature_names := Some Sample.features |}.

(** One student as entered in a form. *)
Definition record : gmap string value :=
  <["sex" := VStr "F"]> (<["age" := VInt 17]> (<["G1" := VInt 5]> ∅)).

(** A models directory without the encoders file. *)
Definition no_encoders_file : ModelsDirectory :=
  {| model_file := Stored Sample.clf;
     encoders_file := Missing;
     features_file := Stored Sample.features |}.

(** A class list as uploaded: three students, with the columns of the
    detailed table. *)
Definition class_list : DataFrame :=
  {| nrows := 3;
     columns := list_to_map
       [ ("sex", [VStr "F"; VStr "M"; VStr "F"]);
         ("age", [VInt 17; VInt 18; VInt 16]);
         ("studytime", [VInt 1; VInt 2; VInt 3]);
         ("failures", [VInt 0; VInt 1; VInt 0]);
         ("absences", [VInt 12; VInt 4; VInt 0]);
         ("famsup", [VStr "no"; VStr "yes"; VStr "no"]);
         ("G1", [VInt 5; VInt 12; VInt 8]) ] |}.

(** What [Sample.handler] predicts for the class list. *)
Definition class_predictions : list Z := [0; 1; 0]%Z.
Definition class_confidences : list float := [0.72; 0.72; 0.72]%float.

(** The class list with the three prediction columns. *)
Definition analysed_class : DataFrame :=
  setitem "Performance_Label"
    [VStr "Needs Support"; VStr "Good Performance"; VStr "Needs Support"]
    (setitem "Confidence" (VFloat <$> class_confidences)
       (setitem "Predicted_Performance" (VInt <$> class_predictions) class_list)).

(** An upload with a header line and no data row. *)
Definition header_only : DataFrame :=
  {| nrows := 0; columns := list_to_map [("sex", []); ("age", []); ("G1", [])] |}.

(** A stand-in for [np.mean] in the examples, which apply it to the empty
    list only: [np.mean([])] is NaN. *)
Definition np_mean (xs : list float) : float := nan.

(** [int] on the texts of the examples: a non-empty string of decimal
    digits is read as its number, every other text is rejected. *)
Definition py_int (text : string) : option Z :=
  if bool_decide (text = "") then None
  else Z.of_uint <$> NilEmpty.uint_of_string text.

(** The form after [load_sample_data]: the fields in the order of their
    creation, with the sample student's values. *)
Definition sample_form : list (string * string) :=
  [ ("school", "GP"); ("sex", "F"); ("age", "18"); ("address", "U");
    ("famsize", "GT3"); ("Pstatus", "A");
    ("Medu", "4"); ("Fedu", "4"); ("Mjob", "at_home"); ("Fjob", "teacher");
    ("reason", "course"); ("guardian", "mother"); ("traveltime", "2");
    ("studytime", "2"); ("failures", "0");
    ("schoolsup", "yes"); ("famsup", "no"); ("paid", "no"); ("activities", "no");
    ("nursery", "yes"); ("higher", "yes");
    ("internet", "no"); ("romantic", "no");
    ("famrel", "4"); ("freetime", "3"); ("goout", "4"); ("Dalc", "1"); ("Walc", "1");
    ("health", "3"); ("absences", "6");
    ("G1", "5"); ("G2", "6") ].

(** The sample form with one past failure: every numeric field is
    non-zero. *)
Definition valid_form : list (string * string) :=
  (λ widget, if bool_decide (widget.1 = "failures") then (widget.1, "1") else widget)
    <$> sample_form.

End Demo.

(** ** IEEE comparisons

    The comparisons of the source ([>], [<=], [<], [max]) are those of
    binary64; the facts below are derived from their specification
    [SFcompare] on [spec_float]. *)

Module FloatOrder.

Ltac cmp_cases :=
  rewrite ?Pos.compare_cont_spec; simpl;
  repeat match goal with
  | |- context [(?a ?= ?b)%Z] => destruct (Z.compare_spec a b)
  | |- context [(?a ?= ?b)%positive] => destruct (Pos.compare_spec a b)
  | H : context [(?a ?= ?b)%Z] |- _ => destruct (Z.compare_spec a b)
  | H : context [(?a ?= ?b)%positive] |- _ => destruct (Pos.compare_spec a b)
  end; simpl in *; try congruence; try lia.

Ltac sf_cases x := destruct x as [[]|[]| |[] ? ?].

Lemma SFcompare_refl x : SFeqb x x = true → SFcompare x x = Some Eq.
Proof. unfold SFeqb. sf_cases x; simpl; try congruence; cmp_cases. Qed.

Lemma SFeqb_refl_of_leb_l x y : SFleb x y = true → SFeqb y y = true.
Proof. unfold SFleb, SFeqb. sf_cases x; sf_cases y; simpl; try congruence; cmp_cases. Qed.

Lemma SFeqb_refl_of_leb_r x y : SFleb x y = true → SFeqb x x = true.
Proof. unfold SFleb, SFeqb. sf_cases x; sf_cases y; simpl; try congruence; cmp_cases. Qed.

Lemma SFleb_trans x y z :
  SFleb x y = true → SFleb y z = true → SFleb x z = true.
Proof.
  unfold SFleb.
  sf_cases x; sf_cases y; sf_cases z; simpl; try congruence; cmp_cases.
Qed.

Lemma SFltb_trans x y z :
  SFltb x y = true → SFltb y z = true → SFltb x z = true.
Proof.
  unfold SFltb.
  sf_cases x; sf_cases y; sf_cases z; simpl; try congruence; cmp_cases.
Qed.

Lemma SFltb_negb_leb x y :
  SFeqb x x = true → SFeqb y y = true → SFltb x y = negb (SFleb y x).
Proof.
  unfold SFltb, SFleb, SFeqb.
  sf_cases x; sf_cases y; simpl; try congruence; cmp_cases.
Qed.

Lemma SFltb_leb_excl x y : SFltb x y = true → SFleb y x = false.
Proof.
  unfold SFltb, SFleb.
  sf_cases x; sf_cases y; simpl; try congruence; cmp_cases.
Qed.

Lemma not_nan_eqb f : not_nan f ↔ SFeqb (Prim2SF f) (Prim2SF f) = true.
Proof.
  unfold not_nan, is_nan. rewrite FloatAxioms.eqb_spec.
  destruct (SFeqb _ _); simpl; split; congruence.
Qed.

Lemma leb_refl f : not_nan f → (f <=? f)%float = true.
Proof.
  intros H%not_nan_eqb. rewrite FloatAxioms.leb_spec. unfold SFleb.
  by rewrite (SFcompare_refl _ H).
Qed.

Lemma leb_trans a b c :
  (a <=? b)%float = true → (b <=? c)%float = true → (a <=? c)%float = true.
Proof. rewrite !FloatAxioms.leb_spec. apply SFleb_trans. Qed.

Lemma ltb_trans a b c :
  (a <? b)%float = true → (b <? c)%float = true → (a <? c)%float = true.
Proof. rewrite !FloatAxioms.ltb_spec. apply SFltb_trans. Qed.

Lemma ltb_negb_leb a b :
  not_nan a → not_nan b → (a <? b)%float = negb (b <=? a)%float.
Proof.
  intros Ha%not_nan_eqb Hb%not_nan_eqb. rewrite FloatAxioms.ltb_spec, FloatAxioms.leb_spec.
  by apply SFltb_negb_leb.
Qed.

Lemma ltb_leb_excl a b : (a <? b)%float = true → (b <=? a)%float = false.
Proof. rewrite FloatAxioms.ltb_spec, FloatAxioms.leb_spec. apply SFltb_leb_excl. Qed.

Lemma leb_not_nan_l a b : (a <=? b)%float = true → not_nan a.
Proof. rewrite FloatAxioms.leb_spec, not_nan_eqb. apply SFeqb_refl_of_leb_r. Qed.

Lemma leb_not_nan_r a b : (a <=? b)%float = true → not_nan b.
Proof. rewrite FloatAxioms.leb_spec, not_nan_eqb. apply SFeqb_refl_of_leb_l. Qed.

Lemma ltb_leb a b : (a <? b)%float = true → (a <=? b)%float = true.
Proof.
  rewrite FloatAxioms.ltb_spec, FloatAxioms.leb_spec. unfold SFltb, SFleb.
  by destruct (SFcompare _ _) as [[]|].
Qed.

End FloatOrder.

(** ** Recommendations: the two front-ends and the rule table *)

Section Recommendations.

Import RuleTable.

Implicit Types (d : gmap string value) (p : Z).

Lemma numeric_fields_lookup d field :
  numeric_fields d = true →
  field ∈ ["studytime"; "failures"; "absences"] →
  ∀ s, dict_get d field (VInt 0) ≠ VStr s.
Proof.
  unfold numeric_fields. rewrite forallb_forall. intros Hall Hin s.
  specialize (Hall field). rewrite <- list_elem_of_In in Hall.
  specialize (Hall Hin). unfold dict_get.
  destruct (d !! field) as [[]|]; simpl; congruence.
Qed.

Lemma lt_int_number_below d field n :
  (∀ s, dict_get d field (VInt 0) ≠ VStr s) →
  lt_int (dict_get d field (VInt 0)) n = inr (number_below field n d).
Proof.
  unfold number_below. intros Hnum.
  destruct (dict_get d field (VInt 0)) as [z|f|s]; try reflexivity.
  by destruct (Hnum s).
Qed.

Lemma gt_int_number_above d field n :
  (∀ s, dict_get d field (VInt 0) ≠ VStr s) →
  gt_int (dict_get d field (VInt 0)) n = inr (number_above field n d).
Proof.
  unfold number_above. intros Hnum.
  destruct (dict_get d field (VInt 0)) as [z|f|s]; try reflexivity.
  by destruct (Hnum s).
Qed.

(** The imperative rule chain computes the rule table. *)
Lemma get_recommendations_table p d :
  (p = 0%Z → numeric_fields d = true) →
  Web.get_recommendations p d = inr (recommend p d).
Proof.
  intros Hnum. unfold Web.get_recommendations, recommend, rules_for.
  destruct (p =? 0)%Z eqn:Hp.
  - apply Z.eqb_eq in Hp. specialize (Hnum Hp).
    rewrite (lt_int_number_below d "studytime" 3),
            (gt_int_number_above d "failures" 0),
            (gt_int_number_above d "absences" 10)
      by (apply numeric_fields_lookup; [done | set_solver]).
    unfold fired, needs_support_rules. cbn [List.filter applies advice].
    fold (answer_is "schoolsup" "no" d). fold (answer_is "famsup" "no" d).
    destruct (number_below "studytime" 3 d), (number_above "failures" 0 d),
             (number_above "absences" 10 d), (answer_is "schoolsup" "no" d),
             (answer_is "famsup" "no" d); reflexivity.
  - unfold fired, good_performance_rules. cbn [List.filter applies advice].
    fold (answer_is "higher" "yes" d).
    destruct (answer_is "higher" "yes" d); reflexivity.
Qed.

Lemma fired_complete (rules : list rule) d (r : rule) :
  r ∈ rules → applies r d = true → advice r ∈ fired rules d.
Proof.
  intros Hin Happ. unfold fired. apply list_elem_of_fmap. exists r. split; [done|].
  apply list_elem_of_In, filter_In. split; [by apply list_elem_of_In | done].
Qed.

Lemma fired_none (rules : list rule) d :
  (∀ r, r ∈ rules → applies r d = false) → fired rules d = [].
Proof.
  intros Hnone. unfold fired.
  induction rules as [|r rules IH]; [done|]. simpl.
  rewrite (Hnone r) by set_solver. apply IH. intros r' Hr'. apply Hnone. set_solver.
Qed.

Lemma recommend_complete p d (r : rule) :
  r ∈ rules_for p → applies r d = true → advice r ∈ recommend p d.
Proof.
  intros Hin Happ. unfold recommend.
  pose proof (fired_complete _ d r Hin Happ) as Hfired.
  destruct (fired (rules_for p) d); [by apply elem_of_nil in Hfired | done].
Qed.

(** C9: for every predicted class and student record whose numeric
    attributes hold numbers, recommendation generation returns the texts
    of all the rules of the class that apply, in table order (the rules
    are independent, none excludes or outranks another); for class 0,
    study time below 3 yields the study-time text and family support
    'no' yields the family-engagement text; and when no rule applies the
    result is exactly the one generic recommendation. Both front-ends
    do so. *)
Theorem get_recommendations_all_applicable_rules_fire p d :
  (p = 0%Z → numeric_fields d = true) →
  ∃ recs : list string,
    Web.get_recommendations p d = inr recs ∧
    Desktop.get_recommendations p d = inr recs ∧
    recs = recommend p d ∧
    (∀ r : rule, r ∈ rules_for p → applies r d = true → advice r ∈ recs) ∧
    (p = 0%Z → number_below "studytime" 3 d = true → study_time_advice ∈ recs) ∧
    (p = 0%Z → answer_is "famsup" "no" d = true → family_advice ∈ recs) ∧
    ((∀ r : rule, r ∈ rules_for p → applies r d = false) → recs = [generic_advice]).
Proof.
  intros Hnum. exists (recommend p d).
  split; [by apply get_recommendations_table|].
  split; [by apply get_recommendations_table|].
  split; [done|].
  split; [intros r; apply recommend_complete|].
  split.
  { intros -> Hc.
    by apply (recommend_complete 0 d
                {| applies := number_below "studytime" 3; advice := study_time_advice |});
      [set_solver|]. }
  split.
  { intros -> Hc.
    by apply (recommend_complete 0 d
                {| applies := answer_is "famsup" "no"; advice := family_advice |});
      [set_solver|]. }
  intros Hnone. unfold recommend. by rewrite fired_none.
Qed.

(** C10: the desktop and the web recommendation generators return the
    same result (the same ordered texts, or the same exception) on every
    input. *)
Theorem desktop_web_recommendations_agree p d :
  Desktop.get_recommendations p d = Web.get_recommendations p d.
Proof.
  unfold Desktop.get_recommendations, Web.get_recommendations.
  destruct (p =? 0)%Z; reflexivity.
Qed.

End Recommendations.

Lemma get_recommendations_example :
  ∃ recs : list string,
    Web.get_recommendations 0 example_student = inr recs ∧
    Desktop.get_recommendations 0 example_student = inr recs ∧
    recs = RuleTable.recommend 0 example_student ∧
    (∀ r : RuleTable.rule, r ∈ RuleTable.rules_for 0 →
       RuleTable.applies r example_student = true → RuleTable.advice r ∈ recs) ∧
    (0%Z = 0%Z → RuleTable.number_below "studytime" 3 example_student = true →
       RuleTable.study_time_advice ∈ recs) ∧
    (0%Z = 0%Z → RuleTable.answer_is "famsup" "no" example_student = true →
       RuleTable.family_advice ∈ recs) ∧
    ((∀ r : RuleTable.rule, r ∈ RuleTable.rules_for 0 →
       RuleTable.applies r example_student = false) →
     recs = [RuleTable.generic_advice]).
Proof.
  apply (get_recommendations_all_applicable_rules_fire 0 example_student).
  intros _. vm_compute. reflexivity.
Defined.

Example get_recommendations_example_value :
  Web.get_recommendations 0 example_student
  = inr ["Increase weekly study time to improve academic performance";
         "Encourage family involvement in academic activities"].
Proof. vm_compute. reflexivity. Qed.

(** ** Summary statistics on an empty batch *)

(** On empty predictions the rate computation of both front-ends raises
    [ZeroDivisionError] ([0 / 0] on Python integers), whatever [np.mean]
    returns for the empty confidence column: the division is not
    guarded. *)
Lemma rate_computation_empty_batch_raises (np_mean : list float → float) :
  summary_statistics np_mean [] [] = inl (ZeroDivisionError "division by zero") ∧
  generate_insights_performance [] = inl (ZeroDivisionError "division by zero").
Proof. split; reflexivity. Qed.

(** The sibling computation on the high-risk rows does report the empty
    case. *)
Lemma analyze_risk_factors_guard_empty :
  analyze_risk_factors_guard 0 = Some "No high-risk students identified".
Proof. reflexivity. Qed.

(** On a non-empty batch the rate computation returns. *)
Lemma summary_statistics_nonempty (np_mean : list float → float)
    (predictions : list Z) (confidences : list float) :
  predictions ≠ [] → is_ok (summary_statistics np_mean predictions confidences).
Proof.
  intros Hne. unfold summary_statistics, true_div.
  destruct (Z.of_nat (length predictions) =? 0)%Z eqn:Hlen.
  - apply Z.eqb_eq in Hlen. destruct predictions; [done | simpl in Hlen; lia].
  - eexists. reflexivity.
Qed.

(** ** Risk tiers *)

Section RiskTiers.

Import FloatOrder.

Implicit Types (r : AnalyzedRow) (df : list AnalyzedRow).

Lemma elem_of_high_risk r df : r ∈ high_risk df ↔ r ∈ df ∧ is_high_risk r = true.
Proof. unfold high_risk. by rewrite !list_elem_of_In, filter_In. Qed.

Lemma elem_of_medium_risk r df : r ∈ medium_risk df ↔ r ∈ df ∧ is_medium_risk r = true.
Proof. unfold medium_risk. by rewrite !list_elem_of_In, filter_In. Qed.

Lemma elem_of_low_confidence r df :
  r ∈ low_confidence df ↔ r ∈ df ∧ is_low_confidence r = true.
Proof. unfold low_confidence. by rewrite !list_elem_of_In, filter_In. Qed.

Lemma high_medium_exclusive r : is_high_risk r = true → is_medium_risk r = false.
Proof.
  unfold is_high_risk, is_medium_risk. intros [_ H]%andb_true_iff.
  by rewrite (ltb_leb_excl _ _ H), andb_false_r.
Qed.

Lemma high_or_medium r :
  Predicted_Performance r = 0%Z → not_nan (Confidence r) →
  is_high_risk r = negb (is_medium_risk r).
Proof.
  unfold is_high_risk, is_medium_risk. intros -> Hnan. simpl.
  by apply ltb_negb_leb.
Qed.

Lemma high_low_exclusive r : is_high_risk r = true → is_low_confidence r = false.
Proof.
  unfold is_high_risk, is_low_confidence. intros [_ H]%andb_true_iff.
  destruct (Confidence r <? 0.6)%float eqn:Hlow; [|done].
  pose proof (ltb_trans _ _ _ H Hlow) as Habs. vm_compute in Habs. discriminate.
Qed.

(** The claim as worded fails: no row is both high-risk and
    low-confidence, since the first needs a confidence above 0.7 and the
    second one below 0.6. *)
Lemma low_confidence_never_high_risk : ¬ low_confidence_may_overlap_high.
Proof.
  intros (df & r & [_ Hh]%elem_of_high_risk & [_ Hl]%elem_of_low_confidence).
  apply high_low_exclusive in Hh. congruence.
Qed.

Lemma tier_counts df :
  Forall (λ r, not_nan (Confidence r)) df →
  length (high_risk df) + length (medium_risk df)
  = length (List.filter (λ r, (Predicted_Performance r =? 0)%Z) df).
Proof.
  unfold high_risk, medium_risk.
  induction 1 as [|r df Hr _ IH]; [done|]. simpl.
  destruct (Predicted_Performance r =? 0)%Z eqn:Hp.
  - apply Z.eqb_eq in Hp. rewrite (high_or_medium r Hp Hr).
    destruct (is_medium_risk r); simpl; rewrite <- IH; lia.
  - unfold is_high_risk, is_medium_risk. rewrite Hp. simpl. exact IH.
Qed.

(** C6 (as amended): in every analysed batch whose confidences are
    numbers (not NaN, as every probability is), each class-0 row is in
    exactly one of the High and Medium tiers, the two tiers are disjoint
    and together count the class-0 rows; membership of the
    Low-confidence set depends on the confidence alone, not on the
    class; a Low-confidence row can be a Medium-risk row or in neither
    tier, and is never a High-risk row. *)
Theorem risk_tiers_partition df :
  Forall (λ r, not_nan (Confidence r)) df →
  (∀ r, r ∈ df → Predicted_Performance r = 0%Z →
        (r ∈ high_risk df ∧ (r ∉ medium_risk df)) ∨
        ((r ∉ high_risk df) ∧ r ∈ medium_risk df)) ∧
  (∀ r, ¬ (r ∈ high_risk df ∧ r ∈ medium_risk df)) ∧
  length (high_risk df) + length (medium_risk df)
    = length (List.filter (λ r, (Predicted_Performance r =? 0)%Z) df) ∧
  (∀ r r', Confidence r = Confidence r' → is_low_confidence r = is_low_confidence r') ∧
  (∀ r, ¬ (r ∈ high_risk df ∧ r ∈ low_confidence df)) ∧
  (∃ r, is_low_confidence r = true ∧ is_medium_risk r = true) ∧
  (∃ r, is_low_confidence r = true ∧ is_medium_risk r = false ∧ is_high_risk r = false).
Proof.
  intros Hnan. split_and!.
  - intros r Hin Hp.
    assert (not_nan (Confidence r)) as Hr
      by (rewrite Forall_forall in Hnan; by apply Hnan).
    rewrite elem_of_high_risk, elem_of_medium_risk, (high_or_medium r Hp Hr).
    destruct (is_medium_risk r); simpl; [right | left]; intuition congruence.
  - intros r [[_ Hh]%elem_of_high_risk [_ Hm]%elem_of_medium_risk].
    apply high_medium_exclusive in Hh. congruence.
  - by apply tier_counts.
  - intros r r' Heq. unfold is_low_confidence. by rewrite Heq.
  - intros r [[_ Hh]%elem_of_high_risk [_ Hl]%elem_of_low_confidence].
    apply high_low_exclusive in Hh. congruence.
  - by exists {| student := ∅; Predicted_Performance := 0; Confidence := 0.55 |}.
  - by exists {| student := ∅; Predicted_Performance := 1; Confidence := 0.55 |}.
Qed.

End RiskTiers.

(** ** The result monad *)

Ltac result_simpl :=
  cbn [mbind result_bind mret result_ret raise] in *.

Lemma bind_inr {A C : Type} (m : result A) (g : A → result C) (c : C) :
  m ≫= g = inr c ↔ ∃ a, m = inr a ∧ g a = inr c.
Proof.
  destruct m as [e|a]; result_simpl; split.
  - discriminate.
  - by intros (a & ? & _).
  - intros H. by exists a.
  - by intros (a' & [= <-] & H).
Qed.

Lemma bind_inl {A C : Type} (m : result A) (g : A → result C) (e : exn) :
  m = inl e → m ≫= g = inl e.
Proof. by intros ->. Qed.

Lemma bind_assoc {A B C : Type} (m : result A) (f : A → result B) (g : B → result C) :
  (m ≫= f) ≫= g = m ≫= λ a, f a ≫= g.
Proof. by destruct m. Qed.

Lemma is_ok_inr {A : Type} (a : A) : is_ok (inr a : result A).
Proof. by exists a. Qed.

Lemma not_is_ok_inl {A : Type} (e : exn) : ¬ is_ok (inl e : result A).
Proof. by intros [a Ha]. Qed.

Section ResultMonad.

Context {A B : Type}.
Implicit Types (f : A → result B) (l : list A) (k : list B).

Lemma mapM_cons f x l :
  mapM f (x :: l) = f x ≫= λ y, mapM f l ≫= λ k, mret (y :: k).
Proof. reflexivity. Qed.

Lemma mapM_inr f l k :
  mapM f l = inr k ↔ Forall2 (λ x y, f x = inr y) l k.
Proof.
  revert k. induction l as [|x l IH]; intros k.
  - split; [intros [= <-]; constructor | by inversion 1].
  - rewrite mapM_cons, bind_inr. split.
    + intros (y & Hy & Hrest). apply bind_inr in Hrest as (k' & Hk' & [= <-]).
      constructor; [done | by apply IH].
    + inversion 1 as [|? y ? k' Hy Hk']; subst. exists y. split; [done|].
      apply bind_inr. exists k'. split; [by apply IH | done].
Qed.

Lemma mapM_inr_length f l k : mapM f l = inr k → length k = length l.
Proof. intros H%mapM_inr. symmetry. by eapply Forall2_length. Qed.

Lemma mapM_is_ok f l : Forall (λ x, is_ok (f x)) l → is_ok (mapM f l).
Proof.
  induction 1 as [|x l [y Hy] _ [k Hk]]; simpl.
  - by eexists.
  - rewrite Hy, Hk. by eexists.
Qed.

Lemma mapM_is_ok_inv f l : is_ok (mapM f l) → Forall (λ x, is_ok (f x)) l.
Proof.
  intros [k Hk%mapM_inr]. induction Hk; constructor; [by eexists | done].
Qed.

(** A failing [mapM] surfaces the exception of the first element that
    raises, unchanged. *)
Lemma mapM_inl f l e :
  mapM f l = inl e →
  ∃ i x, l !! i = Some x ∧ f x = inl e ∧
         ∀ j y, j < i → l !! j = Some y → is_ok (f y).
Proof.
  induction l as [|x l IH]; simpl; [discriminate|].
  destruct (f x) as [e'|y] eqn:Hx; result_simpl.
  - intros [= <-]. exists 0, x. split_and!; [done | done | intros; lia].
  - destruct (mapM f l) as [e'|k] eqn:Hl; result_simpl; [|discriminate].
    intros [= <-]. destruct (IH eq_refl) as (i & x' & Hi & Hx' & Hbefore).
    exists (S i), x'. split_and!; [done | done |].
    intros [|j] y' Hj Hy'; simpl in Hy'.
    + injection Hy' as <-. rewrite Hx. apply is_ok_inr.
    + apply (Hbefore j); [lia | done].
Qed.

Lemma mapM_first_error f l i x e :
  l !! i = Some x → f x = inl e →
  (∀ j y, j < i → l !! j = Some y → is_ok (f y)) →
  mapM f l = inl e.
Proof.
  revert i. induction l as [|x' l IH]; intros [|i] Hi Hx Hbefore; simpl in *; try done.
  - injection Hi as ->. by rewrite Hx.
  - destruct (Hbefore 0 x') as [y Hy]; [lia | done |]. rewrite Hy. result_simpl.
    rewrite (IH i); [done | done | done |].
    intros j y' Hj Hy'. apply (Hbefore (S j)); [lia | done].
Qed.

End ResultMonad.

(** Two passes of [mapM] succeed exactly when the fused pass does. *)
Lemma mapM_mapM_inr {A B C : Type} (f : A → result B) (g : B → result C)
    (l : list A) (r : list C) :
  mapM f l ≫= mapM g = inr r ↔ mapM (λ x, f x ≫= g) l = inr r.
Proof.
  rewrite bind_inr. setoid_rewrite mapM_inr. split.
  - intros (k & Hk & Hr). revert r Hr.
    induction Hk as [|x y l k Hxy _ IH]; intros r; inversion 1; subst; constructor.
    + apply bind_inr. by exists y.
    + by apply IH.
  - revert r. induction l as [|x l IH]; intros r; inversion 1 as [|? z ? r' Hz Hr']; subst.
    + exists []. split; constructor.
    + apply bind_inr in Hz as (y & Hy & Hz). destruct (IH _ Hr') as (k & Hk & Hkr).
      exists (y :: k). split; by constructor.
Qed.

Lemma for_each_cons {S A : Type} (body : S → A → result S) (s : S) (x : A) (xs : list A) :
  for_each body s (x :: xs) = body s x ≫= λ s', for_each body s' xs.
Proof. reflexivity. Qed.

Lemma for_each_one {S A : Type} (body : S → A → result S) (s s' : S) (x : A) :
  body s x = inr s' → for_each body s [x] = inr s'.
Proof. intros H. rewrite for_each_cons, H. reflexivity. Qed.

Lemma for_each_app {S A : Type} (body : S → A → result S) (s : S) (xs ys : list A) :
  for_each body s (xs ++ ys) = for_each body s xs ≫= λ s', for_each body s' ys.
Proof.
  revert s. induction xs as [|x xs IH]; intros s; simpl; [done|].
  destruct (body s x); result_simpl; [done | apply IH].
Qed.

(** ** Label encoding *)

Section Encoding.

Variable float_repr : float → string.

Implicit Types (encoder : LabelEncoder) (x y : string) (v : value)
  (cells codes : list value).

Lemma index_of_is_Some y (classes : list string) :
  y ∈ classes ↔ is_Some (index_of y classes).
Proof.
  induction classes as [|c classes IH]; simpl.
  - split; [by intros ?%elem_of_nil | by intros [? ?]].
  - rewrite elem_of_cons. case_bool_decide as Hy.
    + split; [by eexists | by left].
    + rewrite IH, fmap_is_Some. intuition congruence.
Qed.

Lemma transform1_known encoder y :
  y ∈ classes_ encoder →
  ∃ k, code_of encoder y = Some k ∧ transform1 encoder y = inr (VInt k).
Proof.
  intros [i Hi]%index_of_is_Some. exists (Z.of_nat i).
  unfold code_of, transform1. by rewrite Hi.
Qed.

Lemma known_or_first_known encoder x :
  x ∈ classes_ encoder → known_or_first encoder x = inr x.
Proof. intros Hx. unfold known_or_first. by rewrite bool_decide_eq_true_2. Qed.

Lemma known_or_first_unknown encoder x c0 rest :
  classes_ encoder = c0 :: rest → x ∉ classes_ encoder →
  known_or_first encoder x = inr c0.
Proof.
  intros Hc Hx. unfold known_or_first. rewrite bool_decide_eq_false_2 by done.
  by rewrite Hc.
Qed.

(** With an empty vocabulary every category is unknown and
    [classes_[0]] raises. *)
Lemma known_or_first_empty encoder x :
  classes_ encoder = [] → ∃ msg, known_or_first encoder x = inl (IndexError msg).
Proof.
  intros Hc. unfold known_or_first. rewrite Hc.
  rewrite bool_decide_eq_false_2 by apply not_elem_of_nil. by eexists.
Qed.

Lemma encode_cell_known encoder v :
  astype_str float_repr v ∈ classes_ encoder →
  ∃ k, code_of encoder (astype_str float_repr v) = Some k ∧
       encode_cell float_repr encoder v = inr (VInt k).
Proof.
  intros Hv. destruct (transform1_known _ _ Hv) as (k & Hk & Ht).
  exists k. split; [done|]. unfold encode_cell.
  by rewrite known_or_first_known.
Qed.

Lemma encode_cell_unknown encoder v c0 rest :
  classes_ encoder = c0 :: rest →
  astype_str float_repr v ∉ classes_ encoder →
  code_of encoder c0 = Some 0%Z ∧
  encode_cell float_repr encoder v = inr (VInt 0).
Proof.
  intros Hc Hv. unfold encode_cell, code_of, transform1.
  rewrite (known_or_first_unknown _ _ _ _ Hc Hv). result_simpl.
  rewrite Hc. simpl. by rewrite bool_decide_eq_true_2.
Qed.

Lemma encode_cell_total encoder v :
  classes_ encoder ≠ [] → is_ok (encode_cell float_repr encoder v).
Proof.
  intros Hne. destruct (classes_ encoder) as [|c0 rest] eqn:Hc; [done|].
  destruct (decide (astype_str float_repr v ∈ classes_ encoder)) as [Hv|Hv].
  - destruct (encode_cell_known encoder v Hv) as (k & _ & ->). apply is_ok_inr.
  - destruct (encode_cell_unknown encoder v c0 rest Hc Hv) as [_ ->]. apply is_ok_inr.
Qed.

Lemma mapM_fmap {A B C : Type} (g : A → B) (f : B → result C) (l : list A) :
  mapM f (g <$> l) = mapM (f ∘ g) l.
Proof. induction l as [|a l IH]; [done|]. rewrite fmap_cons, !mapM_cons. by rewrite IH. Qed.

(** The column operations succeed exactly when every cell encodes, and
    then give the cell codes in order. *)
Lemma encode_column_inr encoder cells codes :
  encode_column float_repr encoder cells = inr codes ↔
  Forall2 (λ v code, encode_cell float_repr encoder v = inr code) cells codes.
Proof.
  unfold encode_column, transform. rewrite mapM_mapM_inr, mapM_fmap.
  apply mapM_inr.
Qed.

Lemma encode_column_total encoder cells :
  classes_ encoder ≠ [] → is_ok (encode_column float_repr encoder cells).
Proof.
  intros Hne.
  destruct (mapM_is_ok (encode_cell float_repr encoder) cells) as [codes Hcodes].
  { apply Forall_forall. intros v _. by apply encode_cell_total. }
  exists codes. apply encode_column_inr. by apply mapM_inr.
Qed.

Lemma encode_column_nil encoder : encode_column float_repr encoder [] = inr [].
Proof. reflexivity. Qed.

Lemma encode_column_length encoder cells codes :
  encode_column float_repr encoder cells = inr codes → length codes = length cells.
Proof. intros H%encode_column_inr. symmetry. by eapply Forall2_length. Qed.

Lemma encode_column_slice encoder cells codes i :
  encode_column float_repr encoder cells = inr codes →
  encode_column float_repr encoder (take 1 (drop i cells)) = inr (take 1 (drop i codes)).
Proof.
  rewrite !encode_column_inr. intros H. by apply Forall2_take, Forall2_drop.
Qed.

Lemma encode_column_of_slices encoder cells :
  (∀ i, i < length cells →
        is_ok (encode_column float_repr encoder (take 1 (drop i cells)))) →
  is_ok (encode_column float_repr encoder cells).
Proof.
  intros Hall.
  destruct (mapM_is_ok (encode_cell float_repr encoder) cells) as [codes Hcodes].
  { apply Forall_lookup. intros i v Hi.
    destruct (Hall i) as [codes Hcodes]; [by eapply lookup_lt_Some|].
    apply encode_column_inr in Hcodes.
    assert (take 1 (drop i cells) !! 0 = Some v) as Hv.
    { rewrite lookup_take_lt, lookup_drop by lia. by rewrite Nat.add_0_r. }
    destruct (Forall2_lookup_l _ _ _ _ _ Hcodes Hv) as (code & _ & Hcode).
    by exists code. }
  exists codes. apply encode_column_inr. by apply mapM_inr.
Qed.

(** With a non-empty vocabulary, encoding a column never raises, and
    every cell gets the code of its own category or of the first one. *)
Lemma encode_column_encoded_with encoder cells :
  classes_ encoder ≠ [] →
  ∃ codes, encode_column float_repr encoder cells = inr codes ∧
           encoded_with float_repr encoder cells codes.
Proof.
  intros Hne.
  destruct (classes_ encoder) as [|c0 rest] eqn:Hc; [done|].
  destruct (encode_column_total encoder cells) as [codes Hcodes]; [by rewrite Hc|].
  exists codes. split; [done|]. split; [by eapply encode_column_length|].
  intros i v Hi. apply encode_column_inr in Hcodes.
  destruct (Forall2_lookup_l _ _ _ _ _ Hcodes Hi) as (code & Hcode & Hcell).
  split; intros Hv.
  - destruct (encode_cell_known encoder v Hv) as (k & Hk & Hcell').
    exists k. split; [done|]. congruence.
  - destruct (encode_cell_unknown encoder v c0 rest Hc Hv) as [_ Hcell'].
    exists c0, 0%Z. split_and!; [by rewrite Hc | | congruence].
    unfold code_of. rewrite Hc. simpl. by rewrite bool_decide_eq_true_2.
Qed.

End Encoding.

(** ** Frames: the encoder loop, zero-filling and selection *)

Section Frames.

Variable float_repr : float → string.

Implicit Types (df : DataFrame) (items : list (string * LabelEncoder))
  (features : list string) (X : FeatureFrame).

Lemma well_formed_setitem df column cells :
  well_formed df → length cells = nrows df → well_formed (setitem column cells df).
Proof.
  intros Hwf Hlen. unfold well_formed, setitem. simpl.
  by apply map_Forall_insert_2.
Qed.

Lemma iloc_setitem i column cells df :
  iloc i (setitem column cells df) = setitem column (take 1 (drop i cells)) (iloc i df).
Proof. unfold iloc, setitem. simpl. by rewrite fmap_insert. Qed.

Lemma iloc_lookup i df column :
  columns (iloc i df) !! column = (λ cells, take 1 (drop i cells)) <$> columns df !! column.
Proof. unfold iloc. simpl. apply lookup_fmap. Qed.

(** *** The encoder loop *)

Lemma encode_step_inr df column encoder df' :
  encode_step float_repr df (column, encoder) = inr df' ↔
  match columns df !! column with
  | Some cells => ∃ codes, encode_column float_repr encoder cells = inr codes ∧
                           df' = setitem column codes df
  | None => df' = df
  end.
Proof.
  unfold encode_step. destruct (columns df !! column) as [cells|].
  - rewrite bind_inr. split.
    + intros (codes & Hcodes & [= <-]). by exists codes.
    + intros (codes & Hcodes & ->). by exists codes.
  - split; [by intros [= <-] | by intros ->].
Qed.

Lemma for_each_encode_nrows items df df' :
  for_each (encode_step float_repr) df items = inr df' → nrows df' = nrows df.
Proof.
  revert df. induction items as [|[column encoder] items IH]; intros df; simpl.
  - by intros [= <-].
  - intros (df1 & Hstep & Hrest)%bind_inr. rewrite (IH _ Hrest).
    apply encode_step_inr in Hstep.
    destruct (columns df !! column); [by destruct Hstep as (? & _ & ->) | by subst].
Qed.

Lemma for_each_encode_well_formed items df df' :
  well_formed df → for_each (encode_step float_repr) df items = inr df' → well_formed df'.
Proof.
  revert df. induction items as [|[column encoder] items IH]; intros df Hwf; simpl.
  - by intros [= <-].
  - intros (df1 & Hstep & Hrest)%bind_inr. apply (IH df1); [|done].
    apply encode_step_inr in Hstep.
    destruct (columns df !! column) as [cells|] eqn:Hcol; [|by subst].
    destruct Hstep as (codes & Hcodes & ->).
    apply well_formed_setitem; [done|].
    rewrite (encode_column_length _ _ _ _ Hcodes). by apply (Hwf column).
Qed.

Lemma for_each_encode_total items df :
  (∀ column encoder, (column, encoder) ∈ items → classes_ encoder ≠ []) →
  is_ok (for_each (encode_step float_repr) df items).
Proof.
  revert df. induction items as [|[column encoder] items IH]; intros df Hne.
  - apply is_ok_inr.
  - rewrite for_each_cons.
    assert (is_ok (encode_step float_repr df (column, encoder))) as [df1 ->].
    { unfold encode_step. destruct (columns df !! column) as [cells|].
      - destruct (encode_column_total float_repr encoder cells) as [codes ->];
          [apply (Hne column); left | apply is_ok_inr].
      - apply is_ok_inr. }
    result_simpl. apply IH. intros c e Hin. apply (Hne c). by right.
Qed.

(** What the loop leaves in each column: a column without encoder is
    untouched, a column with an encoder holds its codes, and no column is
    added or removed. *)
Lemma for_each_encode_lookup items df df' :
  NoDup items.*1 →
  for_each (encode_step float_repr) df items = inr df' →
  ∀ column,
    match columns df !! column with
    | None => columns df' !! column = None
    | Some cells =>
        (column ∉ items.*1 → columns df' !! column = Some cells) ∧
        (∀ encoder, (column, encoder) ∈ items →
           ∃ codes, encode_column float_repr encoder cells = inr codes ∧
                    columns df' !! column = Some codes)
    end.
Proof.
  revert df. induction items as [|[c e] items IH]; intros df Hnd; simpl.
  - intros [= <-] column. destruct (columns df !! column); [|done].
    split; [done | by intros ? ?%elem_of_nil].
  - apply NoDup_cons in Hnd as [Hc Hnd].
    intros (df1 & Hstep & Hrest)%bind_inr column.
    specialize (IH df1 Hnd Hrest column). apply encode_step_inr in Hstep.
    destruct (decide (column = c)) as [->|Hne].
    + destruct (columns df !! c) as [cells|] eqn:Hcol.
      * destruct Hstep as (codes & Hcodes & ->). simpl in IH.
        rewrite lookup_insert_eq in IH. destruct IH as [IH _]. split.
        -- intros []. by left.
        -- intros encoder [[= <-]|Hin]%elem_of_cons.
           ++ exists codes. split; [done | by apply IH].
           ++ destruct Hc. apply list_elem_of_fmap. by exists (c, encoder).
      * subst df1. by rewrite Hcol in IH.
    + assert (columns df1 !! column = columns df !! column) as Heq.
      { destruct (columns df !! c); [|by subst].
        destruct Hstep as (codes & _ & ->). simpl. by rewrite lookup_insert_ne. }
      rewrite Heq in IH. destruct (columns df !! column) as [cells|]; [|done].
      destruct IH as [IH1 IH2]. split.
      * intros Hnotin. apply IH1. intros Hin. apply Hnotin. by right.
      * intros encoder [[= ? ?]|Hin]%elem_of_cons; [done | by apply IH2].
Qed.

Lemma for_each_encode_slice items df df' i :
  for_each (encode_step float_repr) df items = inr df' →
  for_each (encode_step float_repr) (iloc i df) items = inr (iloc i df').
Proof.
  revert df. induction items as [|[c e] items IH]; intros df.
  - by intros [= <-].
  - rewrite !for_each_cons. intros (df1 & Hstep & Hrest)%bind_inr. apply bind_inr.
    exists (iloc i df1). split; [|by apply IH].
    apply encode_step_inr in Hstep. apply encode_step_inr.
    rewrite iloc_lookup. destruct (columns df !! c) as [cells|]; simpl; [|by subst].
    destruct Hstep as (codes & Hcodes & ->).
    exists (take 1 (drop i codes)). split; [by apply encode_column_slice|].
    apply iloc_setitem.
Qed.

Lemma for_each_encode_of_slices items df :
  well_formed df →
  (∀ i, i < nrows df → is_ok (for_each (encode_step float_repr) (iloc i df) items)) →
  is_ok (for_each (encode_step float_repr) df items).
Proof.
  revert df. induction items as [|[c e] items IH]; intros df Hwf Hall.
  - apply is_ok_inr.
  - assert (∃ df1, encode_step float_repr df (c, e) = inr df1) as [df1 Hstep].
    { unfold encode_step. destruct (columns df !! c) as [cells|] eqn:Hcol.
      - destruct (encode_column_of_slices float_repr e cells) as [codes ->];
          [|by eexists].
        intros i Hi. rewrite (Hwf c cells Hcol) in Hi.
        destruct (Hall i Hi) as [dfi Hdfi]. rewrite for_each_cons in Hdfi.
        apply bind_inr in Hdfi as (dfi1 & Hstep & _).
        apply encode_step_inr in Hstep. rewrite iloc_lookup, Hcol in Hstep.
        simpl in Hstep. destruct Hstep as (codes & -> & _). apply is_ok_inr.
      - by eexists. }
    rewrite for_each_cons, Hstep. result_simpl.
    assert (well_formed df1 ∧ nrows df1 = nrows df) as [Hwf1 Hn1].
    { split.
      - apply (for_each_encode_well_formed [(c, e)] df); [done|].
        by apply for_each_one.
      - apply (for_each_encode_nrows [(c, e)]). by apply for_each_one. }
    apply IH; [done|]. intros i Hi. rewrite Hn1 in Hi.
    destruct (Hall i Hi) as [dfi Hdfi]. rewrite for_each_cons in Hdfi.
    assert (encode_step float_repr (iloc i df) (c, e) = inr (iloc i df1)) as Hstepi.
    { pose proof (for_each_encode_slice [(c, e)] df df1 i (for_each_one _ _ _ _ Hstep))
        as Hslice.
      rewrite for_each_cons in Hslice. by apply bind_inr in Hslice as (? & -> & [= ->]). }
    rewrite Hstepi in Hdfi. by exists dfi.
Qed.

(** *** The order of the encoder loop

    The loop visits the items of a dictionary; each step writes its own
    column only, and the one exception a step can raise is the
    [IndexError] of [classes_[0]], so the order of the visit changes
    neither the frame obtained nor the exception raised. *)

Lemma known_or_first_inr encoder (x y : string) :
  known_or_first encoder x = inr y → y ∈ classes_ encoder.
Proof.
  unfold known_or_first. case_bool_decide as Hx.
  - by intros [= <-].
  - destruct (classes_ encoder) as [|c rest]; [discriminate|].
    intros [= <-]. by left.
Qed.

Lemma encode_column_inl encoder (cells : list value) (e : exn) :
  encode_column float_repr encoder cells = inl e →
  e = IndexError "index 0 is out of bounds for axis 0 with size 0".
Proof.
  unfold encode_column.
  destruct (mapM (known_or_first encoder) (astype_str float_repr <$> cells))
    as [e'|replaced] eqn:Hrep; result_simpl.
  - intros [= <-]. apply mapM_inl in Hrep as (i & x & _ & Hx & _).
    unfold known_or_first in Hx. case_bool_decide; [discriminate|].
    by destruct (classes_ encoder); [injection Hx as <- | discriminate].
  - intros (i & y & Hy & Hcode & _)%mapM_inl. apply mapM_inr in Hrep.
    destruct (Forall2_lookup_r _ _ _ _ _ Hrep Hy) as (x & _ & Hxy%known_or_first_inr).
    destruct (transform1_known encoder y Hxy) as (k & _ & Hk). congruence.
Qed.

Lemma encode_step_comm df (cx cy : string) (ex ey : LabelEncoder) :
  cx ≠ cy →
  encode_step float_repr df (cx, ex) ≫= (λ df', encode_step float_repr df' (cy, ey))
  = encode_step float_repr df (cy, ey) ≫= (λ df', encode_step float_repr df' (cx, ex)).
Proof.
  intros Hne. unfold encode_step, setitem.
  destruct (columns df !! cx) as [cellsx|] eqn:Hx,
           (columns df !! cy) as [cellsy|] eqn:Hy; result_simpl.
  - destruct (encode_column float_repr ex cellsx) as [e1|codesx] eqn:Hex,
             (encode_column float_repr ey cellsy) as [e2|codesy] eqn:Hey;
      result_simpl; cbn [columns nrows];
      rewrite ?lookup_insert_ne by done; rewrite ?Hx, ?Hy, ?Hex, ?Hey;
      result_simpl; try done.
    + by rewrite (encode_column_inl _ _ _ Hex), (encode_column_inl _ _ _ Hey).
    + by rewrite insert_insert_ne.
  - destruct (encode_column float_repr ex cellsx) as [e1|codesx] eqn:Hex;
      result_simpl; cbn [columns nrows];
      rewrite ?lookup_insert_ne by done; rewrite ?Hx, ?Hy, ?Hex; done.
  - destruct (encode_column float_repr ey cellsy) as [e2|codesy] eqn:Hey;
      result_simpl; cbn [columns nrows];
      rewrite ?lookup_insert_ne by done; rewrite ?Hx, ?Hy, ?Hey; done.
  - by rewrite Hx, Hy.
Qed.

Lemma for_each_encode_perm items items' df :
  items ≡ₚ items' → NoDup items.*1 →
  for_each (encode_step float_repr) df items
  = for_each (encode_step float_repr) df items'.
Proof.
  intros Hperm. revert df.
  induction Hperm as [|[c e] l l' Hperm IH|[cx ex] [cy ey] l|l1 l2 l3 H12 IH12 H23 IH23];
    intros df Hnd.
  - done.
  - rewrite !for_each_cons. rewrite fmap_cons in Hnd. apply NoDup_cons in Hnd as [_ Hnd].
    destruct (encode_step float_repr df (c, e)); result_simpl; [done | by apply IH].
  - rewrite !fmap_cons in Hnd. apply NoDup_cons in Hnd as [Hne _].
    assert (cy ≠ cx) as Hne' by (intros ->; apply Hne; by left).
    transitivity
      ((encode_step float_repr df (cy, ey) ≫= λ df', encode_step float_repr df' (cx, ex))
         ≫= λ df', for_each (encode_step float_repr) df' l).
    { by rewrite bind_assoc. }
    by rewrite (encode_step_comm df cy cx ey ex Hne'), bind_assoc.
  - rewrite IH12 by done. apply IH23.
    by rewrite <- (fmap_Permutation fst _ _ H12).
Qed.

(** *** Zero-filling of the missing features *)

Lemma fill_missing_step_nrows df feature : nrows (fill_missing df feature) = nrows df.
Proof. unfold fill_missing. by destruct (columns df !! feature). Qed.

Lemma fill_missing_nrows features df : nrows (foldl fill_missing df features) = nrows df.
Proof.
  revert df. induction features as [|f features IH]; intros df; simpl; [done|].
  by rewrite IH, fill_missing_step_nrows.
Qed.

Lemma fill_missing_lookup features df column :
  columns (foldl fill_missing df features) !! column =
  match columns df !! column with
  | Some cells => Some cells
  | None => if bool_decide (column ∈ features)
            then Some (replicate (nrows df) (VInt 0)) else None
  end.
Proof.
  revert df. induction features as [|f features IH]; intros df; cbn [foldl].
  - destruct (columns df !! column); [done|].
    by rewrite bool_decide_eq_false_2 by apply not_elem_of_nil.
  - rewrite IH, fill_missing_step_nrows. unfold fill_missing.
    destruct (columns df !! f) as [cells|] eqn:Hf.
    + destruct (columns df !! column) eqn:Hc; [done|].
      assert (column ≠ f) by congruence.
      rewrite (bool_decide_ext (column ∈ features) (column ∈ f :: features)); [done|].
      rewrite elem_of_cons. intuition congruence.
    + simpl. destruct (decide (column = f)) as [->|Hne].
      * rewrite lookup_insert_eq, Hf. by rewrite bool_decide_eq_true_2 by left.
      * rewrite lookup_insert_ne by done. destruct (columns df !! column); [done|].
        rewrite (bool_decide_ext (column ∈ features) (column ∈ f :: features)); [done|].
        rewrite elem_of_cons. intuition congruence.
Qed.

Lemma fill_missing_well_formed features df :
  well_formed df → well_formed (foldl fill_missing df features).
Proof.
  revert df. induction features as [|f features IH]; intros df Hwf; simpl; [done|].
  apply IH. unfold fill_missing. destruct (columns df !! f); [done|].
  apply well_formed_setitem; [done | apply length_replicate].
Qed.

Lemma fill_missing_slice features df i :
  i < nrows df →
  foldl fill_missing (iloc i df) features = iloc i (foldl fill_missing df features).
Proof.
  revert df. induction features as [|f features IH]; intros df Hi; simpl; [done|].
  rewrite <- IH by by rewrite fill_missing_step_nrows. f_equal.
  unfold fill_missing. rewrite iloc_lookup.
  destruct (columns df !! f); simpl; [done|].
  rewrite iloc_setitem, drop_replicate, take_replicate.
  by replace (1 `min` (nrows df - i)) with 1 by lia.
Qed.

(** *** Selection of the feature columns *)

Lemma getitem_list_inr df (names : list string) X :
  getitem_list df names = inr X ↔
  ff_nrows X = nrows df ∧
  Forall2 (λ name col, col.1 = name ∧ columns df !! name = Some col.2)
          names (ff_columns X).
Proof.
  unfold getitem_list. rewrite bind_inr. setoid_rewrite mapM_inr.
  assert (∀ name col,
    match columns df !! name with
    | Some cells => mret (name, cells)
    | None => raise (KeyError name)
    end = inr col ↔ col.1 = name ∧ columns df !! name = Some col.2) as Hcol.
  { intros name [n cells]. simpl. destruct (columns df !! name) as [cells'|].
    - split; [by intros [= <- <-] | by intros [<- [= <-]]].
    - split; [done | by intros [_ ?]]. }
  split.
  - intros (cols & Hcols & [= <-]). split; [done|]. simpl.
    eapply Forall2_impl; [done|]. intros name col. apply Hcol.
  - intros [Hn Hcols]. exists (ff_columns X). split.
    + eapply Forall2_impl; [done|]. intros name col. apply Hcol.
    + destruct X. simpl in *. by subst.
Qed.

Lemma getitem_list_total df (names : list string) :
  Forall (λ name, is_Some (columns df !! name)) names →
  is_ok (getitem_list df names).
Proof.
  intros Hall. unfold getitem_list.
  match goal with |- is_ok (mapM ?f _ ≫= _) =>
    destruct (mapM_is_ok f names) as [cols ->]; [|apply is_ok_inr] end.
  eapply Forall_impl; [done|]. intros name [cells ->]. apply is_ok_inr.
Qed.

(** *** From columns to rows *)

Lemma to_rows_length X :
  Forall (λ col, length col.2 = ff_nrows X) (ff_columns X) →
  length (to_rows X) = ff_nrows X.
Proof.
  unfold to_rows. induction 1 as [|col cols Hcol _ IH]; simpl.
  - apply length_replicate.
  - rewrite length_zip_with, IH. lia.
Qed.

Lemma to_rows_lookup X i (row : list value) :
  to_rows X !! i = Some row →
  Forall2 (λ col v, col.2 !! i = Some v) (ff_columns X) row.
Proof.
  unfold to_rows. generalize (ff_nrows X). intros n. revert row.
  induction (ff_columns X) as [|col cols IH]; intros row; simpl.
  - intros [-> _]%lookup_replicate. constructor.
  - intros (v & r & -> & Hv & Hr)%lookup_zip_with_Some. constructor; [done | by apply IH].
Qed.

Lemma to_rows_slice X i :
  i < ff_nrows X →
  to_rows {| ff_nrows := 1;
             ff_columns := prod_map id (λ cells, take 1 (drop i cells)) <$> ff_columns X |}
  = take 1 (drop i (to_rows X)).
Proof.
  intros Hi. unfold to_rows. cbn [ff_nrows ff_columns].
  induction (ff_columns X) as [|[name cells] cols IH].
  - cbn [fmap list_fmap foldr]. rewrite drop_replicate, take_replicate.
    by replace (1 `min` (ff_nrows X - i)) with 1 by lia.
  - rewrite fmap_cons. cbn [foldr]. rewrite IH, zip_with_drop, zip_with_take. done.
Qed.

End Frames.

(** ** Preprocessing *)

Section Preprocessing.

Variable float_repr : float → string.

Implicit Types (self : WebModelHandler) (df : DataFrame) (X : FeatureFrame)
  (encoders : gmap string LabelEncoder) (features : list string).

Lemma preprocess_data_loaded self df encoders features :
  label_encoders self = Some encoders → feature_names self = Some features →
  preprocess_data float_repr self df =
  for_each (encode_step float_repr) df (map_to_list encoders) ≫= λ processed_df,
    getitem_list (foldl fill_missing processed_df features) features.
Proof. intros He Hf. unfold preprocess_data. by rewrite He, Hf. Qed.

Lemma preprocess_data_inr self df encoders features X :
  label_encoders self = Some encoders → feature_names self = Some features →
  preprocess_data float_repr self df = inr X ↔
  ∃ processed_df,
    for_each (encode_step float_repr) df (map_to_list encoders) = inr processed_df ∧
    getitem_list (foldl fill_missing processed_df features) features = inr X.
Proof.
  intros He Hf. rewrite (preprocess_data_loaded _ _ _ _ He Hf). apply bind_inr.
Qed.

(** The dictionary may be visited in any order, in particular in its
    insertion order. *)
Lemma encoder_loop_any_order df encoders (items : list (string * LabelEncoder)) :
  items ≡ₚ map_to_list encoders →
  for_each (encode_step float_repr) df items
  = for_each (encode_step float_repr) df (map_to_list encoders).
Proof.
  intros Hperm. apply for_each_encode_perm; [done|].
  rewrite (fmap_Permutation fst _ _ Hperm). apply NoDup_fst_map_to_list.
Qed.

(** After zero-filling, every feature is a column: the selection cannot
    raise [KeyError]. *)
Lemma select_filled_total df features :
  is_ok (getitem_list (foldl fill_missing df features) features).
Proof.
  apply getitem_list_total, Forall_forall. intros name Hname.
  rewrite fill_missing_lookup. destruct (columns df !! name); [done|].
  by rewrite bool_decide_eq_true_2.
Qed.

Lemma selection_names (P : string → string * list value → Prop)
    (names : list string) (cols : list (string * list value)) :
  Forall2 (λ name col, col.1 = name ∧ P name col) names cols → cols.*1 = names.
Proof.
  induction 1 as [|name col names cols [Hn _] _ IH]; [done|].
  rewrite fmap_cons. congruence.
Qed.

Lemma encoders_total df encoders :
  (∀ column encoder, encoders !! column = Some encoder → classes_ encoder ≠ []) →
  is_ok (for_each (encode_step float_repr) df (map_to_list encoders)).
Proof.
  intros Hne. apply for_each_encode_total.
  intros column encoder Hin%elem_of_map_to_list. by apply (Hne column).
Qed.

Lemma preprocess_data_columns self df encoders features X :
  label_encoders self = Some encoders → feature_names self = Some features →
  preprocess_data float_repr self df = inr X →
  ff_nrows X = nrows df ∧
  Forall2 (λ feature col, col.1 = feature ∧ column_of float_repr df encoders feature col.2)
          features (ff_columns X).
Proof.
  intros He Hf (df' & Hloop & Hsel)%(preprocess_data_inr _ _ _ _ _ He Hf).
  apply getitem_list_inr in Hsel as [Hn Hcols].
  pose proof (for_each_encode_nrows _ _ _ _ Hloop) as Hn'.
  rewrite fill_missing_nrows, Hn' in Hn. split; [done|].
  eapply Forall2_impl; [done|]. intros feature [name out]; simpl.
  intros [-> Hout]. split; [done|]. rewrite fill_missing_lookup in Hout.
  pose proof (for_each_encode_lookup _ _ _ _ (NoDup_fst_map_to_list encoders)
                Hloop feature) as Hlook.
  unfold column_of. destruct (columns df !! feature) as [cells|].
  - destruct Hlook as [Hplain Hcoded].
    destruct (encoders !! feature) as [encoder|] eqn:Henc.
    + destruct (Hcoded encoder) as (codes & Hcodes & Hcol);
        [by apply elem_of_map_to_list|].
      rewrite Hcol in Hout. congruence.
    + rewrite Hplain in Hout; [congruence|].
      intros ([c e] & -> & Hin%elem_of_map_to_list)%list_elem_of_fmap.
      simpl in Henc. congruence.
  - rewrite Hlook, Hn' in Hout. case_bool_decide; congruence.
Qed.

Lemma preprocess_data_well_formed self df encoders features X :
  label_encoders self = Some encoders → feature_names self = Some features →
  well_formed df →
  preprocess_data float_repr self df = inr X →
  Forall (λ col, length col.2 = ff_nrows X) (ff_columns X).
Proof.
  intros He Hf Hwf (df' & Hloop & Hsel)%(preprocess_data_inr _ _ _ _ _ He Hf).
  apply getitem_list_inr in Hsel as [Hn Hcols].
  assert (well_formed (foldl fill_missing df' features)) as Hwf'.
  { by eapply fill_missing_well_formed, for_each_encode_well_formed. }
  rewrite Hn. apply Forall_forall. intros col [j Hj]%list_elem_of_lookup.
  destruct (Forall2_lookup_r _ _ _ _ _ Hcols Hj) as (name & _ & _ & Hcol).
  by apply (Hwf' name).
Qed.

(** The frame asked for by the specification: the expected features as
    columns, in their order; a feature that is no column of the input is a
    column of zeros, a feature that is one is the input column (encoded
    when it has an encoder); every feature vector has one slot per
    expected feature and a zero in the slot of each feature absent from
    the input; a well-formed input gives one feature vector per row. *)
Lemma preprocess_data_shape self df encoders features X :
  label_encoders self = Some encoders → feature_names self = Some features →
  preprocess_data float_repr self df = inr X →
  ff_nrows X = nrows df ∧
  (ff_columns X).*1 = features ∧
  Forall2 (λ feature col, col.1 = feature ∧ column_of float_repr df encoders feature col.2)
          features (ff_columns X) ∧
  (∀ column, column ∉ features → column ∉ (ff_columns X).*1) ∧
  (∀ i row, to_rows X !! i = Some row →
     length row = length features ∧
     ∀ j feature, features !! j = Some feature → columns df !! feature = None →
                  row !! j = Some (VInt 0)) ∧
  (well_formed df → length (to_rows X) = nrows df).
Proof.
  intros He Hf HX.
  destruct (preprocess_data_columns _ _ _ _ _ He Hf HX) as [Hn Hcols].
  assert ((ff_columns X).*1 = features) as Hnames.
  { by apply (selection_names (λ feature col, column_of float_repr df encoders feature col.2)). }
  split_and!; try done.
  - intros column Hnot. by rewrite Hnames.
  - intros i row Hrow. apply to_rows_lookup in Hrow.
    split.
    + rewrite <- (Forall2_length _ _ _ Hrow). symmetry. by eapply Forall2_length.
    + intros j feature Hj Hnone.
      destruct (Forall2_lookup_l _ _ _ _ _ Hcols Hj) as (col & Hcol & _ & Hout).
      unfold column_of in Hout. rewrite Hnone in Hout.
      destruct (Forall2_lookup_l _ _ _ _ _ Hrow Hcol) as (v & Hv & Hcell).
      rewrite Hout in Hcell. apply lookup_replicate in Hcell as [-> _]. done.
  - intros Hwf. rewrite to_rows_length; [done|].
    by eapply preprocess_data_well_formed.
Qed.

Lemma preprocess_data_total self df encoders features :
  label_encoders self = Some encoders → feature_names self = Some features →
  (∀ column encoder, encoders !! column = Some encoder → classes_ encoder ≠ []) →
  is_ok (preprocess_data float_repr self df).
Proof.
  intros He Hf Hne.
  destruct (encoders_total df encoders Hne) as [df' Hloop].
  destruct (select_filled_total df' features) as [X Hsel].
  exists X. apply (preprocess_data_inr _ _ _ _ _ He Hf). by exists df'.
Qed.

(** C1: with the artifacts loaded, preprocessing returns a frame as soon
    as every encoder holds at least one class, and every frame it returns
    has exactly the expected features as columns, in their order: a
    feature that is no column of the input is a column of zeros, a feature
    that is one is the input column (encoded when it has an encoder), and
    a column of the input that is no expected feature is not in the
    output. Every feature vector has one slot per expected feature, with a
    zero in the slot of each feature absent from the input, and a
    well-formed input gives one feature vector per row. *)
Theorem preprocess_data_expected_features self df encoders features :
  label_encoders self = Some encoders → feature_names self = Some features →
  ((∀ column encoder, encoders !! column = Some encoder → classes_ encoder ≠ []) →
   is_ok (preprocess_data float_repr self df)) ∧
  ∀ X, preprocess_data float_repr self df = inr X →
    ff_nrows X = nrows df ∧
    (ff_columns X).*1 = features ∧
    Forall2 (λ feature col, col.1 = feature ∧ column_of float_repr df encoders feature col.2)
            features (ff_columns X) ∧
    (∀ column, column ∉ features → column ∉ (ff_columns X).*1) ∧
    (∀ i row, to_rows X !! i = Some row →
       length row = length features ∧
       ∀ j feature, features !! j = Some feature → columns df !! feature = None →
                    row !! j = Some (VInt 0)) ∧
    (well_formed df → length (to_rows X) = nrows df).
Proof.
  intros He Hf. split.
  - by apply (preprocess_data_total self df encoders features).
  - intros X. by apply (preprocess_data_shape self df encoders features).
Qed.

(** C2: when every encoder has a first category, the encoder loop of
    [preprocess_data] never raises, and it leaves in every column that
    has an encoder the codes of its cells: for each row, the code of the
    cell's own category when its string form is known to the encoder, the
    code of the encoder's first category otherwise. These codes are what
    [preprocess_data], and the same steps of [check_models], return in
    the column of every expected feature that has an encoder. *)
Theorem encoder_loop_known_or_first self df encoders features :
  label_encoders self = Some encoders → feature_names self = Some features →
  (∀ column encoder, encoders !! column = Some encoder → classes_ encoder ≠ []) →
  (∃ processed_df,
     for_each (encode_step float_repr) df (map_to_list encoders) = inr processed_df ∧
     ∀ column encoder cells,
       encoders !! column = Some encoder → columns df !! column = Some cells →
       ∃ codes, columns processed_df !! column = Some codes ∧
                encoded_with float_repr encoder cells codes) ∧
  (∃ X,
     preprocess_data float_repr self df = inr X ∧
     CheckModels.preprocess float_repr encoders features df = inr X ∧
     ∀ j feature encoder cells,
       features !! j = Some feature →
       encoders !! feature = Some encoder → columns df !! feature = Some cells →
       ∃ codes, ff_columns X !! j = Some (feature, codes) ∧
                encoded_with float_repr encoder cells codes).
Proof.
  intros He Hf Hne. split.
  - destruct (for_each_encode_total float_repr (map_to_list encoders) df)
      as [processed_df Hloop].
    { intros column encoder Hin%elem_of_map_to_list. by eapply Hne. }
    exists processed_df. split; [done|].
    intros column encoder cells Henc Hcells.
    pose proof (for_each_encode_lookup float_repr _ _ _
                  (NoDup_fst_map_to_list encoders) Hloop column) as Hcol.
    rewrite Hcells in Hcol. destruct Hcol as [_ Hcol].
    destruct (Hcol encoder) as (codes & Hcodes & Hlookup);
      [by apply elem_of_map_to_list|].
    exists codes. split; [done|].
    destruct (encode_column_encoded_with float_repr encoder cells (Hne _ _ Henc))
      as (codes' & Hcodes' & Hspec).
    congruence.
  - destruct (preprocess_data_total self df encoders features He Hf Hne) as [X HX].
    exists X. split; [done|]. split.
    { unfold CheckModels.preprocess. rewrite <- HX. symmetry.
      by apply preprocess_data_loaded. }
    intros j feature encoder cells Hj Henc Hcells.
    destruct (preprocess_data_shape self df encoders features X He Hf HX)
      as (_ & _ & Hcols & _).
    destruct (Forall2_lookup_l _ _ _ _ _ Hcols Hj) as ([name codes] & Hcol & Hname & Hout).
    simpl in Hname, Hout. subst name. unfold column_of in Hout.
    rewrite Hcells, Henc in Hout.
    exists codes. split; [done|].
    destruct (encode_column_encoded_with float_repr encoder cells (Hne _ _ Henc))
      as (codes' & Hcodes' & Hspec).
    congruence.
Qed.

(** C7 (as amended): without the encoders mapping preprocessing raises
    [AttributeError] at once, and without the feature list it raises and
    returns no frame; but a loaded, empty encoders mapping or feature list
    is no error: with no encoder the features are selected unencoded, and
    with no feature the encoder loop still runs first: when it returns,
    as it does when every encoder has a non-empty vocabulary, the result
    is the frame without columns, and when it raises, preprocessing
    raises that exception. *)
Theorem preprocess_data_missing_schema self df :
  (label_encoders self = None →
     preprocess_data float_repr self df
     = inl (AttributeError "'NoneType' object has no attribute 'items'")) ∧
  (feature_names self = None → ∃ e, preprocess_data float_repr self df = inl e) ∧
  (∀ features, label_encoders self = Some ∅ → feature_names self = Some features →
     ∃ X, preprocess_data float_repr self df = inr X ∧
          Forall2 (λ feature col,
                     col.1 = feature ∧
                     col.2 = default (replicate (nrows df) (VInt 0)) (columns df !! feature))
                  features (ff_columns X)) ∧
  (∀ encoders, label_encoders self = Some encoders → feature_names self = Some [] →
     (∀ processed_df,
        for_each (encode_step float_repr) df (map_to_list encoders) = inr processed_df →
        preprocess_data float_repr self df
        = inr {| ff_nrows := nrows df; ff_columns := [] |}) ∧
     (∀ e,
        for_each (encode_step float_repr) df (map_to_list encoders) = inl e →
        preprocess_data float_repr self df = inl e) ∧
     ((∀ column encoder, encoders !! column = Some encoder → classes_ encoder ≠ []) →
      preprocess_data float_repr self df
      = inr {| ff_nrows := nrows df; ff_columns := [] |})).
Proof.
  split_and!.
  - intros He. unfold preprocess_data. by rewrite He.
  - intros Hf. unfold preprocess_data. rewrite Hf.
    destruct (label_encoders self) as [encoders|]; result_simpl; [|by eexists].
    destruct (for_each _ _ _); result_simpl; by eexists.
  - intros features He Hf.
    destruct (preprocess_data_total self df ∅ features He Hf) as [X HX];
      [by intros ? ? ?%lookup_empty_Some|].
    destruct (preprocess_data_shape self df ∅ features X He Hf HX)
      as (_ & _ & Hcols & _).
    exists X. split; [done|]. eapply Forall2_impl; [done|].
    intros feature col [Hn Hout]. split; [done|]. unfold column_of in Hout.
    destruct (columns df !! feature); simpl; [by rewrite lookup_empty in Hout | done].
  - intros encoders He Hf.
    assert (∀ processed_df,
              for_each (encode_step float_repr) df (map_to_list encoders) = inr processed_df →
              preprocess_data float_repr self df
              = inr {| ff_nrows := nrows df; ff_columns := [] |}) as Hreturns.
    { intros processed_df Hloop. rewrite (preprocess_data_loaded _ _ _ _ He Hf), Hloop.
      result_simpl. unfold getitem_list. simpl. result_simpl.
      by rewrite (for_each_encode_nrows _ _ _ _ Hloop). }
    split_and!.
    + done.
    + intros e Hloop. by rewrite (preprocess_data_loaded _ _ _ _ He Hf), Hloop.
    + intros Hne.
      destruct (for_each_encode_total float_repr (map_to_list encoders) df)
        as [processed_df Hloop]; [|by eapply Hreturns].
      intros column encoder Hin%elem_of_map_to_list. by eapply Hne.
Qed.

End Preprocessing.

(** ** Maxima of probability vectors *)

Section Maxima.

Import FloatOrder.

Implicit Types (m x c : float) (ps rest : list float).

Lemma py_max_cons x rest : py_max (x :: rest) = inr (foldl py_step x rest).
Proof. reflexivity. Qed.

Lemma np_max_cons x rest : np_max (x :: rest) = inr (foldl np_maximum x rest).
Proof. reflexivity. Qed.

Lemma foldl_choice (step : float → float → float) m rest :
  (∀ a b, step a b = a ∨ step a b = b) → foldl step m rest ∈ m :: rest.
Proof.
  intros Hstep. revert m. induction rest as [|x rest IH]; intros m; simpl; [by left|].
  specialize (IH (step m x)). apply elem_of_cons in IH as [->|IH].
  - destruct (Hstep m x) as [->| ->]; [by left | right; by left].
  - right. by right.
Qed.

Lemma py_step_choice a b : py_step a b = a ∨ py_step a b = b.
Proof. unfold py_step. destruct (a <? b)%float; auto. Qed.

Lemma np_maximum_choice a b : np_maximum a b = a ∨ np_maximum a b = b.
Proof. unfold np_maximum. destruct ((b <=? a)%float || is_nan a); auto. Qed.

Lemma py_max_elem ps c : py_max ps = inr c → c ∈ ps.
Proof.
  destruct ps as [|x rest]; [discriminate|]. rewrite py_max_cons. intros [= <-].
  apply foldl_choice, py_step_choice.
Qed.

Lemma np_max_elem ps c : np_max ps = inr c → c ∈ ps.
Proof.
  destruct ps as [|x rest]; [discriminate|]. rewrite np_max_cons. intros [= <-].
  apply foldl_choice, np_maximum_choice.
Qed.

(** Without NaN, NumPy's reduction and the builtin [max] take the same
    steps. *)
Lemma np_maximum_py_step a b : not_nan a → not_nan b → np_maximum a b = py_step a b.
Proof.
  intros Ha Hb. unfold np_maximum, py_step. rewrite (ltb_negb_leb a b Ha Hb), Ha.
  by destruct (b <=? a)%float.
Qed.

Lemma py_step_not_nan a b : not_nan a → not_nan b → not_nan (py_step a b).
Proof. intros Ha Hb. unfold py_step. by destruct (a <? b)%float. Qed.

Lemma np_max_py_max ps c :
  Forall not_nan ps → np_max ps = inr c ↔ py_max ps = inr c.
Proof.
  destruct ps as [|x rest]; [done|]. rewrite np_max_cons, py_max_cons.
  intros [Hx Hrest]%Forall_cons.
  assert (foldl np_maximum x rest = foldl py_step x rest) as ->; [|done].
  revert x Hx.
  induction Hrest as [|y rest Hy _ IH]; intros x Hx; simpl; [done|].
  rewrite (np_maximum_py_step x y Hx Hy). apply IH. by apply py_step_not_nan.
Qed.

(** With a NaN they part: the builtin keeps the entry it holds, NumPy
    propagates the NaN. *)
Example max_with_nan :
  py_max [0.5%float; nan] = inr 0.5%float ∧ np_max [0.5%float; nan] = inr nan.
Proof. split; reflexivity. Qed.

Lemma py_step_upper a b :
  not_nan a → not_nan b →
  (a <=? py_step a b)%float = true ∧ (b <=? py_step a b)%float = true.
Proof.
  intros Ha Hb. unfold py_step. destruct (a <? b)%float eqn:Hlt.
  - split; [by apply ltb_leb | by apply leb_refl].
  - split; [by apply leb_refl|].
    rewrite (ltb_negb_leb a b Ha Hb) in Hlt. by apply negb_false_iff in Hlt.
Qed.

Lemma foldl_py_step_upper m rest :
  not_nan m → Forall not_nan rest →
  ∀ q, q ∈ m :: rest → (q <=? foldl py_step m rest)%float = true.
Proof.
  intros Hm Hrest. revert m Hm.
  induction Hrest as [|x rest Hx _ IH]; intros m Hm q Hq; simpl.
  - apply list_elem_of_singleton in Hq as ->. by apply leb_refl.
  - destruct (py_step_upper m x Hm Hx) as [Hm' Hx'].
    pose proof (py_step_not_nan m x Hm Hx) as Hnan.
    assert ((py_step m x <=? foldl py_step (py_step m x) rest)%float = true) as Hstep
      by (apply IH; [done | left]).
    apply elem_of_cons in Hq as [->|[->|Hq]%elem_of_cons].
    + by eapply leb_trans.
    + by eapply leb_trans.
    + apply IH; [done | by right].
Qed.

Lemma py_max_upper ps c :
  py_max ps = inr c → Forall not_nan ps → ∀ q, q ∈ ps → (q <=? c)%float = true.
Proof.
  destruct ps as [|x rest]; [discriminate|]. rewrite py_max_cons.
  intros [= <-] [Hx Hrest]%Forall_cons. by apply foldl_py_step_upper.
Qed.

Lemma in_unit_not_nan p : in_unit p → not_nan p.
Proof. intros [H _]. by eapply leb_not_nan_r. Qed.

Lemma Forall_in_unit_not_nan ps : Forall in_unit ps → Forall not_nan ps.
Proof. intros H. eapply Forall_impl; [done|]. apply in_unit_not_nan. Qed.

Lemma py_max_max_probability ps c : py_max ps = inr c → max_probability c ps.
Proof.
  intros Hc. pose proof (py_max_elem _ _ Hc) as Hin. split_and!; [done | |].
  - by apply py_max_upper.
  - intros Hall. rewrite Forall_forall in Hall. by apply Hall.
Qed.

Lemma np_max_max_probability ps c : np_max ps = inr c → max_probability c ps.
Proof.
  intros Hc. pose proof (np_max_elem _ _ Hc) as Hin. split_and!; [done | |].
  - intros Hnan. apply (np_max_py_max _ _ Hnan) in Hc. by apply py_max_upper.
  - intros Hall. rewrite Forall_forall in Hall. by apply Hall.
Qed.

End Maxima.

(** ** Inference *)

Section Inference.

Variable float_repr : float → string.

Implicit Types (self : WebModelHandler) (clf : Classifier) (df : DataFrame)
  (X : FeatureFrame) (preds : list Z) (confs : list float)
  (probas : list (list float)).

Lemma getitem0_inr {A : Type} (xs : list A) (x : A) :
  getitem0 xs = inr x ↔ xs !! 0 = Some x.
Proof. destruct xs as [|y xs]; simpl; split; (discriminate || by intros [= ->]). Qed.

Lemma get_model_inr self clf : get_model self = inr clf ↔ model self = Some clf.
Proof.
  unfold get_model. destruct (model self); split; (discriminate || by intros [= ->]).
Qed.

(** *** The input validation of the classifier *)

Lemma check_array_rows X : to_rows X ≠ [] → check_array X = inr (to_rows X).
Proof. unfold check_array. by destruct (to_rows X). Qed.

Lemma check_array_no_rows X : to_rows X = [] → check_array X = inl (no_samples X).
Proof. unfold check_array. by intros ->. Qed.

Lemma predict_rows clf X :
  to_rows X ≠ [] →
  predict clf X = mapM (predict1 clf) (to_rows X) ∧
  predict_proba clf X = mapM (predict_proba1 clf) (to_rows X).
Proof. intros Hrows. unfold predict, predict_proba. by rewrite check_array_rows. Qed.

Lemma predict_no_rows clf X :
  to_rows X = [] →
  predict clf X = inl (no_samples X) ∧ predict_proba clf X = inl (no_samples X).
Proof. intros Hrows. unfold predict, predict_proba. by rewrite check_array_no_rows. Qed.

Lemma predict_inr clf X preds :
  predict clf X = inr preds ↔
  to_rows X ≠ [] ∧ mapM (predict1 clf) (to_rows X) = inr preds.
Proof.
  destruct (decide (to_rows X = [])) as [Hrows|Hrows].
  - rewrite (proj1 (predict_no_rows clf X Hrows)). split; [done | by intros [? _]].
  - rewrite (proj1 (predict_rows clf X Hrows)). split; [done | by intros [_ ?]].
Qed.

Lemma predict_proba_inr clf X probas :
  predict_proba clf X = inr probas ↔
  to_rows X ≠ [] ∧ mapM (predict_proba1 clf) (to_rows X) = inr probas.
Proof.
  destruct (decide (to_rows X = [])) as [Hrows|Hrows].
  - rewrite (proj2 (predict_no_rows clf X Hrows)). split; [done | by intros [? _]].
  - rewrite (proj2 (predict_rows clf X Hrows)). split; [done | by intros [_ ?]].
Qed.

(** Without a row neither prediction calls the classifier: both raise
    the validation error. *)
Lemma predict_batch_no_rows self clf df X :
  model self = Some clf →
  preprocess_data float_repr self df = inr X →
  to_rows X = [] →
  predict_batch float_repr self df = inl (no_samples X) ∧
  predict_single float_repr self df = inl (no_samples X).
Proof.
  intros Hclf%get_model_inr HX Hrows. unfold predict_batch, predict_single.
  rewrite HX. result_simpl. rewrite Hclf. result_simpl.
  by rewrite (proj1 (predict_no_rows clf X Hrows)).
Qed.

Lemma predict_single_inr self df (p : Z) (c : float) :
  predict_single float_repr self df = inr (p, c) ↔
  ∃ X clf preds probas ps,
    preprocess_data float_repr self df = inr X ∧ model self = Some clf ∧
    predict clf X = inr preds ∧ preds !! 0 = Some p ∧
    predict_proba clf X = inr probas ∧ probas !! 0 = Some ps ∧
    py_max ps = inr c.
Proof.
  unfold predict_single. split.
  - intros (X & HX & H)%bind_inr. apply bind_inr in H as (clf & Hclf & H).
    apply bind_inr in H as (preds & Hpreds & H). apply bind_inr in H as (p' & Hp & H).
    apply bind_inr in H as (probas & Hprobas & H).
    apply bind_inr in H as (ps & Hps & H). apply bind_inr in H as (c' & Hc & [= <- <-]).
    exists X, clf, preds, probas, ps.
    by rewrite <- get_model_inr, <- !getitem0_inr.
  - intros (X & clf & preds & probas & ps & -> & Hclf%get_model_inr & Hpreds
            & Hp%getitem0_inr & Hprobas & Hps%getitem0_inr & Hc).
    result_simpl. rewrite Hclf. result_simpl. rewrite Hpreds. result_simpl.
    rewrite Hp. result_simpl. rewrite Hprobas. result_simpl. rewrite Hps. result_simpl.
    by rewrite Hc.
Qed.

Lemma predict_batch_inr self df preds confs :
  predict_batch float_repr self df = inr (preds, confs) ↔
  ∃ X clf probas,
    preprocess_data float_repr self df = inr X ∧ model self = Some clf ∧
    predict clf X = inr preds ∧ predict_proba clf X = inr probas ∧
    mapM np_max probas = inr confs.
Proof.
  unfold predict_batch. split.
  - intros (X & HX & H)%bind_inr. apply bind_inr in H as (clf & Hclf & H).
    apply bind_inr in H as (preds' & Hpreds & H).
    apply bind_inr in H as (probas & Hprobas & H).
    apply bind_inr in H as (confs' & Hconfs & [= <- <-]).
    exists X, clf, probas. by rewrite <- get_model_inr.
  - intros (X & clf & probas & -> & Hclf%get_model_inr & Hpreds & Hprobas & Hconfs).
    result_simpl. rewrite Hclf. result_simpl. rewrite Hpreds. result_simpl.
    rewrite Hprobas. result_simpl. by rewrite Hconfs.
Qed.

Lemma Forall2_compose {A B C : Type} (P : A → B → Prop) (Q : B → C → Prop)
    (l : list A) (k : list B) (r : list C) :
  Forall2 P l k → Forall2 Q k r → Forall2 (λ a c, ∃ b, P a b ∧ Q b c) l r.
Proof.
  intros H. revert r. induction H as [|a b l k Hab _ IH]; intros r; inversion 1; subst.
  - constructor.
  - constructor; [by exists b | by apply IH].
Qed.

(** Prediction returns when there is a row, the classifier accepts every
    row and gives it a non-empty probability vector. *)
Lemma predict_total self clf df X :
  model self = Some clf →
  preprocess_data float_repr self df = inr X →
  Forall (λ row, is_ok (predict1 clf row) ∧
                 ∃ ps, predict_proba1 clf row = inr ps ∧ ps ≠ []) (to_rows X) →
  to_rows X ≠ [] →
  is_ok (predict_batch float_repr self df) ∧
  is_ok (predict_single float_repr self df).
Proof.
  intros Hclf HX Hrows Hsome.
  destruct (mapM_is_ok (predict1 clf) (to_rows X)) as [preds Hpreds].
  { eapply Forall_impl; [done|]. by intros row [? _]. }
  destruct (mapM_is_ok (predict_proba1 clf) (to_rows X)) as [probas Hprobas].
  { eapply Forall_impl; [done|]. intros row [_ (ps & -> & _)]. apply is_ok_inr. }
  assert (Forall (λ ps, ps ≠ []) probas) as Hne.
  { apply Forall_lookup. intros i ps Hps. apply mapM_inr in Hprobas.
    destruct (Forall2_lookup_r _ _ _ _ _ Hprobas Hps) as (row & Hrow & Hrowps).
    rewrite Forall_lookup in Hrows.
    destruct (Hrows i row Hrow) as [_ (ps' & Hps' & Hne)]. congruence. }
  split.
  - destruct (mapM_is_ok np_max probas) as [confs Hconfs].
    { eapply Forall_impl; [done|]. intros [|p ps] Hps; [done | apply is_ok_inr]. }
    exists (preds, confs). apply predict_batch_inr. exists X, clf, probas.
    by rewrite predict_inr, predict_proba_inr.
  - pose proof (mapM_inr_length _ _ _ Hpreds) as Hl1.
    pose proof (mapM_inr_length _ _ _ Hprobas) as Hl2.
    destruct (to_rows X) as [|row rows] eqn:Hrow; [done|].
    destruct preds as [|p preds]; [done|]. destruct probas as [|ps probas]; [done|].
    apply Forall_cons in Hne as [Hps _]. destruct ps as [|q qs]; [done|].
    exists (p, foldl py_step q qs). apply predict_single_inr.
    exists X, clf, (p :: preds), ((q :: qs) :: probas), (q :: qs).
    rewrite predict_inr, predict_proba_inr, Hrow. by split_and!.
Qed.

(** C3: for every preprocessed frame, the confidence returned by single
    prediction is the maximum of the classifier's probability vector of
    the first row, and the confidences returned by batch prediction are,
    row by row, the maxima of the probability vectors: each is an entry
    of the vector as the classifier gave it, no entry exceeds it, and it
    lies in [0,1] when the entries do. Both predictions return when
    there is a row and the classifier accepts every row; on a frame
    without rows both raise the validation error of the classifier and
    return no confidence. *)
Theorem confidence_is_max_probability self clf df X :
  model self = Some clf →
  preprocess_data float_repr self df = inr X →
  (∀ (p : Z) (c : float), predict_single float_repr self df = inr (p, c) →
     ∃ row ps, to_rows X !! 0 = Some row ∧ predict_proba1 clf row = inr ps ∧
               max_probability c ps) ∧
  (∀ preds confs, predict_batch float_repr self df = inr (preds, confs) →
     Forall2 (λ row c, ∃ ps, predict_proba1 clf row = inr ps ∧ max_probability c ps)
             (to_rows X) confs) ∧
  (Forall (λ row, is_ok (predict1 clf row) ∧
                  ∃ ps, predict_proba1 clf row = inr ps ∧ ps ≠ []) (to_rows X) →
   to_rows X ≠ [] →
   is_ok (predict_batch float_repr self df) ∧
   is_ok (predict_single float_repr self df)) ∧
  (to_rows X = [] →
   predict_batch float_repr self df = inl (no_samples X) ∧
   predict_single float_repr self df = inl (no_samples X)).
Proof.
  intros Hclf HX.
  split; [|split; [|split; [by apply predict_total
                           | by apply (predict_batch_no_rows self clf df X)]]].
  - intros p c (X' & clf' & preds & probas & ps & HX' & Hclf' & _ & _ & Hprobas & Hps & Hc)
      %predict_single_inr.
    assert (X' = X) as -> by congruence. assert (clf' = clf) as -> by congruence.
    apply predict_proba_inr in Hprobas as [_ Hprobas]. apply mapM_inr in Hprobas.
    destruct (Forall2_lookup_r _ _ _ _ _ Hprobas Hps) as (row & Hrow & Hproba).
    exists row, ps. split_and!; [done | done | by apply py_max_max_probability].
  - intros preds confs (X' & clf' & probas & HX' & Hclf' & _ & Hprobas & Hconfs)
      %predict_batch_inr.
    assert (X' = X) as -> by congruence. assert (clf' = clf) as -> by congruence.
    apply predict_proba_inr in Hprobas as [_ Hprobas].
    apply mapM_inr in Hprobas. apply mapM_inr in Hconfs.
    eapply Forall2_impl; [by eapply Forall2_compose|].
    intros row c (ps & Hps & Hc). exists ps. split; [done|].
    by apply np_max_max_probability.
Qed.

(** C8 (as amended): when the classifier raises on a row of the
    preprocessed frame, batch and single prediction raise that same
    exception, unchanged: it is the exception of the first rejected row
    and carries nothing else; no prediction is returned in its place.
    (On a frame without rows the exception is the validation error.)
    Whenever batch prediction returns, it returns one prediction and one
    confidence per row, each prediction being the classifier's own
    output for its row. *)
Theorem classifier_error_propagates self clf df X e :
  model self = Some clf →
  preprocess_data float_repr self df = inr X →
  (predict clf X = inl e →
     predict_batch float_repr self df = inl e ∧
     predict_single float_repr self df = inl e ∧
     (to_rows X ≠ [] →
      ∃ i row, to_rows X !! i = Some row ∧ predict1 clf row = inl e ∧
               ∀ j row', j < i → to_rows X !! j = Some row' → is_ok (predict1 clf row')) ∧
     (to_rows X = [] → e = no_samples X)) ∧
  (is_ok (predict clf X) → predict_proba clf X = inl e →
     predict_batch float_repr self df = inl e) ∧
  (∀ preds confs, predict_batch float_repr self df = inr (preds, confs) →
     length preds = length (to_rows X) ∧ length confs = length (to_rows X) ∧
     Forall2 (λ row p, predict1 clf row = inr p) (to_rows X) preds).
Proof.
  intros Hclf%get_model_inr HX. split_and!.
  - intros He. unfold predict_batch, predict_single. rewrite HX. result_simpl.
    rewrite Hclf. result_simpl. rewrite He. split_and!; [done | done | |].
    + intros Hrows. rewrite (proj1 (predict_rows clf X Hrows)) in He.
      by apply mapM_inl.
    + intros Hrows. rewrite (proj1 (predict_no_rows clf X Hrows)) in He. congruence.
  - intros [preds Hpreds] He. unfold predict_batch. rewrite HX. result_simpl.
    rewrite Hclf. result_simpl. rewrite Hpreds. result_simpl. by rewrite He.
  - intros preds confs (X' & clf' & probas & HX' & Hclf' & Hpreds & Hprobas & Hconfs)
      %predict_batch_inr.
    assert (X' = X) as -> by congruence.
    apply get_model_inr in Hclf. assert (clf' = clf) as -> by congruence.
    apply predict_inr in Hpreds as [_ Hpreds].
    apply predict_proba_inr in Hprobas as [_ Hprobas].
    split_and!.
    + by eapply mapM_inr_length.
    + rewrite (mapM_inr_length _ _ _ Hconfs). by eapply mapM_inr_length.
    + by apply mapM_inr.
Qed.

End Inference.

(** ** Batch prediction against row-by-row prediction *)

Section BatchAndSingle.

Import FloatOrder.

Variable float_repr : float → string.

Implicit Types (self : WebModelHandler) (clf : Classifier) (df : DataFrame)
  (X : FeatureFrame) (preds : list Z) (confs : list float)
  (probas : list (list float)).

Lemma take_1_drop_lookup {A : Type} (l : list A) (i : nat) (x : A) :
  l !! i = Some x → take 1 (drop i l) = [x].
Proof.
  revert i. induction l as [|y l IH]; intros [|i]; simpl; try done.
  - intros [= ->]. by rewrite take_0.
  - apply IH.
Qed.

Lemma mapM_singleton {A B : Type} (f : A → result B) (x : A) (y : B) :
  mapM f [x] = inr [y] ↔ f x = inr y.
Proof.
  rewrite mapM_inr. split.
  - by inversion 1.
  - intros H. by repeat constructor.
Qed.

Lemma getitem_list_slice df (names : list string) X i :
  getitem_list df names = inr X →
  getitem_list (iloc i df) names = inr (ff_iloc i X).
Proof.
  rewrite !getitem_list_inr. intros [_ Hcols]. split; [done|].
  unfold ff_iloc. cbn [ff_columns]. apply Forall2_fmap_r.
  eapply Forall2_impl; [done|]. intros name [n cells] [Hn Hcol].
  simpl in Hn, Hcol. subst n. split; [done|]. by rewrite iloc_lookup, Hcol.
Qed.

Lemma preprocess_data_slice self df encoders features X i :
  label_encoders self = Some encoders → feature_names self = Some features →
  i < nrows df →
  preprocess_data float_repr self df = inr X →
  preprocess_data float_repr self (iloc i df) = inr (ff_iloc i X).
Proof.
  intros He Hf Hi (df' & Hloop & Hsel)%(preprocess_data_inr float_repr _ _ _ _ _ He Hf).
  apply (preprocess_data_inr _ _ _ _ _ _ He Hf). exists (iloc i df'). split.
  - by apply for_each_encode_slice.
  - rewrite fill_missing_slice by by rewrite (for_each_encode_nrows _ _ _ _ Hloop).
    by apply getitem_list_slice.
Qed.

Lemma preprocess_data_of_slices self df encoders features :
  label_encoders self = Some encoders → feature_names self = Some features →
  well_formed df →
  (∀ i, i < nrows df → is_ok (preprocess_data float_repr self (iloc i df))) →
  is_ok (preprocess_data float_repr self df).
Proof.
  intros He Hf Hwf Hall.
  destruct (for_each_encode_of_slices float_repr (map_to_list encoders) df Hwf)
    as [df' Hloop].
  { intros i Hi. destruct (Hall i Hi) as [Xi HXi].
    apply (preprocess_data_inr _ _ _ _ _ _ He Hf) in HXi as (dfi & -> & _).
    apply is_ok_inr. }
  destruct (select_filled_total df' features) as [X HX].
  exists X. apply (preprocess_data_inr _ _ _ _ _ _ He Hf). by exists df'.
Qed.

Lemma to_rows_ff_iloc X i (row : list value) :
  to_rows X !! i = Some row → i < ff_nrows X → to_rows (ff_iloc i X) = [row].
Proof.
  intros Hrow Hi. unfold ff_iloc. rewrite to_rows_slice by done.
  by apply take_1_drop_lookup.
Qed.

Lemma preprocess_data_rows self df encoders features X :
  label_encoders self = Some encoders → feature_names self = Some features →
  well_formed df →
  preprocess_data float_repr self df = inr X →
  ff_nrows X = nrows df ∧ length (to_rows X) = nrows df.
Proof.
  intros He Hf Hwf HX.
  destruct (preprocess_data_columns _ _ _ _ _ _ He Hf HX) as [Hn _].
  split; [done|]. rewrite to_rows_length; [done|].
  by eapply preprocess_data_well_formed.
Qed.

(** What a single prediction on row [i] computes, in terms of the rows of
    the preprocessed batch. *)
Lemma predict_single_row self clf df encoders features X i (row : list value)
    (p : Z) (c : float) :
  model self = Some clf →
  label_encoders self = Some encoders → feature_names self = Some features →
  well_formed df →
  preprocess_data float_repr self df = inr X →
  to_rows X !! i = Some row →
  predict_single float_repr self (iloc i df) = inr (p, c) ↔
  predict1 clf row = inr p ∧
  ∃ ps, predict_proba1 clf row = inr ps ∧ py_max ps = inr c.
Proof.
  intros Hclf He Hf Hwf HX Hrow.
  destruct (preprocess_data_rows _ _ _ _ _ He Hf Hwf HX) as [Hn Hlen].
  assert (i < nrows df) as Hi by (rewrite <- Hlen; by eapply lookup_lt_Some).
  pose proof (preprocess_data_slice _ _ _ _ _ _ He Hf Hi HX) as HXi.
  assert (to_rows (ff_iloc i X) = [row]) as Hrows
    by (apply to_rows_ff_iloc; [done | by rewrite Hn]).
  rewrite predict_single_inr. split.
  - intros (X' & clf' & preds & probas & ps & HX' & Hclf' & Hpreds & Hp & Hprobas & Hps & Hc).
    assert (X' = ff_iloc i X) as -> by congruence.
    assert (clf' = clf) as -> by congruence.
    apply predict_inr in Hpreds as [_ Hpreds].
    apply predict_proba_inr in Hprobas as [_ Hprobas].
    rewrite Hrows in Hpreds, Hprobas.
    apply mapM_inr in Hpreds. apply mapM_inr in Hprobas.
    inversion Hpreds as [|? p' ? ? Hp' Hnil]; subst. inversion Hnil; subst.
    inversion Hprobas as [|? ps' ? ? Hps' Hnil']; subst. inversion Hnil'; subst.
    simpl in Hp, Hps. injection Hp as ->. injection Hps as ->.
    split; [done | by exists ps].
  - intros (Hp & ps & Hps & Hc).
    exists (ff_iloc i X), clf, [p], [ps], ps.
    rewrite predict_inr, predict_proba_inr, Hrows.
    split_and!; try done; by apply mapM_singleton.
Qed.

(** C4 (as amended): with the artifacts loaded, a well-formed batch of at
    least one row and a classifier whose probabilities are numbers (not
    NaN), batch prediction returns [(preds, confs)] exactly when these
    hold one entry per row and, for every row [i], the single-row
    prediction on row [i] alone returns [(preds[i], confs[i])]: same
    values, same order, and the batch call returns whenever all the
    single calls do. On a batch without rows there is no single call to
    compare with, and batch prediction raises the validation error of the
    classifier. *)
Theorem predict_batch_is_rowwise_predict_single self clf encoders features df :
  model self = Some clf →
  label_encoders self = Some encoders → feature_names self = Some features →
  well_formed df →
  (∀ row ps, predict_proba1 clf row = inr ps → Forall not_nan ps) →
  (nrows df ≠ 0 →
   ∀ preds confs,
     predict_batch float_repr self df = inr (preds, confs) ↔
     length preds = nrows df ∧ length confs = nrows df ∧
     ∀ i, i < nrows df →
       ∃ p c, preds !! i = Some p ∧ confs !! i = Some c ∧
              predict_single float_repr self (iloc i df) = inr (p, c)) ∧
  (nrows df = 0 →
   ∃ X, preprocess_data float_repr self df = inr X ∧
        predict_batch float_repr self df = inl (no_samples X)).
Proof.
  intros Hclf He Hf Hwf Hnan. split.
  - intros Hrows0 preds confs. split.
    + intros (X & clf' & probas & HX & Hclf' & Hpreds & Hprobas & Hconfs)%predict_batch_inr.
      assert (clf' = clf) as -> by congruence.
      destruct (preprocess_data_rows _ _ _ _ _ He Hf Hwf HX) as [Hn Hlen].
      apply predict_inr in Hpreds as [_ Hpreds].
      apply predict_proba_inr in Hprobas as [_ Hprobas].
      apply mapM_inr in Hpreds. apply mapM_inr in Hprobas. apply mapM_inr in Hconfs.
      pose proof (Forall2_length _ _ _ Hpreds) as Hl1.
      pose proof (Forall2_length _ _ _ Hprobas) as Hl2.
      pose proof (Forall2_length _ _ _ Hconfs) as Hl3.
      split_and!; [congruence | congruence |].
      intros i Hi.
      destruct (lookup_lt_is_Some_2 (to_rows X) i) as [row Hrow]; [by rewrite Hlen|].
      destruct (Forall2_lookup_l _ _ _ _ _ Hpreds Hrow) as (p & Hp & Hrowp).
      destruct (Forall2_lookup_l _ _ _ _ _ Hprobas Hrow) as (ps & Hps & Hrowps).
      destruct (Forall2_lookup_l _ _ _ _ _ Hconfs Hps) as (c & Hc & Hpsc).
      exists p, c. split_and!; [done | done |].
      apply (predict_single_row _ _ _ _ _ _ _ _ _ _ Hclf He Hf Hwf HX Hrow).
      split; [done|]. exists ps. split; [done|].
      by apply (np_max_py_max _ _ (Hnan _ _ Hrowps)).
    + intros (Hlp & Hlc & Hall).
      destruct (preprocess_data_of_slices self df encoders features He Hf Hwf) as [X HX].
      { intros i Hi. destruct (Hall i Hi) as (p & c & _ & _ & Hsingle).
        apply predict_single_inr in Hsingle as (Xi & _ & _ & _ & _ & -> & _).
        apply is_ok_inr. }
      destruct (preprocess_data_rows _ _ _ _ _ He Hf Hwf HX) as [Hn Hlen].
      assert (to_rows X ≠ []) as Hsome.
      { intros Hnil. rewrite Hnil in Hlen. simpl in Hlen. congruence. }
      assert (∀ i row, to_rows X !! i = Some row →
                ∃ p c ps, preds !! i = Some p ∧ confs !! i = Some c ∧
                          predict1 clf row = inr p ∧ predict_proba1 clf row = inr ps ∧
                          np_max ps = inr c) as Hrows.
      { intros i row Hrow.
        assert (i < nrows df) as Hi by (rewrite <- Hlen; by eapply lookup_lt_Some).
        destruct (Hall i Hi) as (p & c & Hp & Hc & Hsingle).
        apply (predict_single_row _ _ _ _ _ _ _ _ _ _ Hclf He Hf Hwf HX Hrow) in Hsingle
          as (Hrowp & ps & Hps & Hmax).
        exists p, c, ps. split_and!; try done.
        by apply (np_max_py_max _ _ (Hnan _ _ Hps)). }
      destruct (mapM_is_ok (predict_proba1 clf) (to_rows X)) as [probas Hprobas].
      { apply Forall_lookup. intros i row Hrow.
        destruct (Hrows i row Hrow) as (_ & _ & ps & _ & _ & _ & -> & _). apply is_ok_inr. }
      apply predict_batch_inr. exists X, clf, probas.
      rewrite predict_inr, predict_proba_inr. split_and!; try done.
      * apply mapM_inr, Forall2_same_length_lookup_2; [congruence|].
        intros i row p Hrow Hp.
        destruct (Hrows i row Hrow) as (p' & _ & _ & Hp' & _ & Hrowp & _). congruence.
      * apply mapM_inr in Hprobas. pose proof (Forall2_length _ _ _ Hprobas) as Hl.
        apply mapM_inr, Forall2_same_length_lookup_2; [congruence|].
        intros i ps c Hps Hc.
        destruct (Forall2_lookup_r _ _ _ _ _ Hprobas Hps) as (row & Hrow & Hrowps).
        destruct (Hrows i row Hrow) as (_ & c' & ps' & _ & Hc' & _ & Hps' & Hmax).
        congruence.
  - intros Hrows0.
    destruct (preprocess_data_of_slices self df encoders features He Hf Hwf) as [X HX].
    { intros i Hi. lia. }
    destruct (preprocess_data_rows _ _ _ _ _ He Hf Hwf HX) as [Hn Hlen].
    exists X. split; [done|].
    apply (predict_batch_no_rows float_repr self clf df X); [done | done |].
    apply nil_length_inv. congruence.
Qed.

End BatchAndSingle.

(** ** Examples *)

Section Examples.

Import Sample.

Example preprocess_students :
  preprocess_data nan_repr handler students = inr students_X.
Proof. vm_compute. reflexivity. Qed.

Example predict_batch_students :
  predict_batch nan_repr handler students = inr ([0; 1]%Z, [0.72; 0.72]%float).
Proof. vm_compute. reflexivity. Qed.

Example predict_single_second_student :
  predict_single nan_repr handler (iloc 1 students) = inr (1%Z, 0.72%float).
Proof. vm_compute. reflexivity. Qed.

Example encode_numeric_categories :
  encode_column nan_repr {| classes_ := ["0"; "1"; "2"] |} [VInt 2; VInt 7; VFloat nan]
  = inr [VInt 2; VInt 0; VInt 0].
Proof. vm_compute. reflexivity. Qed.

Example encode_empty_vocabulary :
  encode_column nan_repr {| classes_ := [] |} [VStr "F"]
  = inl (IndexError "index 0 is out of bounds for axis 0 with size 0").
Proof. vm_compute. reflexivity. Qed.

Example predict_batch_missing_first :
  predict_batch nan_repr no_encoders missing_first
  = inl (ValueError "Input X contains NaN.").
Proof. vm_compute. reflexivity. Qed.

Example predict_batch_missing_second :
  predict_batch nan_repr no_encoders missing_second
  = inl (ValueError "Input X contains NaN.").
Proof. vm_compute. reflexivity. Qed.

End Examples.

(** ** The model check agrees with the handler *)

Lemma check_models_preprocess_agrees (float_repr : float → string)
    (self : WebModelHandler) (encoders : gmap string LabelEncoder)
    (features : list string) (df : DataFrame) :
  label_encoders self = Some encoders → feature_names self = Some features →
  CheckModels.preprocess float_repr encoders features df
  = preprocess_data float_repr self df.
Proof.
  intros He Hf. by rewrite (preprocess_data_loaded _ _ _ _ _ He Hf).
Qed.

(** ** The readings the code does not follow *)

(** The claim C7 as worded fails: with a loaded but empty encoders mapping,
    preprocessing returns a frame. *)
Lemma empty_encoders_do_not_fail : ¬ fails_without_schema.
Proof.
  intros Hfail.
  destruct (Hfail Sample.nan_repr Sample.no_encoders Sample.students) as [e He].
  { right. by left. }
  vm_compute in He. discriminate.
Qed.

(** With no expected feature the encoder loop still runs: an encoder
    fitted on no label raises on the column it meets. *)
Example unfitted_encoder_without_features :
  preprocess_data Sample.nan_repr
    {| model := Some Sample.clf; label_encoders := Some Demo.unfitted_encoders;
       feature_names := Some [] |} Sample.students
  = inl (IndexError "index 0 is out of bounds for axis 0 with size 0").
Proof. vm_compute. reflexivity. Qed.

(** The claim C8 as worded fails: a missing grade in the first row and
    one in the second row surface the very same exception, so no row
    index can be read from it. *)
Lemma classifier_error_carries_no_row_index : ¬ error_identifies_row.
Proof.
  intros [row_index Hrow].
  assert (row_index (ValueError "Input X contains NaN.") = 0) as H0.
  { eapply (Hrow Sample.nan_repr Sample.no_encoders Sample.clf Sample.missing_first);
      [reflexivity | vm_compute; reflexivity | vm_compute; reflexivity
       | vm_compute; reflexivity]. }
  assert (row_index (ValueError "Input X contains NaN.") = 1) as H1.
  { eapply (Hrow Sample.nan_repr Sample.no_encoders Sample.clf Sample.missing_second);
      [reflexivity | vm_compute; reflexivity | vm_compute; reflexivity
       | vm_compute; reflexivity]. }
  congruence.
Qed.

(** The claim C4 as worded fails on the batch without rows: no single
    prediction is made, the empty lists are what zero single calls
    return, and batch prediction raises. *)
Lemma empty_batch_is_not_sequential_singles : ¬ batch_is_sequential_singles.
Proof.
  intros Hbatch.
  assert (predict_batch Sample.nan_repr Sample.handler Demo.header_only = inr ([], []))
    as Hreturns.
  { apply (Hbatch Sample.nan_repr Sample.handler Sample.clf Sample.encoders
             Sample.features Demo.header_only [] []).
    - reflexivity.
    - reflexivity.
    - reflexivity.
    - apply (bool_decide_unpack (well_formed Demo.header_only)). vm_compute. exact I.
    - intros row ps. simpl. destruct (row !! 3) as [[g|f|t]|]; try discriminate.
      destruct (10 <=? g)%Z; intros [= <-]; repeat constructor.
    - split_and!; [done | done |]. intros i Hi. simpl in Hi. lia. }
  vm_compute in Hreturns. discriminate.
Qed.

(** ** The theorems at the example inputs *)

Lemma example_encoders_nonempty :
  ∀ column encoder,
    Sample.encoders !! column = Some encoder → classes_ encoder ≠ [].
Proof.
  apply (bool_decide_unpack
           (map_Forall (λ _ encoder, classes_ encoder ≠ []) Sample.encoders)).
  vm_compute. exact I.
Defined.

Lemma example_students_well_formed : well_formed Sample.students.
Proof.
  apply (bool_decide_unpack (well_formed Sample.students)). vm_compute. exact I.
Defined.

Lemma example_clf_no_nan :
  ∀ row ps, predict_proba1 Sample.clf row = inr ps → Forall not_nan ps.
Proof.
  intros row ps. simpl. destruct (row !! 3) as [[g|f|s]|]; try discriminate.
  destruct (10 <=? g)%Z; intros [= <-]; repeat constructor.
Defined.

Lemma preprocess_data_expected_features_example :
  ((∀ column encoder,
      Sample.encoders !! column = Some encoder → classes_ encoder ≠ []) →
   is_ok (preprocess_data Sample.nan_repr Sample.handler Sample.students)) ∧
  ∀ X, preprocess_data Sample.nan_repr Sample.handler Sample.students = inr X →
    ff_nrows X = nrows Sample.students ∧
    (ff_columns X).*1 = Sample.features ∧
    Forall2 (λ feature col,
               col.1 = feature ∧
               column_of Sample.nan_repr Sample.students Sample.encoders feature col.2)
            Sample.features (ff_columns X) ∧
    (∀ column, column ∉ Sample.features → column ∉ (ff_columns X).*1) ∧
    (∀ i row, to_rows X !! i = Some row →
       length row = length Sample.features ∧
       ∀ j feature, Sample.features !! j = Some feature →
                    columns Sample.students !! feature = None →
                    row !! j = Some (VInt 0)) ∧
    (well_formed Sample.students → length (to_rows X) = nrows Sample.students).
Proof.
  apply (preprocess_data_expected_features Sample.nan_repr Sample.handler
           Sample.students Sample.encoders Sample.features).
  - reflexivity.
  - reflexivity.
Defined.

Lemma encoder_loop_known_or_first_example :
  (∃ processed_df,
     for_each (encode_step Sample.nan_repr) Sample.students (map_to_list Sample.encoders)
     = inr processed_df ∧
     ∀ column encoder cells,
       Sample.encoders !! column = Some encoder →
       columns Sample.students !! column = Some cells →
       ∃ codes, columns processed_df !! column = Some codes ∧
                encoded_with Sample.nan_repr encoder cells codes) ∧
  (∃ X,
     preprocess_data Sample.nan_repr Sample.handler Sample.students = inr X ∧
     CheckModels.preprocess Sample.nan_repr Sample.encoders Sample.features Sample.students
     = inr X ∧
     ∀ j feature encoder cells,
       Sample.features !! j = Some feature →
       Sample.encoders !! feature = Some encoder →
       columns Sample.students !! feature = Some cells →
       ∃ codes, ff_columns X !! j = Some (feature, codes) ∧
                encoded_with Sample.nan_repr encoder cells codes).
Proof.
  apply (encoder_loop_known_or_first Sample.nan_repr Sample.handler Sample.students
           Sample.encoders Sample.features).
  - reflexivity.
  - reflexivity.
  - exact example_encoders_nonempty.
Defined.

Example encode_column_example_value :
  encode_column Sample.nan_repr Sample.sex_encoder [VStr "F"; VStr "X"; VStr "M"]
  = inr [VInt 0; VInt 0; VInt 1].
Proof. vm_compute. reflexivity. Qed.

Lemma confidence_is_max_probability_example :
  (∀ (p : Z) (c : float),
     predict_single Sample.nan_repr Sample.handler Sample.students = inr (p, c) →
     ∃ row ps, to_rows Sample.students_X !! 0 = Some row ∧
               predict_proba1 Sample.clf row = inr ps ∧ max_probability c ps) ∧
  (∀ preds confs,
     predict_batch Sample.nan_repr Sample.handler Sample.students = inr (preds, confs) →
     Forall2 (λ row c, ∃ ps, predict_proba1 Sample.clf row = inr ps ∧
                             max_probability c ps)
             (to_rows Sample.students_X) confs) ∧
  (Forall (λ row, is_ok (predict1 Sample.clf row) ∧
                  ∃ ps, predict_proba1 Sample.clf row = inr ps ∧ ps ≠ [])
          (to_rows Sample.students_X) →
   to_rows Sample.students_X ≠ [] →
   is_ok (predict_batch Sample.nan_repr Sample.handler Sample.students) ∧
   is_ok (predict_single Sample.nan_repr Sample.handler Sample.students)) ∧
  (to_rows Sample.students_X = [] →
   predict_batch Sample.nan_repr Sample.handler Sample.students
   = inl (no_samples Sample.students_X) ∧
   predict_single Sample.nan_repr Sample.handler Sample.students
   = inl (no_samples Sample.students_X)).
Proof.
  apply (confidence_is_max_probability Sample.nan_repr Sample.handler Sample.clf
           Sample.students Sample.students_X).
  - reflexivity.
  - vm_compute. reflexivity.
Defined.

Lemma predict_batch_is_rowwise_predict_single_example :
  predict_batch Sample.nan_repr Sample.handler Sample.students
  = inr ([0; 1]%Z, [0.72; 0.72]%float) ∧
  (nrows Sample.students ≠ 0 →
   ∀ preds confs,
     predict_batch Sample.nan_repr Sample.handler Sample.students = inr (preds, confs) ↔
     length preds = nrows Sample.students ∧ length confs = nrows Sample.students ∧
     ∀ i, i < nrows Sample.students →
       ∃ p c, preds !! i = Some p ∧ confs !! i = Some c ∧
              predict_single Sample.nan_repr Sample.handler (iloc i Sample.students)
              = inr (p, c)) ∧
  (nrows Sample.students = 0 →
   ∃ X, preprocess_data Sample.nan_repr Sample.handler Sample.students = inr X ∧
        predict_batch Sample.nan_repr Sample.handler Sample.students
        = inl (no_samples X)).
Proof.
  split; [vm_compute; reflexivity|].
  apply (predict_batch_is_rowwise_predict_single Sample.nan_repr Sample.handler
           Sample.clf Sample.encoders Sample.features Sample.students).
  - reflexivity.
  - reflexivity.
  - reflexivity.
  - exact example_students_well_formed.
  - exact example_clf_no_nan.
Defined.

Lemma risk_tiers_partition_example :
  let df := [ {| student := ∅; Predicted_Performance := 0; Confidence := 0.72 |};
              {| student := ∅; Predicted_Performance := 0; Confidence := 0.55 |};
              {| student := ∅; Predicted_Performance := 1; Confidence := 0.55 |} ] in
  (∀ r, r ∈ df → Predicted_Performance r = 0%Z →
        (r ∈ high_risk df ∧ (r ∉ medium_risk df)) ∨
        ((r ∉ high_risk df) ∧ r ∈ medium_risk df)) ∧
  (∀ r, ¬ (r ∈ high_risk df ∧ r ∈ medium_risk df)) ∧
  length (high_risk df) + length (medium_risk df)
    = length (List.filter (λ r, (Predicted_Performance r =? 0)%Z) df) ∧
  (∀ r r', Confidence r = Confidence r' → is_low_confidence r = is_low_confidence r') ∧
  (∀ r, ¬ (r ∈ high_risk df ∧ r ∈ low_confidence df)) ∧
  (∃ r, is_low_confidence r = true ∧ is_medium_risk r = true) ∧
  (∃ r, is_low_confidence r = true ∧ is_medium_risk r = false ∧ is_high_risk r = false).
Proof.
  intros df. apply (risk_tiers_partition df).
  repeat constructor.
Defined.

Lemma classifier_error_propagates_example :
  (predict Sample.clf Sample.missing_second_X = inl (ValueError "Input X contains NaN.") →
     predict_batch Sample.nan_repr Sample.no_encoders Sample.missing_second
     = inl (ValueError "Input X contains NaN.") ∧
     predict_single Sample.nan_repr Sample.no_encoders Sample.missing_second
     = inl (ValueError "Input X contains NaN.") ∧
     (to_rows Sample.missing_second_X ≠ [] →
      ∃ i row,
        to_rows Sample.missing_second_X !! i = Some row ∧
        predict1 Sample.clf row = inl (ValueError "Input X contains NaN.") ∧
        ∀ j row', j < i → to_rows Sample.missing_second_X !! j = Some row' →
                  is_ok (predict1 Sample.clf row')) ∧
     (to_rows Sample.missing_second_X = [] →
      ValueError "Input X contains NaN." = no_samples Sample.missing_second_X)) ∧
  (is_ok (predict Sample.clf Sample.missing_second_X) →
   predict_proba Sample.clf Sample.missing_second_X
   = inl (ValueError "Input X contains NaN.") →
   predict_batch Sample.nan_repr Sample.no_encoders Sample.missing_second
   = inl (ValueError "Input X contains NaN.")) ∧
  (∀ preds confs,
     predict_batch Sample.nan_repr Sample.no_encoders Sample.missing_second
     = inr (preds, confs) →
     length preds = length (to_rows Sample.missing_second_X) ∧
     length confs = length (to_rows Sample.missing_second_X) ∧
     Forall2 (λ row p, predict1 Sample.clf row = inr p)
             (to_rows Sample.missing_second_X) preds).
Proof.
  apply (classifier_error_propagates Sample.nan_repr Sample.no_encoders Sample.clf
           Sample.missing_second Sample.missing_second_X
           (ValueError "Input X contains NaN.")).
  - reflexivity.
  - vm_compute. reflexivity.
Defined.

(** ** Further properties of the pipeline *)

Section PipelineProperties.

Variable float_repr : float → string.

Implicit Types (self : WebModelHandler) (clf : Classifier) (df : DataFrame)
  (X : FeatureFrame) (encoders : gmap string LabelEncoder) (features : list string)
  (encoder : LabelEncoder).

Lemma index_of_lookup (y : string) (classes : list string) (i : nat) :
  index_of y classes = Some i → classes !! i = Some y.
Proof.
  revert i. induction classes as [|c classes IH]; intros i; simpl; [done|].
  case_bool_decide as Hy.
  - intros [= <-]. by subst.
  - destruct (index_of y classes) as [j|]; [|done]. intros [= <-]. by apply IH.
Qed.

Lemma encode_cell_decode encoder (v code : value) :
  encode_cell float_repr encoder v = inr code →
  ∃ i category,
    code = VInt (Z.of_nat i) ∧ classes_ encoder !! i = Some category ∧
    (astype_str float_repr v ∈ classes_ encoder → category = astype_str float_repr v) ∧
    (astype_str float_repr v ∉ classes_ encoder → i = 0).
Proof.
  unfold encode_cell. intros (y & Hy & Hcode)%bind_inr.
  unfold transform1 in Hcode. destruct (index_of y (classes_ encoder)) as [i|] eqn:Hi;
    [|done]. injection Hcode as <-. exists i, y.
  split_and!; [done | by apply index_of_lookup | |].
  - intros Hin. rewrite (known_or_first_known _ _ Hin) in Hy. congruence.
  - intros Hnot. destruct (classes_ encoder) as [|c0 rest] eqn:Hc.
    + by destruct (known_or_first_empty encoder (astype_str float_repr v) Hc) as [msg Hmsg];
        rewrite Hmsg in Hy.
    + assert (known_or_first encoder (astype_str float_repr v) = inr c0) as Hy'.
      { apply (known_or_first_unknown _ _ c0 rest); [done | by rewrite Hc]. }
      assert (y = c0) as -> by congruence.
      simpl in Hi. rewrite bool_decide_eq_true_2 in Hi by done. congruence.
Qed.

(** Every code of an encoded column is a position in the vocabulary:
    reading [classes_] at the code gives back the category of the cell
    when the encoder knows it, and the code is 0 when it does not. *)
Theorem encode_column_codes_decode encoder (cells codes : list value) :
  encode_column float_repr encoder cells = inr codes →
  Forall2 (λ v code,
             ∃ i category,
               code = VInt (Z.of_nat i) ∧ i < length (classes_ encoder) ∧
               classes_ encoder !! i = Some category ∧
               (astype_str float_repr v ∈ classes_ encoder →
                  category = astype_str float_repr v) ∧
               (astype_str float_repr v ∉ classes_ encoder → i = 0))
          cells codes.
Proof.
  intros Hcodes%encode_column_inr. eapply Forall2_impl; [done|].
  intros v code (i & category & -> & Hcat & Hknown & Hunknown)%encode_cell_decode.
  exists i, category. split_and!; try done. by eapply lookup_lt_Some.
Qed.

Lemma Forall2_functional {A B : Type} (P Q : A → B → Prop) (l : list A) (k1 k2 : list B) :
  Forall2 P l k1 → Forall2 Q l k2 →
  (∀ x y1 y2, x ∈ l → P x y1 → Q x y2 → y1 = y2) →
  k1 = k2.
Proof.
  intros H1. revert k2. induction H1 as [|x y1 l k1 Hy1 _ IH]; intros k2 H2 Hfun.
  - by inversion H2.
  - inversion H2 as [|? y2 ? k2' Hy2 Hk2']; subst. f_equal.
    + apply (Hfun x); [by left | done | done].
    + apply IH; [done|]. intros x' z1 z2 Hx'. apply Hfun. by right.
Qed.

(** With usable encoders, the frame preprocessing returns depends on the
    input only through its row count and its expected-feature columns:
    whatever else the input carries changes nothing. *)
Theorem preprocess_data_ignores_other_columns self df1 df2 encoders features :
  label_encoders self = Some encoders → feature_names self = Some features →
  (∀ column encoder, encoders !! column = Some encoder → classes_ encoder ≠ []) →
  nrows df1 = nrows df2 →
  (∀ feature, feature ∈ features → columns df1 !! feature = columns df2 !! feature) →
  preprocess_data float_repr self df1 = preprocess_data float_repr self df2.
Proof.
  intros He Hf Hne Hn Hcols.
  destruct (preprocess_data_total float_repr self df1 encoders features He Hf Hne) as [X1 HX1].
  destruct (preprocess_data_total float_repr self df2 encoders features He Hf Hne) as [X2 HX2].
  rewrite HX1, HX2. f_equal.
  destruct (preprocess_data_columns _ _ _ _ _ _ He Hf HX1) as [Hn1 Hc1].
  destruct (preprocess_data_columns _ _ _ _ _ _ He Hf HX2) as [Hn2 Hc2].
  destruct X1 as [n1 cols1], X2 as [n2 cols2]. simpl in *. f_equal; [congruence|].
  eapply Forall2_functional; [exact Hc1 | exact Hc2 |].
  intros feature [name1 out1] [name2 out2] Hin [Hname1 Hout1] [Hname2 Hout2].
  simpl in *. subst name1 name2. f_equal.
  unfold column_of in *. rewrite <- (Hcols feature Hin), <- Hn in Hout2.
  destruct (columns df1 !! feature) as [cells|]; [|congruence].
  destruct (encoders !! feature); congruence.
Qed.

Lemma encode_column_empty_vocabulary encoder (cells : list value) :
  classes_ encoder = [] → cells ≠ [] →
  encode_column float_repr encoder cells
  = inl (IndexError "index 0 is out of bounds for axis 0 with size 0").
Proof.
  intros Hc Hcells. destruct cells as [|v cells]; [done|].
  unfold encode_column. rewrite fmap_cons, mapM_cons.
  assert (known_or_first encoder (astype_str float_repr v)
          = inl (IndexError "index 0 is out of bounds for axis 0 with size 0")) as ->;
    [|done].
  unfold known_or_first. rewrite Hc.
  by rewrite bool_decide_eq_false_2 by apply not_elem_of_nil.
Qed.

(** One encoder without vocabulary breaks every prediction on a frame that
    holds its column with at least one row, even when the column is no
    expected feature: [classes_[0]] raises [IndexError]. *)
Theorem empty_vocabulary_raises self df encoders features (column : string)
    encoder (cells : list value) :
  label_encoders self = Some encoders → feature_names self = Some features →
  encoders !! column = Some encoder → classes_ encoder = [] →
  columns df !! column = Some cells → cells ≠ [] →
  preprocess_data float_repr self df
  = inl (IndexError "index 0 is out of bounds for axis 0 with size 0") ∧
  predict_single float_repr self df
  = inl (IndexError "index 0 is out of bounds for axis 0 with size 0") ∧
  predict_batch float_repr self df
  = inl (IndexError "index 0 is out of bounds for axis 0 with size 0").
Proof.
  intros He Hf Henc Hc Hcol Hcells.
  assert (preprocess_data float_repr self df
          = inl (IndexError "index 0 is out of bounds for axis 0 with size 0")) as Hpre.
  { rewrite (preprocess_data_loaded _ _ _ _ _ He Hf).
    rewrite <- (encoder_loop_any_order float_repr df encoders
                  ((column, encoder) :: map_to_list (delete column encoders)))
      by by apply map_to_list_delete.
    rewrite for_each_cons.
    assert (encode_step float_repr df (column, encoder)
            = inl (IndexError "index 0 is out of bounds for axis 0 with size 0")) as ->;
      [|done].
    unfold encode_step. rewrite Hcol.
    by rewrite (encode_column_empty_vocabulary encoder cells Hc Hcells). }
  split_and!; [done | |].
  - unfold predict_single. by rewrite Hpre.
  - unfold predict_batch. by rewrite Hpre.
Qed.

Lemma frame_of_record_well_formed (student_data : gmap string value) :
  well_formed (frame_of_record student_data).
Proof.
  intros column cells. unfold frame_of_record. simpl. rewrite lookup_fmap.
  by destruct (student_data !! column); intros [= <-].
Qed.

(** The feature vector of one student. *)
Lemma preprocess_record self (student_data : gmap string value) encoders features X :
  label_encoders self = Some encoders → feature_names self = Some features →
  preprocess_data float_repr self (frame_of_record student_data) = inr X →
  ∃ row, to_rows X = [row] ∧
         Forall2 (feature_slot float_repr student_data encoders) features row.
Proof.
  intros He Hf HX.
  pose proof (frame_of_record_well_formed student_data) as Hwf.
  destruct (preprocess_data_shape _ _ _ _ _ _ He Hf HX) as (Hn & _ & Hcols & _ & _ & Hlen).
  specialize (Hlen Hwf). simpl in Hlen.
  destruct (to_rows X) as [|row [|row' rows]] eqn:Hrows; try done.
  exists row. split; [done|].
  assert (to_rows X !! 0 = Some row) as Hrow by by rewrite Hrows.
  apply to_rows_lookup in Hrow. clear Hrows Hlen.
  apply Forall2_same_length_lookup_2.
  { rewrite <- (Forall2_length _ _ _ Hrow). by eapply Forall2_length. }
  intros j feature v Hj Hv.
  destruct (Forall2_lookup_l _ _ _ _ _ Hcols Hj) as ([name out] & Hcol & _ & Hout).
  destruct (Forall2_lookup_l _ _ _ _ _ Hrow Hcol) as (v' & Hv' & Hcell).
  assert (v' = v) as -> by congruence. simpl in Hout, Hcell.
  unfold column_of in Hout. unfold feature_slot.
  unfold frame_of_record in Hout. simpl in Hout. rewrite lookup_fmap in Hout.
  destruct (student_data !! feature) as [x|]; simpl in Hout.
  - destruct (encoders !! feature) as [encoder|].
    + apply encode_column_inr in Hout. inversion Hout as [|? code ? ? Hcode Hnil]; subst.
      inversion Hnil; subst. simpl in Hcell. by injection Hcell as <-.
    + subst out. simpl in Hcell. by injection Hcell as <-.
  - subst out. simpl in Hcell. by injection Hcell as <-.
Qed.

(** Single prediction of one student is the classifier applied to the
    student's feature vector: one slot per expected feature, in order,
    holding zero for a missing attribute, the code for an encoded one and
    the attribute itself otherwise; the confidence is the maximum of the
    probabilities of that vector. *)
Theorem predict_single_record self clf (student_data : gmap string value)
    encoders features (p : Z) (c : float) :
  model self = Some clf →
  label_encoders self = Some encoders → feature_names self = Some features →
  (∀ column encoder, encoders !! column = Some encoder → classes_ encoder ≠ []) →
  predict_single float_repr self (frame_of_record student_data) = inr (p, c) ↔
  ∃ row ps,
    Forall2 (feature_slot float_repr student_data encoders) features row ∧
    predict1 clf row = inr p ∧ predict_proba1 clf row = inr ps ∧ py_max ps = inr c.
Proof.
  intros Hclf He Hf Hne.
  destruct (preprocess_data_total float_repr self (frame_of_record student_data)
              encoders features He Hf Hne) as [X HX].
  destruct (preprocess_record _ _ _ _ _ He Hf HX) as (row & Hrows & Hslots).
  rewrite predict_single_inr. split.
  - intros (X' & clf' & preds & probas & ps & HX' & Hclf' & Hpreds & Hp & Hprobas & Hps & Hc).
    assert (X' = X) as -> by congruence. assert (clf' = clf) as -> by congruence.
    apply predict_inr in Hpreds as [_ Hpreds].
    apply predict_proba_inr in Hprobas as [_ Hprobas].
    rewrite Hrows in Hpreds, Hprobas.
    apply mapM_inr in Hpreds. apply mapM_inr in Hprobas.
    inversion Hpreds as [|? p' ? ? Hp' Hnil]; subst. inversion Hnil; subst.
    inversion Hprobas as [|? ps' ? ? Hps' Hnil']; subst. inversion Hnil'; subst.
    simpl in Hp, Hps. injection Hp as ->. injection Hps as ->.
    by exists row, ps.
  - intros (row' & ps & Hslots' & Hp & Hps & Hc).
    assert (row' = row) as ->.
    { eapply Forall2_functional; [exact Hslots' | exact Hslots |].
      intros feature v1 v2 _. unfold feature_slot.
      destruct (student_data !! feature); [|congruence].
      destruct (encoders !! feature); congruence. }
    exists X, clf, [p], [ps], ps. rewrite predict_inr, predict_proba_inr, Hrows.
    split_and!; try done; by apply mapM_singleton.
Qed.

End PipelineProperties.

Lemma encode_column_codes_decode_example :
  Forall2 (λ v code,
             ∃ i category,
               code = VInt (Z.of_nat i) ∧ i < length (classes_ Sample.sex_encoder) ∧
               classes_ Sample.sex_encoder !! i = Some category ∧
               (astype_str Sample.nan_repr v ∈ classes_ Sample.sex_encoder →
                  category = astype_str Sample.nan_repr v) ∧
               (astype_str Sample.nan_repr v ∉ classes_ Sample.sex_encoder → i = 0))
          [VStr "F"; VStr "X"; VStr "M"] [VInt 0; VInt 0; VInt 1].
Proof.
  apply (encode_column_codes_decode Sample.nan_repr Sample.sex_encoder).
  reflexivity.
Defined.

Lemma preprocess_data_ignores_other_columns_example :
  preprocess_data Sample.nan_repr Sample.handler Sample.students
  = preprocess_data Sample.nan_repr Sample.handler Demo.students_no_note.
Proof.
  apply (preprocess_data_ignores_other_columns Sample.nan_repr Sample.handler
           Sample.students Demo.students_no_note Sample.encoders Sample.features).
  - reflexivity.
  - reflexivity.
  - exact example_encoders_nonempty.
  - reflexivity.
  - apply Forall_forall. repeat constructor.
Defined.

Lemma empty_vocabulary_raises_example :
  preprocess_data Sample.nan_repr Demo.unfitted Sample.students
  = inl (IndexError "index 0 is out of bounds for axis 0 with size 0") ∧
  predict_single Sample.nan_repr Demo.unfitted Sample.students
  = inl (IndexError "index 0 is out of bounds for axis 0 with size 0") ∧
  predict_batch Sample.nan_repr Demo.unfitted Sample.students
  = inl (IndexError "index 0 is out of bounds for axis 0 with size 0").
Proof.
  apply (empty_vocabulary_raises Sample.nan_repr Demo.unfitted Sample.students
           Demo.unfitted_encoders Sample.features "sex" {| classes_ := [] |}
           [VStr "F"; VStr "X"]).
  - reflexivity.
  - reflexivity.
  - reflexivity.
  - reflexivity.
  - reflexivity.
  - discriminate.
Defined.

Lemma predict_single_record_example :
  predict_single Sample.nan_repr Sample.handler (frame_of_record Demo.record)
  = inr (0%Z, 0.72%float) ↔
  ∃ row ps,
    Forall2 (feature_slot Sample.nan_repr Demo.record Sample.encoders)
            Sample.features row ∧
    predict1 Sample.clf row = inr 0%Z ∧ predict_proba1 Sample.clf row = inr ps ∧
    py_max ps = inr 0.72%float.
Proof.
  apply (predict_single_record Sample.nan_repr Sample.handler Sample.clf Demo.record
           Sample.encoders Sample.features).
  - reflexivity.
  - reflexivity.
  - reflexivity.
  - exact example_encoders_nonempty.
Defined.

(** ** Loading the artifacts *)

Section Loading.

Variable float_repr : float → string.

Implicit Types (models : ModelsDirectory) (df : DataFrame).

(** [load_models] returns [True] exactly when the three files hold their
    artifacts, and the handler then holds the three of them; in every
    case the artifacts are set in order: the encoders only with the
    model, the feature names only with the encoders, and the feature
    names only on success. *)
Theorem load_models_sets_a_prefix models :
  ((load_models models blank_handler).2 = true ↔
   ∃ m encoders features,
     model_file models = Stored m ∧ encoders_file models = Stored encoders ∧
     features_file models = Stored features ∧
     new_handler models
     = {| model := Some m; label_encoders := Some encoders;
          feature_names := Some features |}) ∧
  (is_Some (label_encoders (new_handler models)) → is_Some (model (new_handler models))) ∧
  (is_Some (feature_names (new_handler models)) →
     is_Some (label_encoders (new_handler models)) ∧
     (load_models models blank_handler).2 = true).
Proof.
  unfold new_handler, blank_handler, load_models.
  destruct (model_file models) as [| |m], (encoders_file models) as [| |e],
           (features_file models) as [| |f]; simpl;
    (split; [split; [first [discriminate | intros _; by eexists _, _, _]
                    | by intros (? & ? & ? & ? & ? & ? & ?)]
            | split; [first [by intros [? ?] | by eexists]
                     | first [by intros [? ?] | intros _; split; [by eexists | done]]]]).
Qed.

(** A partial load passes the guard of [main]: when the model file loads
    but the encoders or the feature names do not, the pages are shown and
    every prediction raises; without the encoders the exception is the
    [AttributeError] of [None.items()]. *)
Theorem partial_load_passes_guard models (m : Classifier) :
  model_file models = Stored m →
  joblib_load (encoders_file models) = None ∨ joblib_load (features_file models) = None →
  (load_models models blank_handler).2 = false ∧
  models_found (new_handler models) = true ∧
  (∀ df, ¬ is_ok (predict_single float_repr (new_handler models) df) ∧
         ¬ is_ok (predict_batch float_repr (new_handler models) df)) ∧
  (joblib_load (encoders_file models) = None →
   ∀ df, predict_batch float_repr (new_handler models) df
         = inl (AttributeError "'NoneType' object has no attribute 'items'")).
Proof.
  intros Hm Hpart. unfold new_handler, blank_handler, load_models. rewrite Hm. simpl.
  destruct (joblib_load (encoders_file models)) as [e|] eqn:He.
  - destruct Hpart as [?|Hf]; [done|]. rewrite Hf. simpl.
    split_and!; [done | done | | done].
    intros df.
    assert (∃ err, preprocess_data float_repr
                     {| model := Some m; label_encoders := Some e; feature_names := None |} df
                   = inl err) as [err Herr].
    { unfold preprocess_data. simpl.
      destruct (for_each _ _ _) as [err|processed_df]; by eexists. }
    split; intros [r Hr].
    + unfold predict_single in Hr. by rewrite Herr in Hr.
    + unfold predict_batch in Hr. by rewrite Herr in Hr.
  - simpl. split_and!; [done | done | | done].
    intros df. split; by intros [r Hr].
Qed.

(** The test prediction of the check script is the handler's
    [predict_single] on the sample student. *)
Lemma test_prediction_predict_single (m : Classifier)
    (encoders : gmap string LabelEncoder) (features : list string) :
  CheckScript.test_prediction float_repr m encoders features
  = predict_single float_repr
      {| model := Some m; label_encoders := Some encoders;
         feature_names := Some features |} CheckScript.df.
Proof.
  unfold CheckScript.test_prediction, predict_single.
  rewrite (check_models_preprocess_agrees float_repr
             {| model := Some m; label_encoders := Some encoders;
                feature_names := Some features |} encoders features) by done.
  by destruct (preprocess_data _ _ _).
Qed.

(** The check script passes exactly when the web handler loads the three
    artifacts and predicts the sample student without an exception. *)
Theorem check_models_iff_handler_predicts models :
  CheckScript.check_models float_repr models = true ↔
  (load_models models blank_handler).2 = true ∧
  is_ok (predict_single float_repr (new_handler models) CheckScript.df).
Proof.
  unfold CheckScript.check_models, new_handler, blank_handler, load_models.
  destruct (model_file models) as [| |m], (encoders_file models) as [| |e],
           (features_file models) as [| |f]; simpl;
    try (split; [discriminate | by intros [? ?]]).
  rewrite test_prediction_predict_single.
  destruct (predict_single _ _ _) as [err|r].
  - split; [discriminate | by intros [_ [? ?]]].
  - split; [intros _; split; [done | by eexists] | done].
Qed.

End Loading.

Lemma partial_load_passes_guard_example :
  (load_models Demo.no_encoders_file blank_handler).2 = false ∧
  models_found (new_handler Demo.no_encoders_file) = true ∧
  (∀ df, ¬ is_ok (predict_single Sample.nan_repr (new_handler Demo.no_encoders_file) df) ∧
         ¬ is_ok (predict_batch Sample.nan_repr (new_handler Demo.no_encoders_file) df)) ∧
  (joblib_load (encoders_file Demo.no_encoders_file) = None →
   ∀ df, predict_batch Sample.nan_repr (new_handler Demo.no_encoders_file) df
         = inl (AttributeError "'NoneType' object has no attribute 'items'")).
Proof.
  apply (partial_load_passes_guard Sample.nan_repr Demo.no_encoders_file Sample.clf).
  - reflexivity.
  - left. reflexivity.
Defined.

(** ** The prediction form *)

Section PredictionForm.

Import PredictionWindow.

Variable py_int : string → option Z.

Implicit Types (form_data : list (string * string)) (field text : string).

Lemma get_form_data_snoc form_data field text :
  get_form_data py_int (form_data ++ [(field, text)])
  = <[field := form_value py_int field text]> (get_form_data py_int form_data).
Proof. unfold get_form_data. by rewrite foldl_app. Qed.

Lemma get_form_data_lookup form_data field text :
  NoDup form_data.*1 → (field, text) ∈ form_data →
  get_form_data py_int form_data !! field = Some (form_value py_int field text).
Proof.
  induction form_data as [|[field' text'] form_data IH] using rev_ind.
  { by intros _ ?%elem_of_nil. }
  rewrite fmap_app, get_form_data_snoc. simpl.
  intros [Hnodup [Hfresh _]]%NoDup_app [Hin|Hin%list_elem_of_singleton]%elem_of_app.
  - rewrite lookup_insert_ne; [by apply IH|].
    intros <-. apply (Hfresh field'); [|by left].
    apply list_elem_of_fmap. by exists (field', text).
  - injection Hin as -> ->. by rewrite lookup_insert_eq.
Qed.

(** Whatever the widgets hold, a numeric field of the form data is an
    integer. *)
Lemma get_form_data_numeric form_data field (v : value) :
  field ∈ numeric_fields → get_form_data py_int form_data !! field = Some v →
  ∃ n, v = VInt n.
Proof.
  intros Hnum.
  induction form_data as [|[field' text'] form_data IH] using rev_ind; [done|].
  rewrite get_form_data_snoc.
  destruct (decide (field' = field)) as [->|Hne].
  - rewrite lookup_insert_eq. intros [= <-]. unfold form_value.
    rewrite (bool_decide_eq_true_2 _ Hnum).
    destruct (bool_decide (text' = "")); [by eexists|].
    destruct (py_int text'); by eexists.
  - by rewrite lookup_insert_ne.
Qed.

Lemma missing_fields_filter (data : gmap string value) (fields acc : list string) :
  foldl (λ missing field,
           append_if (negb (truthy (dict_get data field (VStr "")))) missing field)
        acc fields
  = acc ++ List.filter (λ field, negb (truthy (dict_get data field (VStr "")))) fields.
Proof.
  revert acc. induction fields as [|field fields IH]; intros acc; simpl.
  - by rewrite app_nil_r.
  - rewrite IH. unfold append_if.
    destruct (negb (truthy (dict_get data field (VStr "")))); [|done].
    by rewrite <- app_assoc.
Qed.

Lemma elem_of_missing_fields form_data (data : gmap string value) field :
  field ∈ missing_fields form_data data ↔
  field ∈ form_data.*1 ∧ truthy (dict_get data field (VStr "")) = false.
Proof.
  unfold missing_fields. rewrite missing_fields_filter. simpl.
  rewrite list_elem_of_In, filter_In, <- list_elem_of_In, negb_true_iff. done.
Qed.

(** The truth value of a converted widget text. *)
Lemma truthy_form_value field text :
  truthy (form_value py_int field text) = false ↔
  if bool_decide (field ∈ numeric_fields)
  then text = "" ∨ py_int text = None ∨ py_int text = Some 0%Z
  else text = "".
Proof.
  unfold form_value. destruct (bool_decide (field ∈ numeric_fields)).
  - destruct (bool_decide (text = "")) eqn:Ht.
    { apply bool_decide_eq_true in Ht. simpl. intuition. }
    apply bool_decide_eq_false in Ht.
    destruct (py_int text) as [n|]; simpl.
    + rewrite negb_false_iff, Z.eqb_eq. split; [intros ->; auto|].
      intros [?|[?|[= ?]]]; congruence.
    + intuition.
  - simpl. by rewrite negb_false_iff, bool_decide_eq_true.
Qed.

(** [validate_form] reports a field as missing exactly when its widget is
    empty or, for a numeric field, when its text is no integer or is the
    integer zero. *)
Theorem validate_form_missing_iff form_data field :
  NoDup form_data.*1 →
  field ∈ missing_fields form_data (get_form_data py_int form_data) ↔
  ∃ text, (field, text) ∈ form_data ∧
    if bool_decide (field ∈ numeric_fields)
    then text = "" ∨ py_int text = None ∨ py_int text = Some 0%Z
    else text = "".
Proof.
  intros Hnodup. rewrite elem_of_missing_fields, list_elem_of_fmap. split.
  - intros [[[field' text] [-> Hin]] Hfalse]. simpl in *. exists text. split; [done|].
    unfold dict_get in Hfalse.
    rewrite (get_form_data_lookup _ _ _ Hnodup Hin) in Hfalse. simpl in Hfalse.
    by apply truthy_form_value.
  - intros (text & Hin & Htext). split; [by exists (field, text)|].
    unfold dict_get. rewrite (get_form_data_lookup _ _ _ Hnodup Hin). simpl.
    by apply truthy_form_value.
Qed.

Lemma validate_form_true form_data (data : gmap string value) :
  validate_form form_data data = true ↔
  ∀ field, field ∈ form_data.*1 → truthy (dict_get data field (VStr "")) = true.
Proof.
  unfold validate_form. split.
  - intros Hvalid field Hin.
    destruct (truthy (dict_get data field (VStr ""))) eqn:Htruthy; [done|].
    assert (field ∈ missing_fields form_data data) as Hmissing
      by by apply elem_of_missing_fields.
    destruct (missing_fields form_data data); [by apply elem_of_nil in Hmissing | done].
  - intros Hall. destruct (missing_fields form_data data) as [|field missing] eqn:Hm; [done|].
    assert (field ∈ missing_fields form_data data) as [Hin Hfalse]%elem_of_missing_fields
      by (rewrite Hm; left).
    rewrite (Hall field Hin) in Hfalse. discriminate.
Qed.

(** The results window is reached exactly when no widget is empty, every
    numeric field reads a non-zero integer, and the handler's
    [predict_single] succeeds on the one-row frame of the form data. *)
Theorem predict_performance_results (predict_single : DataFrame → result (Z * float))
    form_data (p : Z) (c : float) (data : gmap string value) :
  NoDup form_data.*1 →
  predict_performance py_int predict_single form_data = PredictionResults p c data ↔
  data = get_form_data py_int form_data ∧
  (∀ field text, (field, text) ∈ form_data →
     text ≠ "" ∧ (field ∈ numeric_fields → ∃ n, py_int text = Some n ∧ n ≠ 0%Z)) ∧
  predict_single (frame_of_record data) = inr (p, c).
Proof.
  intros Hnodup. unfold predict_performance.
  assert (validate_form form_data (get_form_data py_int form_data) = true ↔
          ∀ field text, (field, text) ∈ form_data →
            text ≠ "" ∧ (field ∈ numeric_fields → ∃ n, py_int text = Some n ∧ n ≠ 0%Z))
    as Hvalid.
  { rewrite validate_form_true. split.
    - intros Hall field text Hin.
      assert (truthy (form_value py_int field text) = true) as Htruthy.
      { specialize (Hall field). unfold dict_get in Hall.
        rewrite (get_form_data_lookup _ _ _ Hnodup Hin) in Hall. apply Hall.
        apply list_elem_of_fmap. by exists (field, text). }
      apply not_false_iff_true in Htruthy. rewrite truthy_form_value in Htruthy.
      destruct (bool_decide (field ∈ numeric_fields)) eqn:Hnum.
      + split; [tauto|]. intros _.
        destruct (py_int text) as [n|]; [|tauto].
        exists n. split; [done|]. intros ->. tauto.
      + split; [done|]. intros Hin'. by apply bool_decide_eq_false in Hnum.
    - intros Hall field [[field' text] [-> Hin]]%list_elem_of_fmap. simpl.
      unfold dict_get. rewrite (get_form_data_lookup _ _ _ Hnodup Hin). simpl.
      apply not_false_iff_true. rewrite truthy_form_value.
      destruct (Hall _ _ Hin) as [Htext Hnum].
      destruct (bool_decide (field' ∈ numeric_fields)) eqn:Hdec; [|done].
      apply bool_decide_eq_true in Hdec. destruct (Hnum Hdec) as (n & Hn & Hn0).
      intros [?|[?|?]]; congruence. }
  destruct (validate_form form_data (get_form_data py_int form_data)) eqn:Hv; simpl.
  - destruct (predict_single (frame_of_record (get_form_data py_int form_data)))
      as [e|[p' c']] eqn:Hpred.
    + split; [done|]. intros (-> & _ & Hp). congruence.
    + split.
      * intros [= -> -> <-]. split_and!; [done | by apply Hvalid | done].
      * intros (-> & _ & Hp). congruence.
  - split; [done|]. intros (_ & Hall & _). apply Hvalid in Hall. discriminate.
Qed.

(** The form data never makes recommendation generation raise: the
    attributes it compares with numbers were converted to integers. *)
Theorem form_recommendations_never_raise form_data (prediction : Z) :
  Desktop.get_recommendations prediction (get_form_data py_int form_data)
  = inr (RuleTable.recommend prediction (get_form_data py_int form_data)).
Proof.
  apply get_recommendations_table. intros _.
  unfold RuleTable.numeric_fields. apply forallb_forall. intros field Hin%list_elem_of_In.
  destruct (get_form_data py_int form_data !! field) as [v|] eqn:Hv; [|done].
  destruct (get_form_data_numeric form_data field v) as [n ->]; [|done|done].
  clear Hv. revert field Hin. apply Forall_forall. unfold numeric_fields. repeat constructor.
Qed.

Lemma cleared_form_value form_data field (v : value) :
  get_form_data py_int (clear_form form_data) !! field = Some v → truthy v = false.
Proof.
  unfold clear_form. revert v.
  induction form_data as [|[field' text'] form_data IH] using rev_ind; [done|].
  rewrite fmap_app. simpl. rewrite get_form_data_snoc.
  destruct (decide (field' = field)) as [->|Hneq].
  - rewrite lookup_insert_eq. intros v [= <-]. unfold form_value.
    by destruct (bool_decide (field ∈ numeric_fields)).
  - rewrite lookup_insert_ne by done. apply IH.
Qed.

(** After [clear_form] the button reports every field of the form as
    missing, in the order of the form, and no prediction is made. *)
Theorem cleared_form_misses_every_field
    (predict_single : DataFrame → result (Z * float)) form_data :
  form_data ≠ [] →
  predict_performance py_int predict_single (clear_form form_data)
  = ValidationError form_data.*1.
Proof.
  intros Hne.
  assert (missing_fields (clear_form form_data)
            (get_form_data py_int (clear_form form_data)) = form_data.*1) as Hmissing.
  { unfold missing_fields. rewrite missing_fields_filter. simpl.
    assert ((clear_form form_data).*1 = form_data.*1) as ->.
    { unfold clear_form. by rewrite <- list_fmap_compose. }
    induction (form_data.*1) as [|field fields IH]; [done|].
    simpl. rewrite IH.
    assert (truthy (dict_get (get_form_data py_int (clear_form form_data)) field (VStr ""))
            = false) as ->; [|done].
    unfold dict_get.
    destruct (get_form_data py_int (clear_form form_data) !! field) as [v|] eqn:Hv;
      [|done].
    simpl. by eapply cleared_form_value. }
  unfold predict_performance, validate_form. rewrite Hmissing.
  destruct form_data as [|widget form_data]; [done|]. reflexivity.
Qed.

(** The three readings of a predicted class agree on classes 0 and 1
    only: for any other class the text and the banner say that support is
    needed, the label column holds NaN, so the row is in neither filtered
    view, and the recommendations are those of a good performance. *)
Theorem other_class_is_read_three_ways (prediction : Z) (student_data : gmap string value) :
  prediction ≠ 0%Z → prediction ≠ 1%Z →
  prediction_text prediction = "Needs Support" ∧
  BatchAnalysis.performance_label (VInt prediction) = VFloat nan ∧
  eq_str (BatchAnalysis.performance_label (VInt prediction)) "Needs Support" = false ∧
  eq_str (BatchAnalysis.performance_label (VInt prediction)) "Good Performance" = false ∧
  Web.get_recommendations prediction student_data
  = Web.get_recommendations 1 student_data ∧
  Desktop.get_recommendations prediction student_data
  = Desktop.get_recommendations 1 student_data ∧
  ∃ recommendations,
    Web.get_recommendations prediction student_data = inr recommendations ∧
    "Continue current study habits and maintain good attendance" ∈ recommendations.
Proof.
  intros H0 H1. unfold prediction_text, BatchAnalysis.performance_label.
  apply Z.eqb_neq in H0, H1. rewrite H0, H1.
  unfold Web.get_recommendations, Desktop.get_recommendations. rewrite H0. simpl.
  split_and!; try reflexivity.
  destruct (eq_str (dict_get student_data "higher" (VStr "")) "yes");
    eexists; (split; [reflexivity | repeat constructor]).
Qed.

End PredictionForm.

Lemma sample_form_fields_distinct : NoDup Demo.sample_form.*1.
Proof. apply (bool_decide_unpack (NoDup Demo.sample_form.*1)). vm_compute. exact I. Defined.

(** The sample student has no past failure, so the form filled by
    [load_sample_data] does not pass validation. *)
Lemma sample_form_is_rejected (predict_single : DataFrame → result (Z * float)) :
  PredictionWindow.predict_performance Demo.py_int predict_single Demo.sample_form
  = PredictionWindow.ValidationError ["failures"].
Proof. vm_compute. reflexivity. Qed.

Lemma validate_form_missing_iff_example :
  "failures" ∈ PredictionWindow.missing_fields Demo.sample_form
                 (PredictionWindow.get_form_data Demo.py_int Demo.sample_form) ↔
  ∃ text, ("failures", text) ∈ Demo.sample_form ∧
    if bool_decide ("failures" ∈ PredictionWindow.numeric_fields)
    then text = "" ∨ Demo.py_int text = None ∨ Demo.py_int text = Some 0%Z
    else text = "".
Proof.
  apply (validate_form_missing_iff Demo.py_int Demo.sample_form "failures").
  exact sample_form_fields_distinct.
Defined.

Lemma cleared_form_misses_every_field_example :
  PredictionWindow.predict_performance Demo.py_int
    (predict_single Sample.nan_repr Sample.handler)
    (PredictionWindow.clear_form Demo.sample_form)
  = PredictionWindow.ValidationError Demo.sample_form.*1.
Proof.
  apply (cleared_form_misses_every_field Demo.py_int
           (predict_single Sample.nan_repr Sample.handler) Demo.sample_form).
  discriminate.
Defined.

Lemma other_class_is_read_three_ways_example :
  PredictionWindow.prediction_text 2 = "Needs Support" ∧
  BatchAnalysis.performance_label (VInt 2) = VFloat nan ∧
  eq_str (BatchAnalysis.performance_label (VInt 2)) "Needs Support" = false ∧
  eq_str (BatchAnalysis.performance_label (VInt 2)) "Good Performance" = false ∧
  Web.get_recommendations 2 example_student = Web.get_recommendations 1 example_student ∧
  Desktop.get_recommendations 2 example_student
  = Desktop.get_recommendations 1 example_student ∧
  ∃ recommendations,
    Web.get_recommendations 2 example_student = inr recommendations ∧
    "Continue current study habits and maintain good attendance" ∈ recommendations.
Proof.
  apply (other_class_is_read_three_ways 2 example_student); discriminate.
Defined.

Lemma valid_form_fields_distinct : NoDup Demo.valid_form.*1.
Proof. apply (bool_decide_unpack (NoDup Demo.valid_form.*1)). vm_compute. exact I. Defined.

(** With one past failure the sample form passes validation and reaches
    the results window. *)
Lemma valid_form_reaches_results :
  PredictionWindow.predict_performance Demo.py_int
    (predict_single Sample.nan_repr Sample.handler) Demo.valid_form
  = PredictionWindow.PredictionResults 0 0.72
      (PredictionWindow.get_form_data Demo.py_int Demo.valid_form).
Proof. vm_compute. reflexivity. Defined.

Lemma predict_performance_results_example :
  PredictionWindow.predict_performance Demo.py_int
    (predict_single Sample.nan_repr Sample.handler) Demo.valid_form
  = PredictionWindow.PredictionResults 0 0.72
      (PredictionWindow.get_form_data Demo.py_int Demo.valid_form) ∧
  PredictionWindow.get_form_data Demo.py_int Demo.valid_form
  = PredictionWindow.get_form_data Demo.py_int Demo.valid_form ∧
  (∀ field text, (field, text) ∈ Demo.valid_form →
     text ≠ "" ∧
     (field ∈ PredictionWindow.numeric_fields →
      ∃ n, Demo.py_int text = Some n ∧ n ≠ 0%Z)) ∧
  predict_single Sample.nan_repr Sample.handler
    (frame_of_record (PredictionWindow.get_form_data Demo.py_int Demo.valid_form))
  = inr (0%Z, 0.72%float).
Proof.
  split; [exact valid_form_reaches_results|].
  apply (predict_performance_results Demo.py_int
           (predict_single Sample.nan_repr Sample.handler) Demo.valid_form).
  - exact valid_form_fields_distinct.
  - exact valid_form_reaches_results.
Defined.

(** ** Batch analysis *)

Section BatchProperties.

Import BatchAnalysis.

Implicit Types (df : DataFrame) (predictions : list Z) (confidences : list float).

(** *** Adding the predictions *)

Lemma add_predictions_inr df0 predictions confidences df :
  add_predictions df0 predictions confidences = inr df ↔
  length predictions = nrows df0 ∧ length confidences = nrows df0 ∧
  df = setitem "Performance_Label" (performance_label <$> (VInt <$> predictions))
         (setitem "Confidence" (VFloat <$> confidences)
            (setitem "Predicted_Performance" (VInt <$> predictions) df0)).
Proof.
  unfold add_predictions, assign. rewrite !length_fmap.
  destruct (bool_decide (length predictions = nrows df0)) eqn:Hp; result_simpl.
  - apply bool_decide_eq_true in Hp. cbn [nrows setitem].
    destruct (bool_decide (length confidences = nrows df0)) eqn:Hc; result_simpl.
    + apply bool_decide_eq_true in Hc. unfold column. simpl.
      rewrite lookup_insert_ne by done. rewrite lookup_insert_eq. result_simpl.
      split; [by intros [= <-] | by intros (_ & _ & ->)].
    + apply bool_decide_eq_false in Hc. split; [done | by intros (_ & ? & _)].
  - apply bool_decide_eq_false in Hp. split; [done | by intros (? & _)].
Qed.

Lemma added_columns_lookup df0 predictions confidences df (name : string) :
  add_predictions df0 predictions confidences = inr df →
  name ∉ ["Predicted_Performance"; "Confidence"; "Performance_Label"] →
  columns df !! name = columns df0 !! name.
Proof.
  intros (_ & _ & ->)%add_predictions_inr Hname. simpl.
  rewrite !lookup_insert_ne; [done|..]; intros <-; apply Hname; repeat constructor.
Qed.

Lemma preprocess_data_ok_loaded (float_repr : float → string) (self : WebModelHandler)
    df (X : FeatureFrame) :
  preprocess_data float_repr self df = inr X →
  ∃ encoders features, label_encoders self = Some encoders ∧ feature_names self = Some features.
Proof.
  unfold preprocess_data.
  destruct (label_encoders self) as [encoders|]; [|done].
  destruct (feature_names self) as [features|]; [by eexists _, _|].
  result_simpl. by destruct (for_each _ _ _).
Qed.

(** The outputs of a successful [predict_batch] on a well-formed frame
    fit the frame: the three assignments never raise, they keep every
    other column, and the frame stays well formed. *)
Theorem predictions_fit_the_frame (float_repr : float → string)
    (self : WebModelHandler) df predictions confidences :
  well_formed df →
  predict_batch float_repr self df = inr (predictions, confidences) →
  ∃ df',
    add_predictions df predictions confidences = inr df' ∧
    nrows df' = nrows df ∧ well_formed df' ∧
    columns df' !! "Predicted_Performance" = Some (VInt <$> predictions) ∧
    columns df' !! "Confidence" = Some (VFloat <$> confidences) ∧
    columns df' !! "Performance_Label"
    = Some (performance_label <$> (VInt <$> predictions)) ∧
    (∀ name : string,
       name ∉ ["Predicted_Performance"; "Confidence"; "Performance_Label"] →
       columns df' !! name = columns df !! name).
Proof.
  intros Hwf (X & clf & probas & HX & _ & Hpreds & Hprobas & Hconfs)%predict_batch_inr.
  destruct (preprocess_data_ok_loaded _ _ _ _ HX) as (encoders & features & He & Hf).
  destruct (preprocess_data_shape _ _ _ _ _ _ He Hf HX) as (_ & _ & _ & _ & _ & Hrows).
  specialize (Hrows Hwf).
  apply predict_inr in Hpreds as [_ Hpreds].
  apply predict_proba_inr in Hprobas as [_ Hprobas].
  apply mapM_inr_length in Hpreds, Hprobas, Hconfs.
  assert (length predictions = nrows df) as Hp by congruence.
  assert (length confidences = nrows df) as Hc by congruence.
  eexists. split; [by apply add_predictions_inr|].
  split; [done|]. split.
  { repeat apply well_formed_setitem; rewrite ?length_fmap; done. }
  simpl. split_and!.
  - rewrite !lookup_insert_ne by done. by rewrite lookup_insert_eq.
  - rewrite lookup_insert_ne by done. by rewrite lookup_insert_eq.
  - by rewrite lookup_insert_eq.
  - intros name Hname.
    rewrite !lookup_insert_ne; [done|..]; intros <-; apply Hname; repeat constructor.
Qed.

(** *** The two filters *)

Lemma label_is_good (p : Z) :
  eq_str (performance_label (VInt p)) "Good Performance" = (p =? 1)%Z.
Proof.
  simpl. destruct (p =? 1)%Z; [done|]. by destruct (p =? 0)%Z.
Qed.

Lemma label_is_needs (p : Z) :
  eq_str (performance_label (VInt p)) "Needs Support" = (p =? 0)%Z.
Proof.
  simpl. destruct (p =? 1)%Z eqn:H1.
  - apply Z.eqb_eq in H1 as ->. done.
  - by destruct (p =? 0)%Z.
Qed.

Lemma compress_filter {A B : Type} (test : A → bool) (g : A → B) (l : list A) :
  compress (test <$> l) (g <$> l) = g <$> List.filter test l.
Proof.
  induction l as [|x l IH]; [done|]. rewrite !fmap_cons. cbn [compress List.filter].
  destruct (test x); [rewrite fmap_cons|]; by rewrite IH.
Qed.

Lemma count_true_filter {A : Type} (test : A → bool) (l : list A) :
  count_true (test <$> l) = length (List.filter test l).
Proof.
  unfold count_true. induction l as [|x l IH]; [done|].
  rewrite fmap_cons. cbn [List.filter]. unfold id at 1.
  destruct (test x); cbn [length]; by rewrite IH.
Qed.

Lemma py_sum_foldl (acc : Z) (l : list Z) : foldl Z.add acc l = (acc + py_sum l)%Z.
Proof.
  unfold py_sum. revert acc. induction l as [|x l IH]; intros acc; simpl; [lia|].
  rewrite (IH (acc + x)%Z), (IH (0 + x)%Z). lia.
Qed.

Lemma py_sum_cons (x : Z) (l : list Z) : py_sum (x :: l) = (x + py_sum l)%Z.
Proof. unfold py_sum at 1. simpl. apply py_sum_foldl. Qed.

Lemma py_sum_binary (l : list Z) :
  Forall (λ p, p = 0%Z ∨ p = 1%Z) l →
  py_sum l = Z.of_nat (length (List.filter (λ p, (p =? 1)%Z) l)) ∧
  (Z.of_nat (length l) - py_sum l)%Z = Z.of_nat (length (List.filter (λ p, (p =? 0)%Z) l)).
Proof.
  induction 1 as [|p l [->| ->] _ [IH1 IH0]]; [done|..];
    rewrite py_sum_cons; simpl; simpl in IH0; lia.
Qed.

Lemma label_mask_added df0 predictions confidences df (label : string) :
  add_predictions df0 predictions confidences = inr df →
  label_mask label df
  = inr ((λ p, eq_str (performance_label (VInt p)) label) <$> predictions).
Proof.
  intros (_ & _ & ->)%add_predictions_inr. unfold label_mask, column. simpl.
  rewrite lookup_insert_eq. result_simpl. by rewrite <- !list_fmap_compose.
Qed.

(** On the frame with the predictions, both front-ends show under
    [Good Performance] exactly the rows of class 1 and under
    [Needs Support] exactly the rows of class 0, in their order; when the
    classes are 0 and 1 the sizes of the two views are the two counts of
    the summary; a row of another class is in neither view; and under an
    option that is none of the three the web page shows every row while
    the desktop window shows the rows of class 0. *)
Theorem filters_select_by_class df0 predictions confidences df :
  add_predictions df0 predictions confidences = inr df →
  ∃ good needs,
    show_batch_analysis_filter "Good Performance" df = inr good ∧
    show_batch_analysis_filter "Needs Support" df = inr needs ∧
    filter_data "Good Performance" df = inr good ∧
    filter_data "Needs Support" df = inr needs ∧
    show_batch_analysis_filter "All" df = inr df ∧
    filter_data "All" df = inr df ∧
    columns good !! "Predicted_Performance"
    = Some (VInt <$> List.filter (λ p, (p =? 1)%Z) predictions) ∧
    columns needs !! "Predicted_Performance"
    = Some (VInt <$> List.filter (λ p, (p =? 0)%Z) predictions) ∧
    nrows good = length (List.filter (λ p, (p =? 1)%Z) predictions) ∧
    nrows needs = length (List.filter (λ p, (p =? 0)%Z) predictions) ∧
    (Forall (λ p, p = 0%Z ∨ p = 1%Z) predictions →
     Z.of_nat (nrows good) = py_sum predictions ∧
     Z.of_nat (nrows needs) = (Z.of_nat (length predictions) - py_sum predictions)%Z) ∧
    (∀ filter_option : string,
       filter_option ∉ ["All"; "Good Performance"; "Needs Support"] →
       show_batch_analysis_filter filter_option df = inr df ∧
       filter_data filter_option df = inr needs).
Proof.
  intros Hdf.
  pose proof (label_mask_added _ _ _ _ "Good Performance" Hdf) as Hgood.
  pose proof (label_mask_added _ _ _ _ "Needs Support" Hdf) as Hneeds.
  apply add_predictions_inr in Hdf as (_ & _ & Hdf).
  eexists _, _.
  unfold show_batch_analysis_filter, filter_data. simpl.
  rewrite Hgood, Hneeds. result_simpl.
  split_and!; try reflexivity.
  - rewrite Hdf. simpl. rewrite lookup_fmap.
    rewrite !lookup_insert_ne by done. rewrite lookup_insert_eq. simpl.
    f_equal. rewrite <- compress_filter. f_equal.
    apply list_fmap_ext. intros _ p _. apply label_is_good.
  - rewrite Hdf. simpl. rewrite lookup_fmap.
    rewrite !lookup_insert_ne by done. rewrite lookup_insert_eq. simpl.
    f_equal. rewrite <- compress_filter. f_equal.
    apply list_fmap_ext. intros _ p _. apply label_is_needs.
  - simpl. rewrite count_true_filter. f_equal.
    apply filter_ext. intros p. apply label_is_good.
  - simpl. rewrite count_true_filter. f_equal.
    apply filter_ext. intros p. apply label_is_needs.
  - intros [Hsum Hrest]%py_sum_binary. simpl. rewrite !count_true_filter.
    rewrite (filter_ext _ (λ p, (p =? 1)%Z)) by apply label_is_good.
    rewrite (filter_ext (λ p, eq_str (performance_label (VInt p)) "Needs Support")
               (λ p, (p =? 0)%Z)) by apply label_is_needs.
    lia.
  - intros filter_option Hnot.
    rewrite !bool_decide_eq_false_2; [done|..]; intros ->; apply Hnot; repeat constructor.
Qed.

(** *** The detailed table *)

Lemma display_cols_eq df :
  display_cols df
  = ["age"; "sex"; "studytime"; "failures"; "absences"]
    ++ (if has_column df "G1" then ["G1"] else [])
    ++ (if has_column df "G2" then ["G2"] else [])
    ++ ["Performance_Label"; "Confidence"].
Proof.
  unfold display_cols. by destruct (has_column df "G1"), (has_column df "G2").
Qed.

Lemma has_column_added df0 predictions confidences df (name : string) :
  add_predictions df0 predictions confidences = inr df →
  name ∉ ["Predicted_Performance"; "Confidence"; "Performance_Label"] →
  has_column df name = has_column df0 name.
Proof.
  intros Hdf Hname. unfold has_column.
  by rewrite (added_columns_lookup _ _ _ _ _ Hdf Hname).
Qed.

Lemma count_true_le (mask : list bool) : count_true mask ≤ length mask.
Proof.
  unfold count_true. induction mask as [|b mask IH]; simpl; [lia|].
  destruct b; simpl; lia.
Qed.

Lemma show_batch_analysis_filter_added df0 predictions confidences df
    (filter_option : string) :
  add_predictions df0 predictions confidences = inr df →
  ∃ filtered_df (f : list value → list value),
    show_batch_analysis_filter filter_option df = inr filtered_df ∧
    columns filtered_df = f <$> columns df ∧
    nrows filtered_df ≤ nrows df0.
Proof.
  intros Hdf.
  pose proof (label_mask_added _ _ _ _ "Good Performance" Hdf) as Hgood.
  pose proof (label_mask_added _ _ _ _ "Needs Support" Hdf) as Hneeds.
  apply add_predictions_inr in Hdf as (Hlen & _ & Hdf).
  unfold show_batch_analysis_filter.
  destruct (bool_decide (filter_option = "Good Performance")).
  { rewrite Hgood. result_simpl. eexists _, _. split_and!; [done | done |].
    simpl. etrans; [apply count_true_le|]. rewrite length_fmap. lia. }
  destruct (bool_decide (filter_option = "Needs Support")).
  { rewrite Hneeds. result_simpl. eexists _, _. split_and!; [done | done |].
    simpl. etrans; [apply count_true_le|]. rewrite length_fmap. lia. }
  exists df, id. split_and!; [done | by rewrite map_fmap_id | by rewrite Hdf].
Qed.

Lemma getitem_list_is_ok df (names : list string) :
  is_ok (getitem_list df names) ↔ Forall (λ name, is_Some (columns df !! name)) names.
Proof.
  split; [|apply getitem_list_total].
  intros [X [_ Hcols]%getitem_list_inr]. apply Forall_forall. intros name Hin.
  apply list_elem_of_lookup in Hin as [i Hi].
  destruct (Forall2_lookup_l _ _ _ _ _ Hcols Hi) as (col & _ & _ & Hcol). by eexists.
Qed.

(** The detailed table of the web page is produced exactly when the
    uploaded file has the columns age, sex, studytime, failures and
    absences, although the prediction itself fills a missing feature with
    zeros; its columns are these five, then G1 and G2 where the file has
    them, then the label and the confidence; and it has at most 100
    rows. *)
Theorem detailed_results_table df0 predictions confidences df (filter_option : string) :
  add_predictions df0 predictions confidences = inr df →
  (is_ok (detailed_results filter_option df) ↔
   Forall (λ name, is_Some (columns df0 !! name))
          ["age"; "sex"; "studytime"; "failures"; "absences"]) ∧
  (∀ table, detailed_results filter_option df = inr table →
     (ff_columns table).*1
     = ["age"; "sex"; "studytime"; "failures"; "absences"]
       ++ (if has_column df0 "G1" then ["G1"] else [])
       ++ (if has_column df0 "G2" then ["G2"] else [])
       ++ ["Performance_Label"; "Confidence"] ∧
     ff_nrows table ≤ 100 ∧ ff_nrows table ≤ nrows df0 ∧
     Forall (λ col, length col.2 ≤ 100) (ff_columns table)).
Proof.
  intros Hdf.
  destruct (show_batch_analysis_filter_added _ _ _ _ filter_option Hdf)
    as (filtered_df & f & Hfilter & Hcolumns & Hrows).
  assert (∀ name : string, is_Some (columns filtered_df !! name) ↔ is_Some (columns df !! name))
    as Hsome.
  { intros name. rewrite Hcolumns, lookup_fmap. apply fmap_is_Some. }
  assert (display_cols df
          = ["age"; "sex"; "studytime"; "failures"; "absences"]
            ++ (if has_column df0 "G1" then ["G1"] else [])
            ++ (if has_column df0 "G2" then ["G2"] else [])
            ++ ["Performance_Label"; "Confidence"]) as Hnames.
  { rewrite display_cols_eq.
    rewrite (has_column_added _ _ _ _ "G1" Hdf), (has_column_added _ _ _ _ "G2" Hdf);
      [done|..]; intros Hin; repeat (apply elem_of_cons in Hin as [?|Hin]; [done|]);
      by apply elem_of_nil in Hin. }
  assert (∀ name : string,
            name ∈ ["age"; "sex"; "studytime"; "failures"; "absences"; "G1"; "G2"] →
            columns df !! name = columns df0 !! name) as Hsame.
  { intros name Hname. apply (added_columns_lookup _ _ _ _ _ Hdf).
    intros Hin. revert Hname.
    repeat (apply elem_of_cons in Hin as [->|Hin];
            [intros Hname;
             repeat (apply elem_of_cons in Hname as [?|Hname]; [done|]);
             by apply elem_of_nil in Hname|]).
    by apply elem_of_nil in Hin. }
  assert (is_Some (columns df !! "Performance_Label") ∧ is_Some (columns df !! "Confidence"))
    as [Hlabel Hconf].
  { apply add_predictions_inr in Hdf as (_ & _ & ->). simpl.
    rewrite lookup_insert_eq, lookup_insert_ne by done. rewrite lookup_insert_eq.
    by split; eexists. }
  assert (∀ name : string,
            name ∈ ["age"; "sex"; "studytime"; "failures"; "absences"; "G1"; "G2"] →
            is_Some (columns filtered_df !! name) ↔ is_Some (columns df0 !! name)) as Hfive.
  { intros name Hname. by rewrite Hsome, (Hsame name Hname). }
  assert (∀ name : string,
            name ∈ ["age"; "sex"; "studytime"; "failures"; "absences"] →
            name ∈ ["age"; "sex"; "studytime"; "failures"; "absences"; "G1"; "G2"])
    as Hsub.
  { apply Forall_forall. repeat constructor. }
  unfold detailed_results. rewrite Hfilter. result_simpl. split.
  - transitivity (is_ok (getitem_list filtered_df (display_cols df))).
    { destruct (getitem_list filtered_df (display_cols df)); result_simpl;
        split; intros [? ?]; by eexists. }
    rewrite getitem_list_is_ok, Hnames, !Forall_app, !Forall_forall. split.
    + intros [Hall _] name Hname. apply Hfive; [by apply Hsub | by apply Hall].
    + intros Hall. split_and!.
      * intros name Hname. apply Hfive; [by apply Hsub | by apply Hall].
      * intros name Hname. unfold has_column in Hname.
        destruct (bool_decide (is_Some (columns df0 !! "G1"))) eqn:Hg1;
          [|by apply elem_of_nil in Hname].
        apply list_elem_of_singleton in Hname as ->. apply bool_decide_eq_true in Hg1.
        apply Hfive; [repeat constructor | done].
      * intros name Hname. unfold has_column in Hname.
        destruct (bool_decide (is_Some (columns df0 !! "G2"))) eqn:Hg2;
          [|by apply elem_of_nil in Hname].
        apply list_elem_of_singleton in Hname as ->. apply bool_decide_eq_true in Hg2.
        apply Hfive; [repeat constructor | done].
      * intros name Hname.
        apply elem_of_cons in Hname as [->|Hname]; [by apply Hsome|].
        apply list_elem_of_singleton in Hname as ->. by apply Hsome.
  - intros table Htable.
    destruct (getitem_list filtered_df (display_cols df)) as [e|X] eqn:HX;
      result_simpl; [done|].
    injection Htable as <-. apply getitem_list_inr in HX as [Hn Hcols].
    split_and!.
    + rewrite <- Hnames. simpl. rewrite <- list_fmap_compose.
      apply list_eq. intros i. rewrite list_lookup_fmap.
      destruct (display_cols df !! i) as [name|] eqn:Hi.
      * destruct (Forall2_lookup_l _ _ _ _ _ Hcols Hi) as (col & -> & <- & _). done.
      * apply lookup_ge_None in Hi. rewrite (Forall2_length _ _ _ Hcols) in Hi.
        apply lookup_ge_None in Hi. by rewrite Hi.
    + unfold head. cbn [ff_nrows]. apply Nat.le_min_l.
    + unfold head. cbn [ff_nrows]. etrans; [apply Nat.le_min_r|]. by rewrite Hn.
    + unfold head. cbn [ff_columns]. apply Forall_fmap, Forall_forall.
      intros [name cells] _. unfold prod_map. cbn [snd compose].
      rewrite length_take. apply Nat.le_min_l.
Qed.

(** *** Counting rows *)

Lemma count_where_is_ok (test : value → result bool) df (name : string) :
  is_ok (count_where test df name) ↔
  ∃ cells, columns df !! name = Some cells ∧ Forall (λ v, is_ok (test v)) cells.
Proof.
  unfold count_where, column. destruct (columns df !! name) as [cells|]; result_simpl.
  - split.
    + intros [n Hn]. exists cells. split; [done|]. apply mapM_is_ok_inv.
      destruct (mapM test cells) as [e|mask]; [done | by eexists].
    + intros (cells' & [= <-] & [mask ->]%mapM_is_ok). result_simpl. by eexists.
  - split; [by intros [n Hn] | by intros (cells & ? & _)].
Qed.

Lemma count_where_missing (test : value → result bool) df (name : string) :
  columns df !! name = None → count_where test df name = inl (KeyError name).
Proof. intros Hnone. unfold count_where, column. by rewrite Hnone. Qed.

Lemma le_int_is_ok (v : value) (n : Z) : is_ok (le_int v n) ↔ ∀ s, v ≠ VStr s.
Proof.
  destruct v as [z|f|s]; simpl; split; try done; try by eexists.
  - by intros [b Hb].
  - intros Hs. by destruct (Hs s).
Qed.

Lemma gt_int_is_ok (v : value) (n : Z) : is_ok (gt_int v n) ↔ ∀ s, v ≠ VStr s.
Proof.
  destruct v as [z|f|s]; simpl; split; try done; try by eexists.
  - by intros [b Hb].
  - intros Hs. by destruct (Hs s).
Qed.

Lemma count_where_le_int df (name : string) (n : Z) :
  is_ok (count_where (λ v, le_int v n) df name) ↔
  is_Some (columns df !! name) ∧ numeric_column df name.
Proof.
  rewrite count_where_is_ok. unfold numeric_column.
  setoid_rewrite le_int_is_ok. split.
  - intros (cells & Hcells & Hnum). split; [by eexists|].
    intros cells' Hcells'. congruence.
  - intros [[cells Hcells] Hnum]. exists cells. split; [done | by apply Hnum].
Qed.

Lemma count_where_gt_int df (name : string) (n : Z) :
  is_ok (count_where (λ v, gt_int v n) df name) ↔
  is_Some (columns df !! name) ∧ numeric_column df name.
Proof.
  rewrite count_where_is_ok. unfold numeric_column.
  setoid_rewrite gt_int_is_ok. split.
  - intros (cells & Hcells & Hnum). split; [by eexists|].
    intros cells' Hcells'. congruence.
  - intros [[cells Hcells] Hnum]. exists cells. split; [done | by apply Hnum].
Qed.

Lemma count_where_eq_str df (name text : string) :
  is_ok (count_where (λ v, mret (eq_str v text)) df name) ↔ is_Some (columns df !! name).
Proof.
  rewrite count_where_is_ok. split.
  - intros (cells & Hcells & _). by eexists.
  - intros [cells Hcells]. exists cells. split; [done|].
    apply Forall_forall. intros v _. by eexists.
Qed.

Lemma numeric_column_absent df (name : string) :
  has_column df name = false → numeric_column df name.
Proof.
  intros Hnone%bool_decide_eq_false cells Hcells. destruct Hnone. by eexists.
Qed.

Lemma analyze_risk_factors_guard_nonempty (total_high_risk : nat) :
  total_high_risk ≠ 0 → analyze_risk_factors_guard total_high_risk = None.
Proof. unfold analyze_risk_factors_guard. by destruct total_high_risk. Qed.

(** A stage that is guarded by the presence of its column succeeds
    exactly when the column, if present, can be counted. *)
Lemma guarded_stage_is_ok {A B : Type} (guard : bool) (m : result nat)
    (stage : nat → A) (skip : A) (rest : A → result B) :
  is_ok ((if guard then n ← m; mret (stage n) else mret skip) ≫= rest) ↔
  (guard = true → is_ok m) ∧
  ∀ a, (if guard then n ← m; mret (stage n) else mret skip) = inr a → is_ok (rest a).
Proof.
  destruct guard.
  - destruct m as [e|n]; result_simpl.
    + split; [by intros [? ?] | intros [Hm _]; by destruct (Hm eq_refl)].
    + split.
      * intros Hrest. split; [by eexists | by intros a [= <-]].
      * intros [_ Hrest]. by apply Hrest.
  - result_simpl. split.
    + intros Hrest. split; [done | by intros a [= <-]].
    + intros [_ Hrest]. by apply Hrest.
Qed.

Ltac step_stages :=
  repeat match goal with
  | |- context [if has_column ?d ?n then _ else _] => destruct (has_column d n)
  | |- context [count_where ?t ?d ?n] =>
      destruct (count_where t d n) as [?|?]; result_simpl; [done|]
  end.

Ltac split_conditions :=
  repeat match goal with
  | |- context [more_than ?a ?b ?c] => destruct (more_than a b c)
  | |- context [(0 <? ?n)%nat] => destruct (0 <? n)%nat
  end.

(** [analyze_risk_factors]: an empty frame gives the one message that
    there is no high-risk student, whatever its columns; a non-empty frame
    without the column studytime raises [KeyError], while the columns
    absences, failures, famsup and schoolsup may be absent; on a non-empty
    frame it returns exactly when studytime is present and studytime,
    absences and failures hold no strings; and it returns between one and
    five factors, never none. *)
Theorem analyze_risk_factors_outcome df :
  (nrows df = 0 → analyze_risk_factors df = inr ["No high-risk students identified"]) ∧
  (nrows df ≠ 0 → columns df !! "studytime" = None →
   analyze_risk_factors df = inl (KeyError "studytime")) ∧
  (nrows df ≠ 0 →
   (is_ok (analyze_risk_factors df) ↔
    is_Some (columns df !! "studytime") ∧ numeric_column df "studytime" ∧
    numeric_column df "absences" ∧ numeric_column df "failures")) ∧
  (∀ factors, analyze_risk_factors df = inr factors → 1 ≤ length factors ≤ 5).
Proof.
  split_and!.
  - intros Hn. unfold analyze_risk_factors. by rewrite Hn.
  - intros Hn Hnone. unfold analyze_risk_factors.
    rewrite (analyze_risk_factors_guard_nonempty _ Hn).
    by rewrite (count_where_missing _ _ _ Hnone).
  - intros Hn. unfold analyze_risk_factors.
    rewrite (analyze_risk_factors_guard_nonempty _ Hn). split.
    + intros Hok.
      destruct (count_where (λ v, le_int v 2) df "studytime") as [e|n1] eqn:H1;
        result_simpl; [by destruct Hok|].
      assert (is_ok (count_where (λ v, le_int v 2) df "studytime")) as Hstudy
        by (rewrite H1; by eexists).
      apply count_where_le_int in Hstudy as [Hsome Hstudy].
      split_and!; [done | done | |].
      * destruct (has_column df "absences") eqn:Ha; [|by apply numeric_column_absent].
        destruct (count_where (λ v, gt_int v 10) df "absences") as [e|n2] eqn:H2;
          result_simpl; [by destruct Hok|].
        assert (is_ok (count_where (λ v, gt_int v 10) df "absences")) as Habs
          by (rewrite H2; by eexists).
        by apply count_where_gt_int in Habs as [_ Habs].
      * destruct (has_column df "failures") eqn:Hf; [|by apply numeric_column_absent].
        destruct (count_where (λ v, gt_int v 0) df "failures") as [e|n3] eqn:H3.
        { exfalso. destruct Hok as [factors Hok]. revert Hok. clear.
          step_stages; result_simpl; done. }
        assert (is_ok (count_where (λ v, gt_int v 0) df "failures")) as Hfail
          by (rewrite H3; by eexists).
        by apply count_where_gt_int in Hfail as [_ Hfail].
    + intros (Hsome & Hstudy & Habs & Hfail).
      destruct (proj2 (count_where_le_int df "studytime" 2)) as [n1 ->]; [done|].
      result_simpl.
      repeat match goal with
      | |- context [if has_column ?d ?n then _ else _] =>
          let H := fresh "Hcol" in
          destruct (has_column d n) eqn:H; [apply bool_decide_eq_true in H|]
      | |- context [count_where (λ v, gt_int v ?k) ?d ?n] =>
          destruct (proj2 (count_where_gt_int d n k)) as [? ->]; [by split|]; result_simpl
      | |- context [count_where (λ v, mret (eq_str v ?t)) ?d ?n] =>
          destruct (proj2 (count_where_eq_str d n t)) as [? ->]; [done|]; result_simpl
      end; by eexists.
  - intros factors. unfold analyze_risk_factors.
    destruct (analyze_risk_factors_guard (nrows df)) as [message|].
    { intros [= <-]. simpl. lia. }
    step_stages; intros [= <-]; unfold append_if, append_if_empty;
      split_conditions; cbn [app length]; lia.
Qed.

(** *** Batch recommendations *)

Lemma high_risk_mask_added df0 predictions confidences df :
  add_predictions df0 predictions confidences = inr df →
  high_risk_mask df
  = inr (zip_with andb ((λ v, eq_int v 0) <$> (VInt <$> predictions))
                       ((λ c, (0.7 <? c)%float) <$> confidences)).
Proof.
  intros (_ & _ & ->)%add_predictions_inr. unfold high_risk_mask, column. simpl.
  rewrite (lookup_insert_ne _ "Performance_Label" "Predicted_Performance") by done.
  rewrite (lookup_insert_ne _ "Confidence" "Predicted_Performance") by done.
  rewrite (lookup_insert_ne _ "Performance_Label" "Confidence") by done.
  rewrite !lookup_insert_eq. result_simpl.
  assert (mapM (λ v, gt_float v 0.7) (VFloat <$> confidences)
          = inr ((λ c, (0.7 <? c)%float) <$> confidences)) as ->; [|reflexivity].
  apply mapM_inr. apply Forall2_fmap, Forall_Forall2_diag, Forall_forall.
  intros c _. reflexivity.
Qed.

Ltac generalize_texts :=
  repeat match goal with
  | |- context [append_to _ _ (String.app ?a ?b) _] => generalize (String.app a b); intros ?
  end.

(** [generate_batch_recommendations] on the frame with the predictions:
    it returns exactly when the uploaded file has the columns studytime
    and absences and these and failures hold no strings, and raises
    [KeyError] without studytime even on an empty file; famsup, schoolsup
    and failures may be absent. The result always has the four
    categories in their order, each with one or two recommendations,
    never none. *)
Theorem generate_batch_recommendations_outcome df0 predictions confidences df :
  add_predictions df0 predictions confidences = inr df →
  (is_ok (generate_batch_recommendations df) ↔
   is_Some (columns df0 !! "studytime") ∧ numeric_column df0 "studytime" ∧
   is_Some (columns df0 !! "absences") ∧ numeric_column df0 "absences" ∧
   numeric_column df0 "failures") ∧
  (columns df0 !! "studytime" = None →
   generate_batch_recommendations df = inl (KeyError "studytime")) ∧
  (∀ recommendations, generate_batch_recommendations df = inr recommendations →
     recommendations.*1 = categories.*1 ∧
     Forall (λ item, 1 ≤ length item.2 ≤ 2) recommendations).
Proof.
  intros Hdf.
  pose proof (high_risk_mask_added _ _ _ _ Hdf) as Hmask.
  assert (∀ name : string, name ∈ ["studytime"; "absences"; "failures"] →
            columns df !! name = columns df0 !! name) as Hsame.
  { intros name Hname. apply (added_columns_lookup _ _ _ _ _ Hdf).
    intros Hin. revert Hname.
    repeat (apply elem_of_cons in Hin as [->|Hin];
            [intros Hname;
             repeat (apply elem_of_cons in Hname as [?|Hname]; [done|]);
             by apply elem_of_nil in Hname|]).
    by apply elem_of_nil in Hin. }
  assert (∀ name : string, name ∈ ["studytime"; "absences"; "failures"] →
            numeric_column df name ↔ numeric_column df0 name) as Hnumeric.
  { intros name Hname. unfold numeric_column. by rewrite (Hsame name Hname). }
  rewrite <- (Hsame "studytime"), <- (Hsame "absences") by repeat constructor.
  rewrite <- (Hnumeric "studytime"), <- (Hnumeric "absences"), <- (Hnumeric "failures")
    by repeat constructor.
  clear Hsame Hnumeric Hdf.
  unfold generate_batch_recommendations. rewrite Hmask. result_simpl. clear Hmask.
  split_and!.
  - split.
    + intros Hok.
      destruct (count_where (λ v, le_int v 2) df "studytime") as [e|n1] eqn:H1;
        result_simpl; [by destruct Hok|].
      assert (is_ok (count_where (λ v, le_int v 2) df "studytime")) as Hstudy
        by (rewrite H1; by eexists).
      apply count_where_le_int in Hstudy as [Hsome Hstudy].
      assert (numeric_column df "failures") as Hfail.
      { destruct (has_column df "failures") eqn:Hf; [|by apply numeric_column_absent].
        destruct (count_where (λ v, gt_int v 0) df "failures") as [e|n2] eqn:H2;
          result_simpl; [by destruct Hok|].
        assert (is_ok (count_where (λ v, gt_int v 0) df "failures")) as Hfail
          by (rewrite H2; by eexists).
        by apply count_where_gt_int in Hfail as [_ Hfail]. }
      destruct (count_where (λ v, gt_int v 10) df "absences") as [e|n3] eqn:H3.
      { exfalso. destruct Hok as [recommendations Hok]. revert Hok. clear.
        step_stages; result_simpl; done. }
      assert (is_ok (count_where (λ v, gt_int v 10) df "absences")) as Habs
        by (rewrite H3; by eexists).
      by apply count_where_gt_int in Habs as [Hsome' Habs].
    + intros (Hsome & Hstudy & Hsome' & Habs & Hfail).
      destruct (proj2 (count_where_le_int df "studytime" 2)) as [n1 ->]; [done|].
      result_simpl.
      destruct (proj2 (count_where_gt_int df "absences" 10)) as [n3 ->]; [done|].
      repeat match goal with
      | |- context [if has_column ?d ?n then _ else _] =>
          let H := fresh "Hcol" in
          destruct (has_column d n) eqn:H; [apply bool_decide_eq_true in H|]
      | |- context [count_where (λ v, gt_int v ?k) ?d ?n] =>
          destruct (proj2 (count_where_gt_int d n k)) as [? ->]; [by split|]; result_simpl
      | |- context [count_where (λ v, mret (eq_str v ?t)) ?d ?n] =>
          destruct (proj2 (count_where_eq_str d n t)) as [? ->]; [done|]; result_simpl
      end; by eexists.
  - intros Hnone. by rewrite (count_where_missing _ _ _ Hnone).
  - intros recommendations.
    generalize (nrows (select
      (zip_with andb ((λ v, eq_int v 0) <$> (VInt <$> predictions))
                     ((λ c, (0.7 <? c)%float) <$> confidences)) df)).
    intros high_risk_count.
    step_stages; result_simpl; intros [= <-]; split_conditions; generalize_texts;
      vm_compute; (split; [reflexivity | repeat constructor]).
Qed.

End BatchProperties.

(** ** The empty batch *)

Section EmptyBatch.

Variable np_mean : list float → float.
Variable float_repr : float → string.


End EmptyBatch.

Lemma header_only_well_formed : well_formed Demo.header_only.
Proof.
  apply (bool_decide_unpack (well_formed Demo.header_only)). vm_compute. exact I.
Defined.

(** What the web page reports for the upload without rows. *)
Lemma header_only_summary :
  show_batch_analysis_summary Demo.np_mean Sample.nan_repr Sample.handler Demo.header_only
  = inl (ValueError "Found array with 0 sample(s) (shape=(0, 4)) while a minimum of 1 is required by RandomForestClassifier.").
Proof. vm_compute. reflexivity. Qed.


Lemma class_list_well_formed : well_formed Demo.class_list.
Proof.
  apply (bool_decide_unpack (well_formed Demo.class_list)). vm_compute. exact I.
Defined.

Lemma class_list_predicted :
  predict_batch Sample.nan_repr Sample.handler Demo.class_list
  = inr (Demo.class_predictions, Demo.class_confidences).
Proof. vm_compute. reflexivity. Defined.

Lemma class_list_analysed :
  BatchAnalysis.add_predictions Demo.class_list Demo.class_predictions
    Demo.class_confidences
  = inr Demo.analysed_class.
Proof. vm_compute. reflexivity. Defined.

Lemma predictions_fit_the_frame_example :
  ∃ df',
    BatchAnalysis.add_predictions Demo.class_list Demo.class_predictions
      Demo.class_confidences = inr df' ∧
    nrows df' = nrows Demo.class_list ∧ well_formed df' ∧
    columns df' !! "Predicted_Performance" = Some (VInt <$> Demo.class_predictions) ∧
    columns df' !! "Confidence" = Some (VFloat <$> Demo.class_confidences) ∧
    columns df' !! "Performance_Label"
    = Some (BatchAnalysis.performance_label <$> (VInt <$> Demo.class_predictions)) ∧
    (∀ name : string,
       name ∉ ["Predicted_Performance"; "Confidence"; "Performance_Label"] →
       columns df' !! name = columns Demo.class_list !! name).
Proof.
  apply (predictions_fit_the_frame Sample.nan_repr Sample.handler Demo.class_list).
  - exact class_list_well_formed.
  - exact class_list_predicted.
Defined.

Lemma filters_select_by_class_example :
  ∃ good needs,
    BatchAnalysis.show_batch_analysis_filter "Good Performance" Demo.analysed_class
    = inr good ∧
    BatchAnalysis.show_batch_analysis_filter "Needs Support" Demo.analysed_class
    = inr needs ∧
    BatchAnalysis.filter_data "Good Performance" Demo.analysed_class = inr good ∧
    BatchAnalysis.filter_data "Needs Support" Demo.analysed_class = inr needs ∧
    BatchAnalysis.show_batch_analysis_filter "All" Demo.analysed_class
    = inr Demo.analysed_class ∧
    BatchAnalysis.filter_data "All" Demo.analysed_class = inr Demo.analysed_class ∧
    columns good !! "Predicted_Performance"
    = Some (VInt <$> List.filter (λ p, (p =? 1)%Z) Demo.class_predictions) ∧
    columns needs !! "Predicted_Performance"
    = Some (VInt <$> List.filter (λ p, (p =? 0)%Z) Demo.class_predictions) ∧
    nrows good = length (List.filter (λ p, (p =? 1)%Z) Demo.class_predictions) ∧
    nrows needs = length (List.filter (λ p, (p =? 0)%Z) Demo.class_predictions) ∧
    (Forall (λ p, p = 0%Z ∨ p = 1%Z) Demo.class_predictions →
     Z.of_nat (nrows good) = py_sum Demo.class_predictions ∧
     Z.of_nat (nrows needs)
     = (Z.of_nat (length Demo.class_predictions) - py_sum Demo.class_predictions)%Z) ∧
    (∀ filter_option : string,
       filter_option ∉ ["All"; "Good Performance"; "Needs Support"] →
       BatchAnalysis.show_batch_analysis_filter filter_option Demo.analysed_class
       = inr Demo.analysed_class ∧
       BatchAnalysis.filter_data filter_option Demo.analysed_class = inr needs).
Proof.
  apply (filters_select_by_class Demo.class_list Demo.class_predictions
           Demo.class_confidences Demo.analysed_class).
  exact class_list_analysed.
Defined.

Lemma detailed_results_table_example :
  (is_ok (BatchAnalysis.detailed_results "Needs Support" Demo.analysed_class) ↔
   Forall (λ name, is_Some (columns Demo.class_list !! name))
          ["age"; "sex"; "studytime"; "failures"; "absences"]) ∧
  (∀ table, BatchAnalysis.detailed_results "Needs Support" Demo.analysed_class = inr table →
     (ff_columns table).*1
     = ["age"; "sex"; "studytime"; "failures"; "absences"]
       ++ (if BatchAnalysis.has_column Demo.class_list "G1" then ["G1"] else [])
       ++ (if BatchAnalysis.has_column Demo.class_list "G2" then ["G2"] else [])
       ++ ["Performance_Label"; "Confidence"] ∧
     ff_nrows table ≤ 100 ∧ ff_nrows table ≤ nrows Demo.class_list ∧
     Forall (λ col, length col.2 ≤ 100) (ff_columns table)).
Proof.
  apply (detailed_results_table Demo.class_list Demo.class_predictions
           Demo.class_confidences Demo.analysed_class "Needs Support").
  exact class_list_analysed.
Defined.

Lemma generate_batch_recommendations_outcome_example :
  (is_ok (BatchAnalysis.generate_batch_recommendations Demo.analysed_class) ↔
   is_Some (columns Demo.class_list !! "studytime") ∧
   BatchAnalysis.numeric_column Demo.class_list "studytime" ∧
   is_Some (columns Demo.class_list !! "absences") ∧
   BatchAnalysis.numeric_column Demo.class_list "absences" ∧
   BatchAnalysis.numeric_column Demo.class_list "failures") ∧
  (columns Demo.class_list !! "studytime" = None →
   BatchAnalysis.generate_batch_recommendations Demo.analysed_class
   = inl (KeyError "studytime")) ∧
  (∀ recommendations,
     BatchAnalysis.generate_batch_recommendations Demo.analysed_class
     = inr recommendations →
     recommendations.*1 = BatchAnalysis.categories.*1 ∧
     Forall (λ item, 1 ≤ length item.2 ≤ 2) recommendations).
Proof.
  apply (generate_batch_recommendations_outcome Demo.class_list Demo.class_predictions
           Demo.class_confidences Demo.analysed_class).
  exact class_list_analysed.
Defined.

(** The recommendations for the class list: two of the three students
    study little, one is at high risk, one has failed before, one is often
    absent, and two lack family support. *)
Lemma class_list_recommendations :
  BatchAnalysis.generate_batch_recommendations Demo.analysed_class
  = inr [ ("🎯 Immediate Actions",
           ["Prioritize 2 high-risk students for immediate intervention";
            "Address low study time issue affecting 2 students"]);
          ("📚 Academic Interventions",
           ["Provide remedial support for 1 students with past failures";
            "Implement attendance improvement programs for 1 students"]);
          ("👨‍👩‍👧‍👦 Family Engagement",
           ["Increase family engagement for 2 students lacking support"]);
          ("🏫 School Programs", ["Evaluate and enhance existing programs"]) ].
Proof. vm_compute. reflexivity. Qed.

(** The risk factors of the two high-risk students of the class list. *)
Lemma class_list_risk_factors :
  BatchAnalysis.high_risk_mask Demo.analysed_class = inr [true; false; true] ∧
  BatchAnalysis.analyze_risk_factors
    (BatchAnalysis.select [true; false; true] Demo.analysed_class)
  = inr ["1/2 high-risk students have high absence rates (>10)";
         "2/2 high-risk students lack family educational support"].
Proof. split; vm_compute; reflexivity. Qed.
